(** * Document automation: grouping, placeholder substitution, table fill

    A shallow embedding of [app.py] (the Flask application) and of the
    stand-alone generator scripts it grew from.  The embedded parts are

    - the placeholder engine: [xpath_replace],
      [replace_placeholder_in_paragraph], [global_replace];
    - the driver [generate_documents]: column validation, normalisation of the
      grouping column, [groupby], title derivation, topology image insertion,
      table fill, saving and archiving;
    - the spreadsheet helpers [api_excel_autofill_ring],
      [api_excel_autofill_hostname] and [find_nearest_cag].

    Python values are modelled as follows.  A [str] is a list of characters
    (code points below 256); a pandas cell read with [dtype=str] is an
    [option]: [None] is NaN.  A python-docx document is a record of run lists
    (see [Docx]).  Functions that mutate their argument return the new
    value. *)

From Stdlib Require Import Ascii String DecimalString.
From Stdlib Require Import List Bool Arith Lia ZArith NArith Permutation.
From Stdlib Require Import Sorted.
Import ListNotations.

Local Open Scope list_scope.

(** ** Python strings *)

Definition text := list ascii.

(** A literal, written as a Rocq string. *)
Definition lit (s : string) : text := list_ascii_of_string s.

Module Py.

(** [a == b] on [str]. *)
Fixpoint eqb (a b : text) : bool :=
  match a, b with
  | [], [] => true
  | x :: a', y :: b' => Ascii.eqb x y && eqb a' b'
  | _, _ => false
  end.

(** Truth value of a [str]: non-empty. *)
Definition truthy (s : text) : bool :=
  match s with [] => false | _ :: _ => true end.

(** [c.isspace()] for a code point below 256: TAB..CR, FS..US, SPACE,
    NEL and NBSP.  [str.strip] and the regex class [\s] both use it. *)
Definition isspace (c : ascii) : bool :=
  let n := N_of_ascii c in
  ((9 <=? n) && (n <=? 13) || (28 <=? n) && (n <=? 32)
   || (n =? 133) || (n =? 160))%N.

Fixpoint lstrip (s : text) : text :=
  match s with
  | [] => []
  | c :: s' => if isspace c then lstrip s' else s
  end.

Definition rstrip (s : text) : text := rev (lstrip (rev s)).

(** [s.strip()]. *)
Definition strip (s : text) : text := rstrip (lstrip s).

(** [c.lower()] for a code point below 256. *)
Definition lower_char (c : ascii) : ascii :=
  let n := N_of_ascii c in
  if ((65 <=? n) && (n <=? 90)
      || (192 <=? n) && (n <=? 222) && negb (n =? 215))%N
  then ascii_of_N (n + 32) else c.

(** [s.lower()]. *)
Definition lower (s : text) : text := map lower_char s.

(** [s.startswith(p)]. *)
Fixpoint startswith (p s : text) : bool :=
  match p, s with
  | [], _ => true
  | _ :: _, [] => false
  | a :: p', b :: s' => Ascii.eqb a b && startswith p' s'
  end.

(** [p in s]. *)
Fixpoint contains (p s : text) : bool :=
  startswith p s ||
  match s with
  | [] => false
  | _ :: s' => contains p s'
  end.

(** The scan of [s.replace(old, new)] for a non-empty [old]: [skip] counts
    the characters of a match that are still to be passed over. *)
Fixpoint replace_from (old new : text) (skip : nat) (s : text) : text :=
  match s with
  | [] => []
  | c :: s' =>
      match skip with
      | S k => replace_from old new k s'
      | O =>
          if startswith old s
          then new ++ replace_from old new (length old - 1) s'
          else c :: replace_from old new 0 s'
      end
  end.

(** [s.replace(old, new)]: leftmost non-overlapping occurrences; an empty
    [old] matches before every character and at the end. *)
Definition replace (old new s : text) : text :=
  match old with
  | [] => new ++ flat_map (fun c => c :: new) s
  | _ :: _ => replace_from old new 0 s
  end.

(** [sep.join(parts)]. *)
Fixpoint join (sep : text) (parts : list text) : text :=
  match parts with
  | [] => []
  | [x] => x
  | x :: rest => x ++ sep ++ join sep rest
  end.

(** [s.split(sep)] for a one-character separator; [cur] is the field being
    read, reversed. *)
Fixpoint split_from (sep : ascii) (cur : text) (s : text) : list text :=
  match s with
  | [] => [rev cur]
  | c :: s' =>
      if Ascii.eqb c sep then rev cur :: split_from sep [] s'
      else split_from sep (c :: cur) s'
  end.

Definition split (sep : ascii) (s : text) : list text := split_from sep [] s.

(** [re.sub(r'\s+', ' ', s)]: every maximal run of white space becomes one
    space.  [in_run] tells that the previous character was white space. *)
Fixpoint collapse_from (in_run : bool) (s : text) : text :=
  match s with
  | [] => []
  | c :: s' =>
      if isspace c
      then (if in_run then collapse_from true s'
            else " "%char :: collapse_from true s')
      else c :: collapse_from false s'
  end.

Definition collapse_spaces (s : text) : text := collapse_from false s.

(** The characters [sanitize_filename] deletes: backslash, slash, star,
    question mark, colon, double quote (code 34), angle brackets, bar. *)
Definition unsafe_char (c : ascii) : bool :=
  existsb (Ascii.eqb c) (lit "\/*?:<>|") || (N_of_ascii c =? 34)%N.

(** [str(n)] for a non-negative [int]. *)
Definition str_of_nat (n : nat) : text :=
  lit (NilEmpty.string_of_uint (Nat.to_uint n)).

(** Lexicographic [<=] on [str], by code point. *)
Fixpoint leb (a b : text) : bool :=
  match a, b with
  | [], _ => true
  | _ :: _, [] => false
  | x :: a', y :: b' =>
      match Ascii.compare x y with
      | Lt => true
      | Gt => false
      | Eq => leb a' b'
      end
  end.

(** Position of the first element satisfying [f] ([list.index]). *)
Fixpoint index_of {A : Type} (f : A -> bool) (l : list A) : option nat :=
  match l with
  | [] => None
  | x :: l' => if f x then Some 0 else option_map S (index_of f l')
  end.

End Py.

(** ** Documents (python-docx)

    Only what the program reads or writes is kept.  A run carries its font
    and either one text node ([w:t]) or a picture; a paragraph is the list
    of its runs; [para.text] is the concatenation of the run texts. *)

Module Docx.

Record Font := mkFont {
  font_name : option text;
  font_size : option Z        (* points *)
}.

Definition no_font : Font := mkFont None None.

Inductive RunContent :=
| Text (s : text)
| Picture (path : text) (width_emu : Z).

Record Run := mkRun {
  r_font : Font;
  r_content : RunContent
}.

(** [run.text]: a picture contributes no text. *)
Definition run_text (r : Run) : text :=
  match r_content r with
  | Text s => s
  | Picture _ _ => []
  end.

(** [run.text = s]: the content of the run is replaced, its properties
    stay. *)
Definition set_run_text (r : Run) (s : text) : Run :=
  mkRun (r_font r) (Text s).

(** The text nodes below a run, as an XPath query for [w:t] sees them. *)
Definition run_nodes (r : Run) : list text :=
  match r_content r with
  | Text [] => []
  | Text s => [s]
  | Picture _ _ => []
  end.

Definition Paragraph := list Run.

Definition para_text (p : Paragraph) : text := concat (map run_text p).

(** [Inches(x)] in English Metric Units. *)
Definition inches_6 : Z := 5486400.
Definition inches_5_5 : Z := 5029200.

(** [para.clear(); run = para.add_run(); run.add_picture(path, width)]. *)
Definition picture_paragraph (path : text) (width : Z) : Paragraph :=
  [mkRun no_font (Picture path width)].

(** [para.clear(); para.add_run()] when [add_picture] then raises. *)
Definition cleared_paragraph : Paragraph := [mkRun no_font (Text [])].

Inductive Width := W_auto | W_fixed (w : Z).

(** A table cell: its width ([w:tcW]), its own paragraphs, and the
    paragraphs of tables nested in it, which [cell.paragraphs] does not
    give. *)
Record Cell := mkCell {
  c_width : option Width;
  c_paras : list Paragraph;
  c_nested : list Paragraph
}.

(** [cell.text]. *)
Definition cell_text (c : Cell) : text :=
  Py.join [ascii_of_nat 10] (map para_text (c_paras c)).

(** [cell.text = s]: the content is replaced by one paragraph of one run. *)
Definition set_cell_text (c : Cell) (s : text) : Cell :=
  mkCell (c_width c) [[mkRun no_font (Text s)]] [].

Definition Row := list Cell.

Record Table := mkTable {
  t_style : option text;
  t_autofit : bool;
  t_width : option Width;
  t_grid : list (option Z);      (* [w:gridCol] widths *)
  t_rows : list Row
}.

(** [table.add_row()]: one cell per grid column, each with one empty
    paragraph and the width of its column. *)
Definition new_row (t : Table) : Row :=
  map (fun w => mkCell (option_map W_fixed w) [[]] []) (t_grid t).

(** References of a section to its six header and footer parts, as
    positions in [d_parts].  A header linked to the previous section refers
    to the part of that section. *)
Record Section := mkSection {
  s_header : nat;
  s_first_page_header : nat;
  s_even_page_header : nat;
  s_footer : nat;
  s_first_page_footer : nat;
  s_even_page_footer : nat
}.

(** A document: the paragraphs and tables that are children of the body
    ([doc.paragraphs], [doc.tables]), the paragraphs of the body that only
    the XML tree reaches (text boxes, floating tables), the header and
    footer parts, and the sections. *)
Record Document := mkDocument {
  d_paras : list Paragraph;
  d_tables : list Table;
  d_deep : list Paragraph;
  d_parts : list (list Paragraph);
  d_sections : list Section
}.

Definition paras_nodes (ps : list Paragraph) : list text :=
  flat_map (fun p => flat_map run_nodes p) ps.

Definition cell_nodes (c : Cell) : list text :=
  paras_nodes (c_paras c) ++ paras_nodes (c_nested c).

Definition table_cells (t : Table) : list Cell := concat (t_rows t).

(** Every text node under [doc.element.body]. *)
Definition body_nodes (d : Document) : list text :=
  paras_nodes (d_paras d)
  ++ flat_map cell_nodes (flat_map table_cells (d_tables d))
  ++ paras_nodes (d_deep d).

Definition section_refs (s : Section) : list nat :=
  [s_header s; s_first_page_header s; s_even_page_header s;
   s_footer s; s_first_page_footer s; s_even_page_footer s].

(** The header and footer parts the sections refer to. *)
Definition doc_refs (d : Document) : list nat :=
  flat_map section_refs (d_sections d).

Definition part_nodes (d : Document) (i : nat) : list text :=
  match nth_error (d_parts d) i with
  | Some part => paras_nodes part
  | None => []
  end.

(** Every text node of the document: body, headers and footers. *)
Definition doc_nodes (d : Document) : list text :=
  body_nodes d ++ flat_map (part_nodes d) (doc_refs d).

Definition is_picture (r : Run) : bool :=
  match r_content r with
  | Picture _ _ => true
  | Text _ => false
  end.

Definition paras_pictures (ps : list Paragraph) : nat :=
  List.length (filter is_picture (concat ps)).

(** Number of pictures in the body. *)
Definition body_pictures (d : Document) : nat :=
  paras_pictures (d_paras d)
  + list_sum (map (fun c => paras_pictures (c_paras c) + paras_pictures (c_nested c))
                  (flat_map table_cells (d_tables d)))
  + paras_pictures (d_deep d).

End Docx.

Import Docx.

(** ** Loops that count

    The loops of the placeholder engine update the elements they visit and
    count the replacements.  [visit f l] runs [f] on every element, in
    order, and adds the counts. *)

Fixpoint visit {A : Type} (f : A -> A * nat) (l : list A) : list A * nat :=
  match l with
  | [] => ([], 0)
  | x :: l' =>
      let (x', n) := f x in
      let (l'', m) := visit f l' in
      (x' :: l'', n + m)
  end.

(** ** The placeholder engine ([app.py], helper functions) *)

(** One iteration of the loop of [xpath_replace]: a text node that is not
    empty and contains the placeholder is rewritten. *)
Definition replace_node (placeholder replacement : text) (r : Run) : Run * nat :=
  match r_content r with
  | Text s =>
      if Py.truthy s && Py.contains placeholder s
      then (set_run_text r (Py.replace placeholder replacement s), 1)
      else (r, 0)
  | Picture _ _ => (r, 0)
  end.

(** [xpath_replace(element, placeholder, replacement)] on an element given
    by the paragraphs below it: all [w:t] nodes are visited. *)
Definition xpath_replace (element : list Paragraph)
    (placeholder replacement : text) : list Paragraph * nat :=
  visit (visit (replace_node placeholder replacement)) element.

(** The first loop of [replace_placeholder_in_paragraph]: the first run
    whose text contains the placeholder is rewritten, and the function
    returns. *)
Fixpoint replace_in_first_run (placeholder replacement : text)
    (runs : list Run) : option (list Run) :=
  match runs with
  | [] => None
  | run :: rest =>
      if Py.truthy (run_text run) && Py.contains placeholder (run_text run)
      then Some (set_run_text run
                   (Py.replace placeholder replacement (run_text run)) :: rest)
      else option_map (cons run)
             (replace_in_first_run placeholder replacement rest)
  end.

(** The second loop: the first run receives the new text, the others the
    empty string. *)
Definition rewrite_runs (new_text : text) (runs : list Run) : list Run :=
  match runs with
  | [] => []
  | first :: rest =>
      set_run_text first new_text :: map (fun run => set_run_text run []) rest
  end.

Definition replace_placeholder_in_paragraph (para : Paragraph)
    (placeholder replacement : text) : Paragraph * bool :=
  let full_text := concat (map run_text para) in
  if negb (Py.contains placeholder full_text) then (para, false)
  else
    match replace_in_first_run placeholder replacement para with
    | Some para' => (para', true)
    | None =>
        let new_text := Py.replace placeholder replacement full_text in
        (rewrite_runs new_text para, true)
    end.

(** The body of the paragraph loops of [global_replace]. *)
Definition replace_para (placeholder replacement : text)
    (para : Paragraph) : Paragraph * nat :=
  if Py.contains placeholder (para_text para)
  then
    let (para', done) :=
      replace_placeholder_in_paragraph para placeholder replacement in
    (para', if done then 1 else 0)
  else (para, 0).

Definition replace_cell_paras (placeholder replacement : text)
    (c : Cell) : Cell * nat :=
  let (ps, n) := visit (replace_para placeholder replacement) (c_paras c) in
  (mkCell (c_width c) ps (c_nested c), n).

Definition replace_table_paras (placeholder replacement : text)
    (t : Table) : Table * nat :=
  let (rows, n) :=
    visit (visit (replace_cell_paras placeholder replacement)) (t_rows t) in
  (mkTable (t_style t) (t_autofit t) (t_width t) (t_grid t) rows, n).

(** [xpath_replace] below a cell and below a table. *)
Definition xpath_cell (placeholder replacement : text) (c : Cell) : Cell * nat :=
  let (ps, n) := xpath_replace (c_paras c) placeholder replacement in
  let (ns, m) := xpath_replace (c_nested c) placeholder replacement in
  (mkCell (c_width c) ps ns, n + m).

Definition xpath_table (placeholder replacement : text) (t : Table) : Table * nat :=
  let (rows, n) := visit (visit (xpath_cell placeholder replacement)) (t_rows t) in
  (mkTable (t_style t) (t_autofit t) (t_width t) (t_grid t) rows, n).

(** [xpath_replace(doc.element.body, ...)]. *)
Definition xpath_body (placeholder replacement : text)
    (d : Document) : Document * nat :=
  let (ps, n1) := xpath_replace (d_paras d) placeholder replacement in
  let (ts, n2) := visit (xpath_table placeholder replacement) (d_tables d) in
  let (fs, n3) := xpath_replace (d_deep d) placeholder replacement in
  (mkDocument ps ts fs (d_parts d) (d_sections d), n1 + n2 + n3).

Fixpoint update_at {A : Type} (i : nat) (x : A) (l : list A) : list A :=
  match l, i with
  | [], _ => []
  | _ :: l', O => x :: l'
  | y :: l', S j => y :: update_at j x l'
  end.

(** [xpath_replace(header._element, ...)] for the part at position [i]. *)
Definition xpath_part (placeholder replacement : text)
    (parts : list (list Paragraph)) (i : nat) : list (list Paragraph) * nat :=
  match nth_error parts i with
  | Some part =>
      let (part', n) := xpath_replace part placeholder replacement in
      (update_at i part' parts, n)
  | None => (parts, 0)
  end.

(** The loop over the sections, their three headers, then their three
    footers. *)
Fixpoint xpath_parts (placeholder replacement : text)
    (parts : list (list Paragraph)) (refs : list nat)
    : list (list Paragraph) * nat :=
  match refs with
  | [] => (parts, 0)
  | i :: refs' =>
      let (parts', n) := xpath_part placeholder replacement parts i in
      let (parts'', m) := xpath_parts placeholder replacement parts' refs' in
      (parts'', n + m)
  end.

Definition global_replace (doc : Document) (placeholder replacement : text)
    : Document * nat :=
  let (ps, n1) := visit (replace_para placeholder replacement) (d_paras doc) in
  let (ts, n2) :=
    visit (replace_table_paras placeholder replacement) (d_tables doc) in
  let doc1 := mkDocument ps ts (d_deep doc) (d_parts doc) (d_sections doc) in
  let (doc2, n3) := xpath_body placeholder replacement doc1 in
  let (parts, n4) :=
    xpath_parts placeholder replacement (d_parts doc2) (doc_refs doc2) in
  (mkDocument (d_paras doc2) (d_tables doc2) (d_deep doc2) parts
     (d_sections doc2),
   n1 + n2 + n3 + n4).

(** [sanitize_filename]. *)
Definition sanitize_filename (filename : text) : text :=
  filter (fun c => negb (Py.unsafe_char c)) filename.

(** [reset_table_width]: the table and every cell get an automatic
    width. *)
Definition reset_table_width (t : Table) : Table :=
  mkTable (t_style t) true (Some W_auto) (t_grid t)
    (map (map (fun c => mkCell (Some W_auto) (c_paras c) (c_nested c)))
       (t_rows t)).

(** ** Data frames (pandas)

    A frame read with [dtype=str]: the header names and the rows, each a
    list of cells in header order.  [None] is NaN.  The index is the
    default one, the row position. *)

Definition cell := option text.

Record DataFrame := mkFrame {
  columns : list text;
  rows : list (list cell)
}.

(** Every row has one cell per column. *)
Definition rectangular (df : DataFrame) : Prop :=
  Forall (fun row => List.length row = List.length (columns df)) (rows df).

(** [name in df.columns]. *)
Definition has_column (cols : list text) (name : text) : bool :=
  existsb (Py.eqb name) cols.

(** Position of the column called [name]. *)
Definition column_pos (cols : list text) (name : text) : option nat :=
  Py.index_of (Py.eqb name) cols.

(** The label names one column at most.  Stripping the header can leave
    two columns with one label; pandas then selects both: [df[name]] is a
    frame, on which [.str] raises [AttributeError], and [row.get(name)] is
    a [Series], on which the [pd.notna] test raises [ValueError] and of
    which [str] is the printed [Series].  The definitions below that read
    a column through [column_pos] describe the code for labels that are
    unambiguous, and the properties that read a column assume it. *)
Definition unambiguous (cols : list text) (name : text) : Prop :=
  List.length (filter (Py.eqb name) cols) <= 1.

(** More than one column carries the label. *)
Definition ambiguous (cols : list text) (name : text) : bool :=
  1 <? List.length (filter (Py.eqb name) cols).

(** [row.get(name, default)] for an [unambiguous] label; [None] stands for
    the default. *)
Definition row_get (cols : list text) (row : list cell) (name : text)
    : option cell :=
  match column_pos cols name with
  | Some i => Some (nth i row None)
  | None => None
  end.

(** [pd.notna(v)] and [str(v)] for a cell. *)
Definition notna (v : cell) : bool :=
  match v with Some _ => true | None => false end.

Definition py_str (v : cell) : text :=
  match v with Some s => s | None => lit "nan" end.

(** [str(row.get(name, ''))] for an [unambiguous] label. *)
Definition get_str (cols : list text) (row : list cell) (name : text) : text :=
  match row_get cols row name with
  | Some v => py_str v
  | None => []
  end.

(** The two assignments that normalise the grouping column:
    [fillna('').astype(str).str.strip()], then
    [str.replace(r'\s+', ' ', regex=True)]. *)
Definition normalize_key (v : cell) : text :=
  let filled := match v with Some s => s | None => [] end in
  Py.collapse_spaces (Py.strip filled).

Definition normalize_column (pos : nat) (rs : list (list cell))
    : list (list cell) :=
  map (fun row => update_at pos (Some (normalize_key (nth pos row None))) row)
      rs.

(** Rows with their index labels. *)
Definition labelled (rs : list (list cell)) : list (nat * list cell) :=
  combine (seq 0 (List.length rs)) rs.

(** [Series.unique()]: the distinct values, in order of first appearance. *)
Fixpoint unique_from (seen : list text) (l : list text) : list text :=
  match l with
  | [] => []
  | x :: l' =>
      if existsb (Py.eqb x) seen then unique_from seen l'
      else x :: unique_from (x :: seen) l'
  end.

Definition unique (l : list text) : list text := unique_from [] l.

Fixpoint insert_sorted (k : text) (l : list text) : list text :=
  match l with
  | [] => [k]
  | x :: l' => if Py.leb k x then k :: l else x :: insert_sorted k l'
  end.

Definition sort_keys (l : list text) : list text :=
  fold_right insert_sorted [] l.

Definition key_at (pos : nat) (r : nat * list cell) : cell :=
  nth pos (snd r) None.

Definition has_key (pos : nat) (k : text) (r : nat * list cell) : bool :=
  match key_at pos r with
  | Some k' => Py.eqb k k'
  | None => false
  end.

(** The keys that occur, NaN left out. *)
Fixpoint present_keys (pos : nat) (rs : list (nat * list cell)) : list text :=
  match rs with
  | [] => []
  | r :: rs' =>
      match key_at pos r with
      | Some k => k :: present_keys pos rs'
      | None => present_keys pos rs'
      end
  end.

(** [df.groupby(col)], iterated: the distinct keys in ascending order, each
    with its rows in frame order.  Rows whose key is NaN belong to no
    group (the pandas default [dropna=True]). *)
Definition groupby (pos : nat) (rs : list (nat * list cell))
    : list (text * list (nat * list cell)) :=
  map (fun k => (k, filter (has_key pos k) rs))
      (sort_keys (unique (present_keys pos rs))).

(** ** Scope configuration and environment *)

Record Scope := mkScope {
  template_file : text;
  excel_sheet : text;
  table_keyword : text;
  title_col : text;
  ring_col : text;
  columns_mapping : list text;
  region_col : option text;
  ring_121_col : option text;
  has_topology_image : bool
}.

(** What the driver reads from outside: the clock, the file system, the
    spreadsheet and template readers, and the pandas [value_counts], whose
    order among equal counts is not fixed. *)
Record Env := mkEnv {
  timestamp : text;                       (* '%Y-%m-%d_%H%M%S' *)
  today_str : text;                       (* '%d-%b' *)
  change_time : text;                     (* the 23:00 .. 05:00 window *)
  output_root : text;
  read_excel : text -> text -> option DataFrame;
  load_template : text -> option Document;
  path_exists : text -> bool;
  picture_ok : text -> bool;              (* [add_picture] does not raise *)
  value_counts : list text -> list (text * nat)
}.

Inductive Message :=
| MsgScopeNotFound (scope_key : text)
| MsgExcelError
| MsgMissingColumns (missing : list text)
| MsgTemplateNotFound
| MsgGenerated (count : nat).

Inductive LogEntry :=
| LogScopeNotFound (scope_key : text)
| LogStart (scope_key : text)
| LogTopologyImages (count : nat)
| LogFolder (name : text)
| LogExcelRead (count : nat)
| LogExcelError
| LogMissingColumns (missing : list text)
| LogColumnsValid
| LogUniqueRings (rings : list text)
| LogGroups (count : nat)
| LogProcessing (current total : nat) (title : text)
| LogTemplateNotFound (file : text)
| LogImageInserted (ring : text)
| LogImageInsertedInTable (ring : text)
| LogImageFailed (ring : text)
| LogNoImage (ring : text)
| LogZip (name : text)
| LogDone (count : nat).

(** The files the run leaves behind. *)
Record Outputs := mkOutputs {
  folders : list text;
  documents : list (text * Document);           (* path, content *)
  archives : list (text * list (text * text))   (* path, (file, name in archive) *)
}.

Definition no_outputs : Outputs := mkOutputs [] [] [].

(** ** The driver ([generate_documents]) *)

Definition DOC_TITLE := lit "{{DOC_TITLE}}".
Definition DOC_DATE := lit "{{DOC_DATE}}".
Definition CHANGE_TIME := lit "{{CHANGE_TIME}}".
Definition CHANGE_SCOPE := lit "{{CHANGE_SCOPE}}".
Definition CHANGE_RING_121 := lit "{{CHANGE_RING_121}}".
Definition TOPOLOGY_IMAGE := lit "{{TOPOLOGY_IMAGE}}".

(** The placeholder tokens of a template. *)
Definition placeholders : list text :=
  [DOC_TITLE; DOC_DATE; CHANGE_TIME; CHANGE_SCOPE; CHANGE_RING_121;
   TOPOLOGY_IMAGE].

(** The required columns that the frame lacks. *)
Definition missing_columns (cfg : Scope) (cols : list text) : list text :=
  filter (fun c => negb (has_column cols c))
         (columns_mapping cfg ++ [ring_col cfg; title_col cfg]).

(** The grouping step: normalise the grouping column, then group.  For a
    grouping label that is not [unambiguous] the first assignment raises
    ([df[label]] has no [.str]) and nothing is grouped; the functions
    describe the step for an [unambiguous] label. *)
Definition unique_rings (cfg : Scope) (cols : list text)
    (rs : list (list cell)) : list text :=
  match column_pos cols (ring_col cfg) with
  | Some pos => unique (present_keys pos (labelled (normalize_column pos rs)))
  | None => []
  end.

Definition group_records (cfg : Scope) (cols : list text)
    (rs : list (list cell)) : list (text * list (nat * list cell)) :=
  match column_pos cols (ring_col cfg) with
  | Some pos => groupby pos (labelled (normalize_column pos rs))
  | None => []
  end.

Definition fallback_title (group_name : text) : text :=
  lit "Doc - " ++ group_name.

(** [raw_title] and [doc_title], for an [unambiguous] title label. *)
Definition doc_title (cfg : Scope) (cols : list text) (group_name : text)
    (group_data : list (nat * list cell)) : text :=
  let first := snd (hd (0, []) group_data) in
  match row_get cols first (title_col cfg) with
  | Some raw_title =>
      if notna raw_title then py_str raw_title else fallback_title group_name
  | None => fallback_title group_name
  end.

(** The text for [{{CHANGE_SCOPE}}]. *)
Definition is_nan_text (s : text) : bool := Py.eqb (Py.lower s) (lit "nan").

Fixpoint column_values (pos : nat) (rs : list (nat * list cell)) : list text :=
  match rs with
  | [] => []
  | r :: rs' =>
      match key_at pos r with
      | Some v => v :: column_values pos rs'
      | None => column_values pos rs'
      end
  end.

Definition ne_type_summary (env : Env) (pos : nat)
    (group_data : list (nat * list cell)) : text :=
  let ne_type_counts := value_counts env (column_values pos group_data) in
  let total_devices := list_sum (map snd ne_type_counts) in
  let header := lit "Total " ++ Py.str_of_nat total_devices ++ lit " Device:" in
  let lines :=
    map (fun tc => Py.str_of_nat (snd tc) ++ lit " * " ++ fst tc)
        (filter (fun tc => Py.truthy (fst tc) && negb (is_nan_text (fst tc)))
                ne_type_counts) in
  Py.join [ascii_of_nat 10] (header :: lines).

Definition summary_scope (scope_key : text) : bool :=
  Py.eqb scope_key (lit "Change_SFP") || Py.eqb scope_key (lit "Upgrade_License").

Definition region_text (cfg : Scope) (cols : list text)
    (group_data : list (nat * list cell)) : text :=
  match region_col cfg with
  | Some rc =>
      if has_column cols rc
      then
        let region_val := get_str cols (snd (hd (0, []) group_data)) rc in
        if negb (is_nan_text region_val) && Py.truthy region_val
        then region_val ++ lit " region"
        else lit "All region"
      else lit "All region"
  | None => lit "All region"
  end.

Definition change_scope (env : Env) (cfg : Scope) (scope_key : text)
    (cols : list text) (group_data : list (nat * list cell)) : text :=
  match column_pos cols (lit "NE Type*") with
  | Some pos =>
      if summary_scope scope_key then ne_type_summary env pos group_data
      else region_text cfg cols group_data
  | None => region_text cfg cols group_data
  end.

(** The text for [{{CHANGE_RING_121}}]. *)
Definition ring_121_text (cfg : Scope) (cols : list text) (group_name : text)
    (group_data : list (nat * list cell)) : text :=
  match ring_121_col cfg with
  | Some rc =>
      if has_column cols rc
      then
        let ring_121_val := get_str cols (snd (hd (0, []) group_data)) rc in
        if negb (is_nan_text ring_121_val) && Py.truthy ring_121_val
        then ring_121_val
        else group_name
      else group_name
  | None => group_name
  end.

(** *** Topology image

    How far the search for the image placeholder has come: still
    searching, image inserted, or [add_picture] raised (the [try] block is
    left at once, the paragraph already cleared). *)
Inductive Search := Searching | Inserted | Raised.

(** A [for para in ...] loop with its [break]: the first paragraph whose
    text contains the placeholder receives the picture. *)
Fixpoint image_in_paras (ok : bool) (path : text) (width : Z)
    (ps : list Paragraph) : list Paragraph * Search :=
  match ps with
  | [] => ([], Searching)
  | para :: rest =>
      if Py.contains TOPOLOGY_IMAGE (para_text para)
      then
        if ok then (picture_paragraph path width :: rest, Inserted)
        else (cleared_paragraph :: rest, Raised)
      else
        let (rest', st) := image_in_paras ok path width rest in
        (para :: rest', st)
  end.

(** [for cell in row.cells]: the [break] of the paragraph loop does not
    leave this loop, and the loop does not test [image_inserted]; every
    cell of the row is searched.  [st] is [image_inserted] so far.  The
    number returned counts the pictures inserted, each of which is
    logged. *)
Fixpoint image_in_cells (ok : bool) (path : text) (st : Search)
    (cells : list Cell) : list Cell * Search * nat :=
  match cells with
  | [] => ([], st, 0)
  | c :: rest =>
      let (ps, found) := image_in_paras ok path inches_5_5 (c_paras c) in
      let c' := mkCell (c_width c) ps (c_nested c) in
      match found with
      | Raised => (c' :: rest, Raised, 0)
      | Inserted =>
          let '(rest', st', pictures) :=
            image_in_cells ok path Inserted rest in
          (c' :: rest', st', S pictures)
      | Searching =>
          let '(rest', st', pictures) := image_in_cells ok path st rest in
          (c' :: rest', st', pictures)
      end
  end.

(** [for row in table.rows: if image_inserted: break]. *)
Fixpoint image_in_rows (ok : bool) (path : text) (rs : list Row)
    : list Row * Search * nat :=
  match rs with
  | [] => ([], Searching, 0)
  | row :: rest =>
      let '(row', st, pictures) := image_in_cells ok path Searching row in
      match st with
      | Searching =>
          let '(rest', st', pictures') := image_in_rows ok path rest in
          (row' :: rest', st', pictures + pictures')
      | _ => (row' :: rest, st, pictures)
      end
  end.

(** [for table in doc.tables: if image_inserted: break]. *)
Fixpoint image_in_tables (ok : bool) (path : text) (ts : list Table)
    : list Table * Search * nat :=
  match ts with
  | [] => ([], Searching, 0)
  | t :: rest =>
      let '(rows', st, pictures) := image_in_rows ok path (t_rows t) in
      let t' := mkTable (t_style t) (t_autofit t) (t_width t) (t_grid t) rows' in
      match st with
      | Searching =>
          let '(rest', st', pictures') := image_in_tables ok path rest in
          (t' :: rest', st', pictures + pictures')
      | _ => (t' :: rest, st, pictures)
      end
  end.

(** The [try] block: body paragraphs first, then the tables.  In the
    tables one line is logged for every picture inserted, and the line of
    the [except] branch after them when [add_picture] raised. *)
Definition insert_image (ok : bool) (path : text) (ring : text)
    (doc : Document) : Document * list LogEntry :=
  let (ps, st) := image_in_paras ok path inches_6 (d_paras doc) in
  match st with
  | Inserted =>
      (mkDocument ps (d_tables doc) (d_deep doc) (d_parts doc) (d_sections doc),
       [LogImageInserted ring])
  | Raised =>
      (mkDocument ps (d_tables doc) (d_deep doc) (d_parts doc) (d_sections doc),
       [LogImageFailed ring])
  | Searching =>
      let '(ts, st', pictures) := image_in_tables ok path (d_tables doc) in
      let doc' :=
        mkDocument ps ts (d_deep doc) (d_parts doc) (d_sections doc) in
      (doc',
       repeat (LogImageInsertedInTable ring) pictures
       ++ match st' with
          | Raised => [LogImageFailed ring]
          | _ => []
          end)
  end.

(** [topology_images.get(str(group_name))]. *)
Fixpoint dict_get {V : Type} (d : list (text * V)) (k : text) : option V :=
  match d with
  | [] => None
  | (k', v) :: d' => if Py.eqb k k' then Some v else dict_get d' k
  end.

Definition topology_step (env : Env) (cfg : Scope)
    (topology_images : list (text * text)) (group_name : text)
    (doc : Document) : Document * list LogEntry :=
  let usable :=
    match dict_get topology_images group_name with
    | Some ring_image_path =>
        if Py.truthy ring_image_path && has_topology_image cfg
           && path_exists env ring_image_path
        then Some ring_image_path else None
    | None => None
    end in
  match usable with
  | Some ring_image_path =>
      insert_image (picture_ok env ring_image_path) ring_image_path
        group_name doc
  | None =>
      if has_topology_image cfg
      then (fst (global_replace doc TOPOLOGY_IMAGE
                   (lit "[Gambar topologi tidak tersedia]")),
            [LogNoImage group_name])
      else (doc, [])
  end.

(** *** Table fill *)

(** [" ".join([cell.text for cell in table.rows[0].cells])] contains the
    keyword. *)
Definition is_target (keyword : text) (t : Table) : bool :=
  match t_rows t with
  | [] => false
  | header :: _ =>
      Py.contains keyword (Py.join (lit " ") (map cell_text header))
  end.

(** Position of the first table whose first row shows the keyword. *)
Definition find_target (keyword : text) (ts : list Table) : option nat :=
  Py.index_of (is_target keyword) ts.

Fixpoint remove_at {A : Type} (i : nat) (l : list A) : list A :=
  match l, i with
  | [], _ => []
  | _ :: l', O => l'
  | x :: l', S j => x :: remove_at j l'
  end.

(** [for i in range(len(rows)-1, 0, -1): remove rows[i]]. *)
Definition clear_body_rows (rs : list Row) : list Row :=
  fold_left (fun acc i => remove_at i acc)
            (rev (seq 1 (List.length rs - 1))) rs.

Definition set_cell_at (i : nat) (s : text) (cells : list Cell) : list Cell :=
  match nth_error cells i with
  | Some c => update_at i (set_cell_text c s) cells
  | None => cells
  end.

(** [for i, col_name in enumerate(cols_to_fill)], from position [i]. *)
Fixpoint fill_columns (cols : list text) (row : list cell)
    (start_data_idx i : nat) (cols_to_fill : list text)
    (row_cells : list Cell) : list Cell :=
  match cols_to_fill with
  | [] => row_cells
  | col_name :: rest =>
      let row_cells' :=
        if start_data_idx + i <? List.length row_cells
        then
          let val := get_str cols row col_name in
          let val := if is_nan_text val then [] else val in
          set_cell_at (start_data_idx + i) val row_cells
        else row_cells in
      fill_columns cols row start_data_idx (S i) rest row_cells'
  end.

Definition arial_9 : Font := mkFont (Some (lit "Arial")) (Some 9%Z).

Definition format_cell (c : Cell) : Cell :=
  mkCell (c_width c)
    (map (map (fun run => mkRun arial_9 (r_content run))) (c_paras c))
    (c_nested c).

(** [list(group_data.index).index(idx) + 1]. *)
Definition ordinal (group_data : list (nat * list cell)) (idx : nat) : nat :=
  match Py.index_of (Nat.eqb idx) (map fst group_data) with
  | Some k => k + 1
  | None => 0
  end.

(** The body of [for idx, row in group_data.iterrows()]. *)
Definition append_record (cfg : Scope) (cols : list text)
    (group_data : list (nat * list cell)) (t : Table)
    (r : nat * list cell) : Table :=
  let row_cells := new_row t in
  let cols_to_fill := columns_mapping cfg in
  let numbered := List.length cols_to_fill <? List.length row_cells in
  let row_cells :=
    if numbered
    then set_cell_at 0 (Py.str_of_nat (ordinal group_data (fst r))) row_cells
    else row_cells in
  let start_data_idx := if numbered then 1 else 0 in
  let row_cells :=
    fill_columns cols (snd r) start_data_idx 0 cols_to_fill row_cells in
  mkTable (t_style t) (t_autofit t) (t_width t) (t_grid t)
    (t_rows t ++ [map format_cell row_cells]).

(** The [if target_table:] block. *)
Definition fill_table (cfg : Scope) (cols : list text)
    (group_data : list (nat * list cell)) (t : Table) : Table :=
  let styled :=
    mkTable (Some (lit "Table Grid")) (t_autofit t) (t_width t) (t_grid t)
      (clear_body_rows (t_rows t)) in
  reset_table_width
    (fold_left (append_record cfg cols group_data) group_data styled).

Definition table_step (cfg : Scope) (cols : list text)
    (group_data : list (nat * list cell)) (doc : Document) : Document :=
  match find_target (table_keyword cfg) (d_tables doc) with
  | Some i =>
      match nth_error (d_tables doc) i with
      | Some t =>
          mkDocument (d_paras doc)
            (update_at i (fill_table cfg cols group_data t) (d_tables doc))
            (d_deep doc) (d_parts doc) (d_sections doc)
      | None => doc
      end
  | None => doc
  end.

(** *** One group, then all groups *)

Definition path_join (dir name : text) : text := dir ++ lit "/" ++ name.

(** The document of one group, from the freshly loaded template. *)
Definition build_document (env : Env) (cfg : Scope) (scope_key : text)
    (cols : list text) (topology_images : list (text * text))
    (group_name : text) (group_data : list (nat * list cell))
    (title : text) (template : Document) : Document * list LogEntry :=
  let doc := fst (global_replace template DOC_TITLE title) in
  let doc := fst (global_replace doc DOC_DATE (today_str env)) in
  let doc := fst (global_replace doc CHANGE_TIME (change_time env)) in
  let doc :=
    fst (global_replace doc CHANGE_SCOPE
           (change_scope env cfg scope_key cols group_data)) in
  let doc :=
    fst (global_replace doc CHANGE_RING_121
           (ring_121_text cfg cols group_name group_data)) in
  let (doc, image_logs) :=
    topology_step env cfg topology_images group_name doc in
  (table_step cfg cols group_data doc, image_logs).

(** The state of the loop over the groups. *)
Record Run_state := mkState {
  logs : list LogEntry;
  generated_files : list text;
  outputs : Outputs
}.

Definition log (entry : list LogEntry) (st : Run_state) : Run_state :=
  mkState (logs st ++ entry) (generated_files st) (outputs st).

Definition save (path : text) (doc : Document) (st : Run_state) : Run_state :=
  mkState (logs st) (generated_files st ++ [path])
    (mkOutputs (folders (outputs st))
       (documents (outputs st) ++ [(path, doc)])
       (archives (outputs st))).

(** [for group_name, group_data in grouped]; [inl] is the early return on
    a template that cannot be loaded. *)
Fixpoint process_groups (env : Env) (cfg : Scope) (scope_key : text)
    (cols : list text) (topology_images : list (text * text))
    (output_folder : text) (total current : nat)
    (groups : list (text * list (nat * list cell)))
    (st : Run_state) : Run_state + Run_state :=
  match groups with
  | [] => inr st
  | (group_name, group_data) :: rest =>
      let current := current + 1 in
      let title := doc_title cfg cols group_name group_data in
      let st := log [LogProcessing current total (firstn 50 title)] st in
      match load_template env (template_file cfg) with
      | None => inl (log [LogTemplateNotFound (template_file cfg)] st)
      | Some template =>
          let (doc, image_logs) :=
            build_document env cfg scope_key cols topology_images
              group_name group_data title template in
          let output_path :=
            path_join output_folder (sanitize_filename title ++ lit ".docx") in
          process_groups env cfg scope_key cols topology_images output_folder
            total current rest (save output_path doc (log image_logs st))
      end
  end.

(** [os.path.basename] of a path built by [path_join]. *)
Definition archive_entries (output_folder : text) (files : list text)
    : list (text * text) :=
  map (fun f => (f, skipn (List.length output_folder + 1) f)) files.

(** The value returned: [zip_path], message, logs, document count. *)
Record Result := mkResult {
  zip_path : option text;
  message : Message;
  result_logs : list LogEntry;
  doc_count : nat
}.

(** [generate_documents(excel_path, scope_key, topology_images)], with the
    scope looked up in the configuration as [cfg].  The size-triggered
    recompression of a saved file does not change the document and is left
    out.  The function describes the run for a sheet whose labels are
    [unambiguous]: for a grouping label on two columns the code raises at
    the normalisation of the grouping column and returns nothing. *)
Definition generate_documents (env : Env) (cfg : option Scope)
    (excel_path scope_key : text) (topology_images : list (text * text))
    : Result * Outputs :=
  match cfg with
  | None =>
      (mkResult None (MsgScopeNotFound scope_key)
         [LogScopeNotFound scope_key] 0, no_outputs)
  | Some cfg =>
      let st := mkState [LogStart scope_key] [] no_outputs in
      let st :=
        match topology_images with
        | [] => st
        | _ :: _ => log [LogTopologyImages (List.length topology_images)] st
        end in
      let folder_name := lit "Hasil_" ++ scope_key ++ lit "_" ++ timestamp env in
      let output_folder := path_join (output_root env) folder_name in
      let st :=
        mkState (logs st ++ [LogFolder folder_name]) []
          (mkOutputs [output_folder] [] []) in
      match read_excel env excel_path (excel_sheet cfg) with
      | None =>
          (mkResult None MsgExcelError (logs st ++ [LogExcelError]) 0,
           outputs st)
      | Some df =>
          let cols := map Py.strip (columns df) in
          let st := log [LogExcelRead (List.length (rows df))] st in
          let missing := missing_columns cfg cols in
          match missing with
          | _ :: _ =>
              (mkResult None (MsgMissingColumns missing)
                 (logs st ++ [LogMissingColumns missing]) 0,
               outputs st)
          | [] =>
              let st := log [LogColumnsValid] st in
              let grouped := group_records cfg cols (rows df) in
              let total_groups := List.length grouped in
              let st :=
                log [LogUniqueRings (unique_rings cfg cols (rows df));
                     LogGroups total_groups] st in
              match process_groups env cfg scope_key cols topology_images
                      output_folder total_groups 0 grouped st with
              | inl st => (mkResult None MsgTemplateNotFound (logs st) 0,
                           outputs st)
              | inr st =>
                  let zip_filename := folder_name ++ lit ".zip" in
                  let zip := path_join (output_root env) zip_filename in
                  let n := List.length (generated_files st) in
                  (mkResult (Some zip) (MsgGenerated n)
                     (logs st ++ [LogZip zip_filename; LogDone n]) n,
                   mkOutputs (folders (outputs st)) (documents (outputs st))
                     [(zip, archive_entries output_folder
                              (generated_files st))])
              end
          end
      end
  end.

(** ** Spreadsheet helpers (the [/api/excel/...] routes)

    The request body is JSON.  A cell is a JSON scalar; a number is kept
    with the text [str] gives for it. *)

Inductive Json :=
| JNull
| JBool (b : bool)
| JNum (shown : text)
| JStr (s : text).

(** [str(v)]. *)
Definition json_str (v : Json) : text :=
  match v with
  | JNull => lit "None"
  | JBool true => lit "True"
  | JBool false => lit "False"
  | JNum shown => shown
  | JStr s => s
  end.

(** [str(row[i]).strip() if i < len(row) else '']. *)
Definition cell_at (row : list Json) (i : nat) : text :=
  match nth_error row i with
  | Some v => Py.strip (json_str v)
  | None => []
  end.

(** A cell counts as filled when its stripped text is not empty and is
    not [nan] in any letter case. *)
Definition filled (s : text) : bool := Py.truthy s && negb (is_nan_text s).

(** [d[k] = v]; [dict_get] returns the latest binding. *)
Definition dict_set {V : Type} (d : list (text * V)) (k : text) (v : V)
    : list (text * V) := (k, v) :: d.

(** A record of a report: the two fields may be missing, [get] then gives
    the empty string. *)
Definition field_str (v : option Json) : text :=
  match v with
  | Some j => Py.strip (json_str j)
  | None => []
  end.

(** The lookup built from a report: the key field, lower-cased, to the
    value field.  Used with ([ne_name], [subnet]) and with ([site_id],
    [ne_name]). *)
Fixpoint build_lookup (report : list (option Json * option Json))
    (lookup : list (text * text)) : list (text * text) :=
  match report with
  | [] => lookup
  | (k, v) :: rest =>
      let key := field_str k in
      let value := field_str v in
      build_lookup rest
        (if filled key then dict_set lookup (Py.lower key) value else lookup)
  end.

(** [while len(row) <= i: row.append('')], then [row[i] = value]. *)
Definition set_padded (row : list Json) (i : nat) (value : text) : list Json :=
  let padded := row ++ repeat (JStr []) (S i - List.length row) in
  update_at i (JStr value) padded.

(** The state of the fill loop. *)
Record Fill := mkFill {
  out_rows : list (list Json);
  out_count : nat;
  out_not_found : list text
}.

(** One iteration of [for row in rows]: [key_index] is the column looked
    up, [target_index] the column filled. *)
Definition fill_row (lookup : list (text * text)) (key_index target_index : nat)
    (row : list Json) (not_found : list text)
    : list Json * nat * list text :=
  let key := cell_at row key_index in
  if negb (filled key) then (row, 0, not_found)
  else
    let current := cell_at row target_index in
    if filled current then (row, 0, not_found)
    else
      match dict_get lookup (Py.lower key) with
      | Some value =>
          if Py.truthy value
          then (set_padded row target_index value, 1, not_found)
          else (row, 0,
                if existsb (Py.eqb key) not_found then not_found
                else not_found ++ [key])
      | None =>
          (row, 0,
           if existsb (Py.eqb key) not_found then not_found
           else not_found ++ [key])
      end.

Fixpoint fill_rows (lookup : list (text * text)) (key_index target_index : nat)
    (rs : list (list Json)) (count : nat) (not_found : list text) : Fill :=
  match rs with
  | [] => mkFill [] count not_found
  | row :: rest =>
      let '(row', n, not_found') :=
        fill_row lookup key_index target_index row not_found in
      let r := fill_rows lookup key_index target_index rest (count + n)
                 not_found' in
      mkFill (row' :: out_rows r) (out_count r) (out_not_found r)
  end.

Inductive Response :=
| Failure (error : text)
| Success (rs : list (list Json)) (count : nat) (missing : list text).

(** [api_excel_autofill_ring]: fill the ring column from the hostname
    column, through the report ([ne_name], [subnet]). *)
Definition api_excel_autofill_ring (rs : list (list Json))
    (ne_report : list (option Json * option Json))
    (hostname_col_index ring_col_index : Z) : Response :=
  if ((hostname_col_index <? 0) || (ring_col_index <? 0))%Z
  then Failure (lit "Invalid column indices")
  else
    let ne_lookup := build_lookup ne_report [] in
    let r := fill_rows ne_lookup (Z.to_nat hostname_col_index)
               (Z.to_nat ring_col_index) rs 0 [] in
    Success (out_rows r) (out_count r) (firstn 20 (out_not_found r)).

(** [api_excel_autofill_hostname]: fill the hostname column from the site
    id column, through the report ([site_id], [ne_name]). *)
Definition api_excel_autofill_hostname (rs : list (list Json))
    (hostname_report : list (option Json * option Json))
    (site_id_col_index hostname_col_index : Z) : Response :=
  if ((site_id_col_index <? 0) || (hostname_col_index <? 0))%Z
  then Failure (lit "Invalid column indices")
  else
    let hostname_lookup := build_lookup hostname_report [] in
    let r := fill_rows hostname_lookup (Z.to_nat site_id_col_index)
               (Z.to_nat hostname_col_index) rs 0 [] in
    Success (out_rows r) (out_count r) (firstn 20 (out_not_found r)).

(** *** Nearest C/AG in a topology chain *)

(** [hostname.startswith('AG-') or hostname.startswith('C-')]. *)
Definition is_cag (hostname : text) : bool :=
  Py.startswith (lit "AG-") hostname || Py.startswith (lit "C-") hostname.

(** [[h.strip() for h in chain.split(',') if h.strip()]]. *)
Definition chain_hostnames (chain : text) : list text :=
  filter Py.truthy (map Py.strip (Py.split ","%char chain)).

(** A search loop with its [break]: the first C/AG hostname of [l], with
    its distance; the head of [l] is at distance [d]. *)
Fixpoint first_cag (d : nat) (l : list text) : option (nat * text) :=
  match l with
  | [] => None
  | hostname :: rest =>
      if is_cag hostname then Some (d, hostname) else first_cag (S d) rest
  end.

(** The body of [for chain in topo_data], for a chain that is a non-empty
    string; [None] when the loop goes on to the next chain.  A hostname the
    searches return starts with [AG-] or [C-] and so is true. *)
Definition nearest_in_chain (pag_hostname : text) (chain : text)
    : option text :=
  let hostnames := chain_hostnames chain in
  match Py.index_of (Py.eqb pag_hostname) hostnames with
  | None => None
  | Some pag_pos =>
      let left := first_cag 1 (rev (firstn pag_pos hostnames)) in
      let right := first_cag 1 (skipn (S pag_pos) hostnames) in
      match left, right with
      | Some (left_distance, left_cag), Some (right_distance, right_cag) =>
          Some (if left_distance <=? right_distance
                then left_cag else right_cag)
      | Some (_, left_cag), None => Some left_cag
      | None, Some (_, right_cag) => Some right_cag
      | None, None => None
      end
  end.

Fixpoint find_nearest_cag (pag_hostname : text) (topo_data : list Json)
    : option text :=
  match topo_data with
  | [] => None
  | JStr (c :: chain) :: rest =>
      match nearest_in_chain pag_hostname (c :: chain) with
      | Some cag => Some cag
      | None => find_nearest_cag pag_hostname rest
      end
  | _ :: rest => find_nearest_cag pag_hostname rest
  end.

(** *** C/AG auto-fill ([api_excel_autofill_cag]) *)

(** A Python exception that the route catches, with its text. *)
Inductive Outcome (A : Type) :=
| Ok (value : A)
| Raised_error (text_of : text).

Arguments Ok {A} value.
Arguments Raised_error {A} text_of.

(** The position [row[i]] denotes in a list of length [len]: a negative
    index counts from the end; [None] is an [IndexError]. *)
Definition py_position (len : nat) (i : Z) : option nat :=
  if (0 <=? i)%Z
  then (if (i <? Z.of_nat len)%Z then Some (Z.to_nat i) else None)
  else (if (0 <=? Z.of_nat len + i)%Z
        then Some (Z.to_nat (Z.of_nat len + i)) else None).

(** [str(row[i]).strip() if i < len(row) else '']. *)
Definition cell_or_empty (row : list Json) (i : Z) : Outcome text :=
  if (i <? Z.of_nat (List.length row))%Z
  then
    match py_position (List.length row) i with
    | Some k => Ok (cell_at row k)
    | None => Raised_error (lit "list index out of range")
    end
  else Ok [].

(** One iteration of [for row in rows]: the row, and 1 when it was
    filled. *)
Definition cag_row (topo_data : list Json) (pag_col_index cag_col_index : Z)
    (row : list Json) : Outcome (list Json * nat) :=
  match cell_or_empty row pag_col_index with
  | Raised_error e => Raised_error e
  | Ok pag_hostname =>
      if negb (filled pag_hostname) then Ok (row, 0)
      else
        match cell_or_empty row cag_col_index with
        | Raised_error e => Raised_error e
        | Ok current_cag =>
            if filled current_cag then Ok (row, 0)
            else
              match find_nearest_cag pag_hostname topo_data with
              | Some nearest_cag =>
                  if Py.truthy nearest_cag
                  then
                    match py_position (List.length row) cag_col_index with
                    | Some k => Ok (update_at k (JStr nearest_cag) row, 1)
                    | None =>
                        Raised_error
                          (lit "list assignment index out of range")
                    end
                  else Ok (row, 0)
              | None => Ok (row, 0)
              end
        end
  end.

Fixpoint cag_rows (topo_data : list Json) (pag_col_index cag_col_index : Z)
    (rs : list (list Json)) (count : nat) : Outcome (list (list Json) * nat) :=
  match rs with
  | [] => Ok ([], count)
  | row :: rest =>
      match cag_row topo_data pag_col_index cag_col_index row with
      | Raised_error e => Raised_error e
      | Ok (row', n) =>
          match cag_rows topo_data pag_col_index cag_col_index rest
                  (count + n) with
          | Raised_error e => Raised_error e
          | Ok (rest', total) => Ok (row' :: rest', total)
          end
      end
  end.

Inductive CagResponse :=
| CagFailure (error : text)
| CagSuccess (rs : list (list Json)) (count : nat).

(** [api_excel_autofill_cag]; a column index that the request leaves out
    is [None]. *)
Definition api_excel_autofill_cag (rs : list (list Json))
    (topo_data : list Json) (pag_col_index cag_col_index : option Z)
    : CagResponse :=
  match pag_col_index, cag_col_index with
  | Some pag, Some cag =>
      match topo_data with
      | [] => CagFailure (lit "Topo data required")
      | _ :: _ =>
          match cag_rows topo_data pag cag rs 0 with
          | Ok (rs', filled_count) => CagSuccess rs' filled_count
          | Raised_error e => CagFailure (lit "Error: " ++ e)
          end
      end
  | _, _ => CagFailure (lit "Column indices required")
  end.

(** *** Rings of a spreadsheet ([api_parse_rings]) *)

(** The text of the [AttributeError] for [df[label].str] when [df[label]]
    is a frame, which it is for a label that two columns carry. *)
Definition no_str_accessor : text :=
  lit "'DataFrame' object has no attribute 'str'".

Definition strip_column (pos : nat) (rs : list (list cell)) : list (list cell) :=
  map (fun row => update_at pos (option_map Py.strip (nth pos row None)) row) rs.

(** [s.endswith(suffix)]. *)
Definition endswith (suffix s : text) : bool :=
  Py.startswith (rev suffix) (rev s).

Definition is_excel_name (filename : text) : bool :=
  endswith (lit ".xlsx") filename || endswith (lit ".xls") filename.

Inductive RingsResponse :=
| RingsFailure (error : text)
| RingsFound (rings : list text) (total : nat).

(** The rings listed for a frame: strip, drop NaN, distinct values, drop
    the empty text and [nan], sort. *)
Definition listed_rings (pos : nat) (rs : list (list cell)) : list text :=
  sort_keys
    (filter (fun r => Py.truthy r && negb (is_nan_text r))
       (unique (present_keys pos (labelled (strip_column pos rs))))).

(** [api_parse_rings]: [file] is the name of the uploaded file, when there
    is one; [cfg] the scope found in the configuration; [excel] what
    reading the sheet gives, a frame or the text of the exception.  The
    temporary copy of the upload is written and removed on every path and
    is left out.  For a ring label that two columns carry, stripping the
    column raises inside the [try] and the route answers with the text of
    the exception. *)
Definition api_parse_rings (file : option text) (scope : text)
    (cfg : option Scope) (excel : DataFrame + text) : RingsResponse :=
  match file with
  | None => RingsFailure (lit "No file uploaded")
  | Some [] => RingsFailure (lit "No file selected")
  | Some filename =>
      if negb (is_excel_name filename)
      then RingsFailure (lit "File harus Excel (.xlsx atau .xls)")
      else
        match cfg with
        | None => RingsFailure (lit "Scope '" ++ scope ++ lit "' tidak ditemukan")
        | Some cfg =>
            if negb (has_topology_image cfg)
            then RingsFailure (lit "Scope ini tidak memerlukan gambar topologi")
            else
              match excel with
              | inr e => RingsFailure (lit "Error membaca Excel: " ++ e)
              | inl df =>
                  let cols := map Py.strip (columns df) in
                  match column_pos cols (ring_col cfg) with
                  | None =>
                      RingsFailure
                        (lit "Kolom '" ++ ring_col cfg
                         ++ lit "' tidak ditemukan di Excel")
                  | Some pos =>
                      if ambiguous cols (ring_col cfg)
                      then
                        RingsFailure
                          (lit "Error membaca Excel: " ++ no_str_accessor)
                      else
                        let unique_rings := listed_rings pos (rows df) in
                        RingsFound unique_rings (List.length unique_rings)
                  end
              end
        end
  end.

(** *** History ([add_to_history]) *)

Record HistoryEntry := mkEntry {
  h_id : text;
  h_timestamp : text;
  h_scope : text;
  h_excel_file : text;
  h_doc_count : nat;
  h_zip_file : text;
  h_status : text
}.

(** [load_history]: the stored list, or the empty one when there is no
    file. *)
Definition load_history (stored : option (list HistoryEntry))
    : list HistoryEntry :=
  match stored with
  | Some history => history
  | None => []
  end.

(** [add_to_history]: [uuid] and [now] are the fresh identifier and the
    clock; the result is the entry and the list that is saved. *)
Definition add_to_history (stored : option (list HistoryEntry))
    (uuid now scope excel_file : text) (doc_count : nat)
    (zip_file status : text) : HistoryEntry * list HistoryEntry :=
  let history := load_history stored in
  let entry :=
    mkEntry (firstn 8 uuid) now scope excel_file doc_count zip_file status in
  (entry, firstn 50 (entry :: history)).

(** *** Scope registry ([api_save_scope], [api_delete_scope]) *)

(** [d[k] = v] on a dict kept as a list of bindings: an existing key keeps
    its place. *)
Fixpoint dict_put {V : Type} (d : list (text * V)) (k : text) (v : V)
    : list (text * V) :=
  match d with
  | [] => [(k, v)]
  | (k', v') :: d' =>
      if Py.eqb k k' then (k, v) :: d' else (k', v') :: dict_put d' k v
  end.

(** [del d[k]]. *)
Fixpoint dict_del {V : Type} (d : list (text * V)) (k : text)
    : list (text * V) :=
  match d with
  | [] => []
  | (k', v') :: d' =>
      if Py.eqb k k' then d' else (k', v') :: dict_del d' k
  end.

(** The configuration file: its scopes. *)
Definition Config := list (text * Scope).

(** [api_save_scope]: the configuration that is saved. *)
Definition api_save_scope (config : Config) (scope_key : text) (data : Scope)
    : Config :=
  dict_put config scope_key data.

(** [api_delete_scope]: the configuration afterwards, and whether the
    scope was found. *)
Definition api_delete_scope (config : Config) (scope_key : text)
    : Config * bool :=
  match dict_get config scope_key with
  | Some _ => (dict_del config scope_key, true)
  | None => (config, false)
  end.

(** *** Recompression ([compress_docx]) *)

(** [compress_docx(path, max_size_mb)] in terms of sizes: [original_size]
    is the size of the file, [recompressed] the size of the recompressed
    copy, [None] when recompressing raises.  The result is the flag, the
    old size and the size of the file afterwards. *)
Definition compress_docx (original_size max_size_mb : N)
    (recompressed : option N) : bool * N * N :=
  let max_size_bytes := (max_size_mb * 1024 * 1024)%N in
  if (original_size <=? max_size_bytes)%N
  then (false, original_size, original_size)
  else
    match recompressed with
    | Some new_size =>
        (true, original_size,
         if (new_size <? original_size)%N then new_size else original_size)
    | None => (false, original_size, original_size)
    end.

(** *** Reports ([api_excel_parse_ne_report],
    [api_excel_parse_hostname_report]) *)

(** An uploaded workbook as [pd.ExcelFile] gives it: the text of the
    exception when it cannot be opened, or its sheet names and what
    reading a sheet gives, the sheet or the text of the exception.  The
    report routes read a frame with [dtype=str]. *)
Inductive Workbook (Sheet : Type) :=
| Unreadable (error : text)
| Sheets (sheet_names : list text) (read : text -> Sheet + text).

Arguments Unreadable {Sheet} error.
Arguments Sheets {Sheet} sheet_names read.

(** [for col in df.columns]: the two tests are made on every column and
    there is no [break]. *)
Fixpoint find_columns (first_test second_test : text -> bool)
    (cols : list text) (first second : option text)
    : option text * option text :=
  match cols with
  | [] => (first, second)
  | col :: rest =>
      find_columns first_test second_test rest
        (if first_test col then Some col else first)
        (if second_test col then Some col else second)
  end.

Definition names_ne_name (col : text) : bool :=
  let col_lower := Py.lower col in
  Py.contains (lit "ne name") col_lower
  || Py.contains (lit "nename") col_lower
  || Py.eqb col_lower (lit "ne name").

Definition names_subnet (col : text) : bool :=
  Py.contains (lit "subnet") (Py.lower col).

Definition names_site_id (col : text) : bool :=
  let col_lower := Py.lower col in
  Py.contains (lit "site id") col_lower
  || Py.contains (lit "site_id") col_lower
  || Py.contains (lit "siteid") col_lower
  || Py.eqb col_lower (lit "site id").

Definition names_hostname (col : text) : bool :=
  let col_lower := Py.lower col in
  Py.contains (lit "ne name") col_lower
  || Py.contains (lit "nename") col_lower
  || Py.eqb col_lower (lit "ne name")
  || Py.contains (lit "hostname") col_lower.

(** The text of the [ValueError] pandas raises for the truth value of a
    [Series], as pandas 1 and 2 word it; the wording is the library's and
    differs between its versions. *)
Definition ambiguous_truth : text :=
  lit "The truth value of a Series is ambiguous. Use a.empty, a.bool(), a.item(), a.any() or a.all().".

(** [str(row[col]).strip() if pd.notna(row[col]) else ''].  For a label
    that several columns carry, [row[col]] is a [Series] and the test
    raises. *)
Definition stripped_field (cols : list text) (row : list cell) (col : text)
    : Outcome text :=
  if 1 <? List.length (filter (Py.eqb col) cols)
  then Raised_error ambiguous_truth
  else
    match row_get cols row col with
    | Some (Some s) => Ok (Py.strip s)
    | _ => Ok []
    end.

(** [for _, row in df.iterrows()]: [keep] is the test under which a
    record is appended. *)
Fixpoint report_records (keep : text -> text -> bool) (cols : list text)
    (first_col second_col : text) (rs : list (list cell))
    (report : list (text * text)) : Outcome (list (text * text)) :=
  match rs with
  | [] => Ok report
  | row :: rest =>
      match stripped_field cols row first_col with
      | Raised_error e => Raised_error e
      | Ok first =>
          match stripped_field cols row second_col with
          | Raised_error e => Raised_error e
          | Ok second =>
              report_records keep cols first_col second_col rest
                (if keep first second then report ++ [(first, second)]
                 else report)
          end
      end
  end.

Inductive ReportResponse :=
| ReportFailure (error : text)
| ReportFound (report : list (text * text)) (record_count : nat)
    (first_col second_col : text).

(** The two routes differ in the column tests, the labels of their
    messages and the test on a record.  [file] is the name of the
    uploaded file, when there is one. *)
Definition parse_report (first_test second_test : text -> bool)
    (first_label second_label report_label : text)
    (keep : text -> text -> bool)
    (file : option text) (sheet_name : text)
    (workbook : Workbook DataFrame)
    : ReportResponse :=
  match file with
  | None => ReportFailure (lit "No file uploaded")
  | Some [] => ReportFailure (lit "No file selected")
  | Some filename =>
      if negb (is_excel_name filename)
      then ReportFailure (lit "File harus Excel (.xlsx atau .xls)")
      else
        let raised e :=
          ReportFailure (lit "Error parsing " ++ report_label ++ lit ": " ++ e)
        in
        match workbook with
        | Unreadable e => raised e
        | Sheets sheet_names read =>
            if negb (existsb (Py.eqb sheet_name) sheet_names)
            then
              ReportFailure
                (lit "Sheet '" ++ sheet_name
                 ++ lit "' tidak ditemukan. Available: "
                 ++ Py.join (lit ", ") sheet_names)
            else
              match read sheet_name with
              | inr e => raised e
              | inl df =>
                  let cols := map Py.strip (columns df) in
                  let missing label :=
                    ReportFailure
                      (lit "Kolom '" ++ label
                       ++ lit "' tidak ditemukan. Kolom tersedia: "
                       ++ Py.join (lit ", ") cols) in
                  match find_columns first_test second_test cols None None
                  with
                  | (Some first_col, second) =>
                      if negb (Py.truthy first_col) then missing first_label
                      else
                        match second with
                        | Some second_col =>
                            if negb (Py.truthy second_col)
                            then missing second_label
                            else
                              match report_records keep cols first_col
                                      second_col (rows df) [] with
                              | Ok report =>
                                  ReportFound report (List.length report)
                                    first_col second_col
                              | Raised_error e => raised e
                              end
                        | None => missing second_label
                        end
                  | (None, _) => missing first_label
                  end
              end
        end
  end.

Definition api_excel_parse_ne_report
    : option text -> text -> Workbook DataFrame -> ReportResponse :=
  parse_report names_ne_name names_subnet (lit "NE Name") (lit "Subnet")
    (lit "NE Report") (fun ne_name subnet => filled ne_name).

Definition api_excel_parse_hostname_report
    : option text -> text -> Workbook DataFrame -> ReportResponse :=
  parse_report names_site_id names_hostname (lit "Site ID") (lit "NE Name")
    (lit "Hostname Report")
    (fun site_id ne_name => filled site_id && filled ne_name).

(** The report as the page sends it back to the auto-fill routes: a list
    of records with two string fields. *)
Definition report_json (report : list (text * text))
    : list (option Json * option Json) :=
  map (fun r => (Some (JStr (fst r)), Some (JStr (snd r)))) report.

(** *** Topology sheet ([api_excel_parse_topo]) *)

(** The sheet is read with [header=None] and given column by column;
    a cell is NaN or the text [astype(str)] gives for its value. *)
Definition TopoSheet := list (list cell).

(** [df[col].dropna().astype(str)]. *)
Definition dropna (column : list cell) : list text :=
  flat_map (fun v => match v with Some s => [s] | None => [] end) column.

(** [val and val.lower() != 'nan' and ',' in val]. *)
Definition is_chain (val : text) : bool :=
  Py.truthy val && negb (is_nan_text val) && Py.contains (lit ",") val.

Definition topo_chains (sheet : TopoSheet) : list text :=
  flat_map (fun column => map Py.strip (filter is_chain (dropna column)))
    sheet.

(** The message for a missing sheet shows the sheet names as Python
    prints a list; the response keeps the names. *)
Inductive TopoResponse :=
| TopoFailure (error : text)
| TopoSheetNotFound (sheet_name : text) (available : list text)
| TopoFound (topo_data : list text) (chain_count : nat).

Definition api_excel_parse_topo (file : option text) (sheet_name : text)
    (workbook : Workbook TopoSheet) : TopoResponse :=
  match file with
  | None => TopoFailure (lit "No file uploaded")
  | Some [] => TopoFailure (lit "No file selected")
  | Some filename =>
      if negb (is_excel_name filename)
      then TopoFailure (lit "File must be Excel")
      else
        match workbook with
        | Unreadable e => TopoFailure (lit "Error reading topo sheet: " ++ e)
        | Sheets sheet_names read =>
            if negb (existsb (Py.eqb sheet_name) sheet_names)
            then TopoSheetNotFound sheet_name sheet_names
            else
              match read sheet_name with
              | inr e => TopoFailure (lit "Error reading topo sheet: " ++ e)
              | inl df =>
                  let chains := topo_chains df in
                  TopoFound chains (List.length chains)
              end
        end
  end.

(** ** The stand-alone scripts *)

Module UniversalV1.

(** The grouping of [Universal V1 backup.py]: the grouping column is
    stripped, missing cells stay missing, then [groupby].  For a grouping
    label that two columns carry, stripping the column raises and the
    script stops. *)
Definition group_records (cfg : Scope) (cols : list text)
    (rs : list (list cell))
    : Outcome (list (text * list (nat * list cell))) :=
  match column_pos cols (ring_col cfg) with
  | Some pos =>
      if ambiguous cols (ring_col cfg) then Raised_error no_str_accessor
      else Ok (groupby pos (labelled (strip_column pos rs)))
  | None => Ok []
  end.

End UniversalV1.

(** ** Vocabulary of the properties *)

(** The runs under the body and under a header or footer part. *)
Definition cell_runs (c : Cell) : list Run :=
  concat (c_paras c) ++ concat (c_nested c).

Definition doc_cells (d : Document) : list Cell :=
  flat_map table_cells (d_tables d).

Definition body_runs (d : Document) : list Run :=
  concat (d_paras d) ++ flat_map cell_runs (doc_cells d) ++ concat (d_deep d).

Definition part_at (parts : list (list Paragraph)) (i : nat) : list Paragraph :=
  nth i parts [].

Definition doc_runs (d : Document) : list Run :=
  body_runs d ++ flat_map (fun i => concat (part_at (d_parts d) i)) (doc_refs d).

(** The paragraphs the paragraph loops of [global_replace] visit: those of
    the body and those of the cells of its tables. *)
Definition walked_paragraphs (d : Document) : list Paragraph :=
  d_paras d ++ flat_map c_paras (doc_cells d).

(** No text node contains [p]; some text node contains [p]. *)
Definition absent (p : text) (nodes : list text) : Prop :=
  Forall (fun t => Py.contains p t = false) nodes.

Definition present (p : text) (nodes : list text) : Prop :=
  Exists (fun t => Py.contains p t = true) nodes.

(** The placeholder can be found: whole in some text node, or in the
    concatenated run text of a paragraph the paragraph loops visit. *)
Definition findable (p : text) (d : Document) : Prop :=
  present p (doc_nodes d) \/ present p (map para_text (walked_paragraphs d)).

(** Two keys differ only in white space: one has an extra white-space
    character in front or at the end, or a run of white space inside one
    is a run of another length in the other. *)
Inductive same_words : text -> text -> Prop :=
| sw_refl (s : text) : same_words s s
| sw_sym (s t : text) : same_words s t -> same_words t s
| sw_trans (s t u : text) : same_words s t -> same_words t u -> same_words s u
| sw_lead (c : ascii) (s : text) :
    Py.isspace c = true -> same_words (c :: s) s
| sw_trail (c : ascii) (s : text) :
    Py.isspace c = true -> same_words (s ++ [c]) s
| sw_run (a w1 w2 b : text) :
    w1 <> [] -> w2 <> [] ->
    forallb Py.isspace w1 = true -> forallb Py.isspace w2 = true ->
    same_words (a ++ w1 ++ b) (a ++ w2 ++ b).

(** The row a record becomes when the grouping column is normalised. *)
Definition normalized_row (pos : nat) (row : list cell) : list cell :=
  update_at pos (Some (normalize_key (nth pos row None))) row.

(** The rows the clearing loop keeps: its range stops before row 0, the
    header. *)
Definition header_row_count : nat := 1.

(** Position [j] of a chain holds a C/AG hostname. *)
Definition cag_at (hostnames : list text) (j : nat) : Prop :=
  exists h, nth_error hostnames j = Some h /\ is_cag h = true.

Definition distance (a b : nat) : nat := (a - b) + (b - a).

(** Position [j] is the nearest C/AG position to [pos]: none is closer,
    and a position right of [pos] is strictly closer than every C/AG
    position left of it (on equal distance the left one is the
    nearest). *)
Definition nearest_cag (hostnames : list text) (pos j : nat) : Prop :=
  cag_at hostnames j /\ j <> pos
  /\ (forall j', cag_at hostnames j' -> j' <> pos ->
        distance pos j <= distance pos j')
  /\ (pos < j -> forall j', cag_at hostnames j' -> j' < pos ->
        distance pos j < distance pos j').

(** A chain is skipped by the lookup: it is no string, or it does not
    name the host. *)
Definition without_host (pag_hostname : text) (entry : Json) : Prop :=
  match entry with
  | JStr chain => ~ In pag_hostname (chain_hostnames chain)
  | _ => True
  end.

(** ** Sample data *)

Definition plain (s : string) : Run := mkRun no_font (Text (lit s)).

Definition no_parts : Section := mkSection 1 1 1 1 1 1.

Definition text_cell (s : string) : Cell := mkCell None [[plain s]] [].

(** A body paragraph with the title placeholder split over three runs. *)
Definition split_body_doc : Document :=
  mkDocument [[plain "{{DOC"; plain "_TIT"; plain "LE}}"]] [] [] [[]; []]
    [no_parts].

(** A document that does not show the placeholder at all. *)
Definition plain_doc : Document :=
  mkDocument [[plain "Report"]] [] [] [[[plain "Page"]]; []]
    [mkSection 0 1 1 1 1 1].

(** The title placeholder split over two runs of the default header; the
    body has no placeholder. *)
Definition split_header_doc : Document :=
  mkDocument [[plain "Report"]] [] []
    [[[plain "{{DOC_"; plain "TITLE}}"]]; []]
    [mkSection 0 1 1 1 1 1].

(** A paragraph that shows the title placeholder twice: whole in its first
    run, and split over the three runs that follow. *)
Definition mixed_paragraph : Paragraph :=
  [plain "{{DOC_TITLE}} / "; plain "{{DOC"; plain "_TIT"; plain "LE}}"].

(** A document whose only table has one row of two cells, each holding the
    image placeholder; the body paragraphs do not hold it. *)
Definition two_placeholder_doc : Document :=
  mkDocument [[plain "Topology"]]
    [mkTable None false None [Some 4000%Z; Some 4000%Z]
       [[text_cell "{{TOPOLOGY_IMAGE}}"; text_cell "{{TOPOLOGY_IMAGE}}"]]]
    [] [[]; []] [no_parts].

(** A table with a header row and two body rows. *)
Definition sample_table : Table :=
  mkTable None false None [Some 900%Z; Some 2400%Z; Some 2400%Z]
    [[text_cell "No"; text_cell "Tower ID"; text_cell "Ring"];
     [text_cell "1"; text_cell "x"; text_cell "y"];
     [text_cell ""; text_cell ""; text_cell ""]].

(** A scope over the columns Ring, Title, Tower ID, and four records: two
    rings that differ only in white space, a third ring, and a record with
    no ring and no title. *)
Definition sample_scope : Scope :=
  mkScope (lit "template.docx") (lit "Sheet1") (lit "Tower ID")
    (lit "Title") (lit "Ring") [lit "Tower ID"; lit "Ring"] None None true.

Definition sample_frame : DataFrame :=
  mkFrame [lit "Ring"; lit "Title"; lit "Tower ID"]
    [[Some (lit "Ring A"); Some (lit "Swap Ring A"); Some (lit "T-001")];
     [Some (lit " Ring  A "); None; Some (lit "T-002")];
     [Some (lit "Ring B"); None; Some (lit "T-003")];
     [None; None; Some (lit "T-004")]].

(** A sheet whose header has the ring label twice once it is stripped. *)
Definition doubled_frame : DataFrame :=
  mkFrame [lit "Ring"; lit "Ring "; lit "Title"; lit "Tower ID"]
    [[Some (lit "Ring A"); Some (lit "Ring B"); None; Some (lit "T-001")]].

(** A scope whose title column is also its grouping column, and a frame
    with one record whose ring cell is blank. *)
Definition ring_title_scope : Scope :=
  mkScope (lit "template.docx") (lit "Sheet1") (lit "Tower ID")
    (lit "Ring") (lit "Ring") [lit "Tower ID"] None None false.

Definition blank_ring_frame : DataFrame :=
  mkFrame [lit "Ring"; lit "Tower ID"] [[None; Some (lit "T-001")]].

(** A scope that asks for a column the sample frame does not have. *)
Definition strict_scope : Scope :=
  mkScope (lit "template.docx") (lit "Sheet1") (lit "Tower ID")
    (lit "Title") (lit "Ring") [lit "Tower ID"; lit "Hostname"] None None
    false.

(** An environment in which every image file exists and can be
    embedded. *)
Definition image_env : Env :=
  mkEnv (lit "2026-01-05_101500") (lit "05-Jan")
    (lit "23:00 05 Jan 2026 - 05:00 04 Feb 2026") (lit "output")
    (fun _ _ => None) (fun _ => Some two_placeholder_doc)
    (fun _ => true) (fun _ => true)
    (fun values => map (fun v => (v, 1)) values).

(** An environment for the samples: fixed dates, a reader that returns
    [sample_frame] for every path, a template with [sample_table]. *)
Definition sample_env : Env :=
  mkEnv (lit "2026-01-05_101500") (lit "05-Jan")
    (lit "23:00 05 Jan 2026 - 05:00 04 Feb 2026") (lit "output")
    (fun _ _ => Some sample_frame)
    (fun _ => Some (mkDocument [[plain "{{DOC_TITLE}}"]] [sample_table] []
                      [[]; []] [no_parts]))
    (fun _ => false) (fun _ => true)
    (fun values => map (fun v => (v, 1)) values).

(** A topology sheet: an entry that is no chain, then a chain with a C/AG
    host on either side of [PAG-7], at equal distance. *)
Definition sample_topo : list Json :=
  [JNull; JStr (lit "AG-1, PAG-7 ,C-2, PAG-9")].

(** Rows of the sheet editor (hostname, ring) and a report. *)
Definition sample_rows : list (list Json) :=
  [[JStr (lit "PAG-7"); JStr (lit "Ring 1")];
   [JStr (lit "PAG-8"); JStr (lit " ")];
   [JStr (lit "pag-8"); JStr (lit "NaN")];
   [JStr (lit "PAG-9")]].

Definition sample_report : list (option Json * option Json) :=
  [(Some (JStr (lit "PAG-7")), Some (JStr (lit "Ring 7")));
   (Some (JStr (lit "PAG-8")), Some (JStr (lit "Ring 8")))].

(** The code points [sanitize_filename] removes. *)
Definition unsafe_codes : list N := [92; 47; 42; 63; 58; 34; 60; 62; 124]%N.

(** The path a group's document is saved under. *)
Definition group_file_name (cfg : Scope) (cols : list text)
    (g : text * list (nat * list cell)) : text :=
  sanitize_filename (doc_title cfg cols (fst g) (snd g)) ++ lit ".docx".

Definition run_folder (env : Env) (scope_key : text) : text :=
  path_join (output_root env)
    (lit "Hasil_" ++ scope_key ++ lit "_" ++ timestamp env).

(** Environments like [sample_env] whose template cannot be loaded: one
    reads [sample_frame], the other a sheet with the same columns and no
    row. *)
Definition no_template_env : Env :=
  mkEnv (lit "2026-01-05_101500") (lit "05-Jan")
    (lit "23:00 05 Jan 2026 - 05:00 04 Feb 2026") (lit "output")
    (fun _ _ => Some sample_frame)
    (fun _ => None) (fun _ => false) (fun _ => true)
    (fun values => map (fun v => (v, 1)) values).

Definition empty_sheet_env : Env :=
  mkEnv (lit "2026-01-05_101500") (lit "05-Jan")
    (lit "23:00 05 Jan 2026 - 05:00 04 Feb 2026") (lit "output")
    (fun _ _ => Some (mkFrame (columns sample_frame) []))
    (fun _ => None) (fun _ => false) (fun _ => true)
    (fun values => map (fun v => (v, 1)) values).

(** The value the lookup holds for the key cell of a row; the empty text
    when it holds none. *)
Definition looked_up (lookup : list (text * text)) (key_index : nat)
    (row : list Json) : text :=
  match dict_get lookup (Py.lower (cell_at row key_index)) with
  | Some value => value
  | None => []
  end.

(** A row the fill loop reaches the lookup with: its key cell is filled,
    its target cell is not. *)
Definition wanting (key_index target_index : nat) (row : list Json) : bool :=
  filled (cell_at row key_index) && negb (filled (cell_at row target_index)).

(** A row the fill loop writes to, and a row whose key it reports. *)
Definition fillable (lookup : list (text * text))
    (key_index target_index : nat) (row : list Json) : bool :=
  wanting key_index target_index row
  && Py.truthy (looked_up lookup key_index row).

Definition unmatched (lookup : list (text * text))
    (key_index target_index : nat) (row : list Json) : bool :=
  wanting key_index target_index row
  && negb (Py.truthy (looked_up lookup key_index row)).

(** A record of a report that binds the lower-cased key [k]. *)
Definition binds (k : text) (record : option Json * option Json) : bool :=
  filled (field_str (fst record))
  && Py.eqb k (Py.lower (field_str (fst record))).

(** A row the C/AG loop writes to: its PAG cell is filled, its C/AG cell
    is not, and the topology sheet gives a host for it. *)
Definition cag_found (topo_data : list Json) (pag_index : nat)
    (row : list Json) : text :=
  match find_nearest_cag (cell_at row pag_index) topo_data with
  | Some nearest => nearest
  | None => []
  end.

Definition cag_writes (topo_data : list Json) (pag_index cag_index : nat)
    (row : list Json) : bool :=
  wanting pag_index cag_index row
  && Py.truthy (cag_found topo_data pag_index row).

(** Rows for the C/AG helper (host, C/AG): in [short_rows] the second
    row is too short for column 1. *)
Definition short_rows : list (list Json) :=
  [[JStr (lit "PAG-9"); JStr (lit "")]; [JStr (lit "PAG-7")]].

Definition long_rows : list (list Json) :=
  [[JStr (lit "PAG-9"); JStr (lit "")];
   [JStr (lit "PAG-7"); JStr (lit "nan")];
   [JStr (lit "PAG-5"); JNull]].

(** What [api_generate] passes to [add_to_history] for one run, with the
    fresh identifier and the clock. *)
Record Call := mkCall {
  call_uuid : text;
  call_now : text;
  call_scope : text;
  call_excel_file : text;
  call_doc_count : nat;
  call_zip_file : text;
  call_status : text
}.

(** The entry a call makes, and the history file after the call. *)
Definition entry_of (c : Call) : HistoryEntry :=
  fst (add_to_history None (call_uuid c) (call_now c) (call_scope c)
         (call_excel_file c) (call_doc_count c) (call_zip_file c)
         (call_status c)).

Definition recorded (stored : list HistoryEntry) (c : Call)
    : list HistoryEntry :=
  snd (add_to_history (Some stored) (call_uuid c) (call_now c)
         (call_scope c) (call_excel_file c) (call_doc_count c)
         (call_zip_file c) (call_status c)).

Definition sample_calls : list Call :=
  [mkCall (lit "0f8fad5b-d9cb-469f-a165-70867728950e")
     (lit "2026-01-05 10:15:00") (lit "Swap") (lit "rings.xlsx") 3
     (lit "Hasil_Swap_2026-01-05_101500.zip") (lit "success");
   mkCall (lit "7c9e6679-7425-40de-944b-e07fc1f90ae7")
     (lit "2026-01-05 10:20:00") (lit "Swap") (lit "rings.xlsx") 0
     (lit "") (lit "error")].

(** What the fill loop writes for a column of a record: [str] of the
    value, the empty text for [nan]. *)
Definition record_value (cols : list text) (row : list cell)
    (col_name : text) : text :=
  let val := get_str cols row col_name in
  if is_nan_text val then [] else val.

(** A table with two grid columns more than the sample scope maps. *)
Definition wide_table : Table :=
  mkTable None false None
    [Some 900%Z; Some 2400%Z; Some 2400%Z; Some 2400%Z]
    [[text_cell "No"; text_cell "Tower ID"; text_cell "Ring";
      text_cell "Remark"]].

(** A document whose second body paragraph shows the image placeholder
    amid other text, before a table cell that shows it too. *)
Definition image_body_doc : Document :=
  mkDocument [[plain "Topology"]; [plain "Fig: {{TOPOLOGY_IMAGE}} (ring)"]]
    [mkTable None false None [Some 4000%Z]
       [[text_cell "{{TOPOLOGY_IMAGE}}"]]]
    [] [[]; []] [no_parts].

(** An environment like [image_env] in which embedding a picture fails. *)
Definition broken_image_env : Env :=
  mkEnv (lit "2026-01-05_101500") (lit "05-Jan")
    (lit "23:00 05 Jan 2026 - 05:00 04 Feb 2026") (lit "output")
    (fun _ _ => None) (fun _ => Some two_placeholder_doc)
    (fun _ => true) (fun _ => false)
    (fun values => map (fun v => (v, 1)) values).

(** [str(v).strip()] of a cell, the empty text for NaN. *)
Definition stripped_cell (v : cell) : text :=
  match v with Some s => Py.strip s | None => [] end.

(** A report sheet with two columns whose names show [ne name]; the
    second record has no name, the first and the third share theirs up to
    letter case. *)
Definition report_frame : DataFrame :=
  mkFrame [lit "NE Name"; lit " Subnet"; lit "Old NE Name"]
    [[Some (lit "x1"); Some (lit " Ring 1 "); Some (lit "PAG-7")];
     [Some (lit "x2"); Some (lit "Ring 2"); None];
     [Some (lit "x3"); Some (lit "Ring 3"); Some (lit " pag-7 ")]].

Definition report_workbook : Workbook DataFrame :=
  Sheets [lit "Sheet1"; lit "Sheet2"] (fun _ => inl report_frame).

(** The answers the chains give for a host, in the order of the chains. *)
Definition chain_answers (pag_hostname : text) (chains : list text)
    : list text :=
  flat_map (fun chain =>
              match nearest_in_chain pag_hostname chain with
              | Some cag => [cag]
              | None => []
              end) chains.

(** A topology sheet of one column: a title, a gap, a number, a chain with
    white space around it. *)
Definition topo_sheet : TopoSheet :=
  [[Some (lit "Topology"); None; Some (lit "12.5");
    Some (lit " AG-1, PAG-7 ,C-2, PAG-9 ")]].

(** * Properties *)

(** ** Strings *)

Lemma py_eqb_eq (a b : text) : Py.eqb a b = true <-> a = b.
Proof.
  revert b; induction a as [|x a IH]; intros [|y b]; simpl;
    try (split; [discriminate | intros H; discriminate H]); try tauto.
  rewrite andb_true_iff, Ascii.eqb_eq, IH.
  split; [intros [-> ->]; reflexivity | intros H; inversion H; auto].
Qed.

Lemma py_eqb_refl (a : text) : Py.eqb a a = true.
Proof. apply py_eqb_eq; reflexivity. Qed.

Lemma py_eqb_neq (a b : text) : Py.eqb a b = false <-> a <> b.
Proof.
  rewrite <- py_eqb_eq. destruct (Py.eqb a b); split; congruence.
Qed.

Lemma startswith_app (p s : text) : Py.startswith p (p ++ s) = true.
Proof.
  induction p as [|a p IH]; simpl; [reflexivity|].
  now rewrite Ascii.eqb_refl, IH.
Qed.

Lemma contains_app_left (p s : text) : Py.contains p (p ++ s) = true.
Proof.
  destruct p as [|a p]; [destruct s; reflexivity|].
  change ((a :: p) ++ s) with (a :: (p ++ s)).
  cbn [Py.contains].
  change (a :: p ++ s) with ((a :: p) ++ s).
  now rewrite startswith_app.
Qed.

Lemma contains_cons (p : text) (c : ascii) (s : text) :
  Py.contains p (c :: s) = Py.startswith p (c :: s) || Py.contains p s.
Proof. reflexivity. Qed.

Lemma contains_skip (p a s : text) :
  Py.contains p s = true -> Py.contains p (a ++ s) = true.
Proof.
  intros H; induction a as [|c a IH]; [exact H|].
  change ((c :: a) ++ s) with (c :: (a ++ s)).
  rewrite contains_cons, IH. apply orb_true_r.
Qed.

Lemma contains_nil_false (p : text) : p <> [] -> Py.contains p [] = false.
Proof. destruct p; [congruence | reflexivity]. Qed.

Lemma startswith_head (p : text) (c : ascii) (s : text) :
  p <> [] -> Py.startswith p (c :: s) = true -> In c p.
Proof.
  destruct p as [|a p]; [congruence|]; simpl; intros _ H.
  apply andb_true_iff in H; destruct H as [H _].
  apply Ascii.eqb_eq in H; auto.
Qed.

Lemma replace_unfold (old new s : text) :
  old <> [] -> Py.replace old new s = Py.replace_from old new 0 s.
Proof. destruct old; [congruence | reflexivity]. Qed.

(** *** What [replace] leaves behind

    [old] is the text searched for, [new] its replacement.  When [new] is
    not empty and shares no character with [old], the result of [replace]
    has no occurrence of [old]. *)

Section Replace.

Variables old new : text.
Hypothesis old_nonempty : old <> [].
Hypothesis new_nonempty : new <> [].
Hypothesis fresh : forall c, In c new -> ~ In c old.

Lemma startswith_replace_from (q s : text) :
  (forall c, In c q -> ~ In c new) ->
  Py.startswith q (Py.replace_from old new 0 s) = true ->
  Py.startswith q s = true.
Proof.
  revert q; induction s as [|c s IH]; intros q Hq.
  - destruct q; simpl; auto.
  - cbn [Py.replace_from].
    destruct (Py.startswith old (c :: s)) eqn:E.
    + destruct q as [|a q]; [reflexivity|].
      destruct new as [|b new']; [congruence|].
      simpl. intros H. apply andb_true_iff in H; destruct H as [H _].
      apply Ascii.eqb_eq in H; subst b.
      exfalso; apply (Hq a); simpl; auto.
    + destruct q as [|a q]; [reflexivity|].
      simpl. intros H. apply andb_true_iff in H; destruct H as [H1 H2].
      rewrite H1; simpl. apply IH; [|exact H2].
      intros x Hx; apply Hq; simpl; auto.
Qed.

Lemma contains_after_new (tail : text) (s : text) :
  (forall c, In c tail -> ~ In c old) ->
  Py.contains old s = false -> Py.contains old (tail ++ s) = false.
Proof.
  intros Ht Hs; induction tail as [|a tail IH]; [exact Hs|].
  change ((a :: tail) ++ s) with (a :: (tail ++ s)).
  rewrite contains_cons, IH by (intros x Hx; apply Ht; simpl; auto).
  rewrite orb_false_r.
  destruct (Py.startswith old (a :: tail ++ s)) eqn:E; [|reflexivity].
  apply startswith_head in E; [|exact old_nonempty].
  exfalso; apply (Ht a); simpl; auto.
Qed.

Lemma replace_from_clean (s : text) (skip : nat) :
  Py.contains old (Py.replace_from old new skip s) = false.
Proof.
  revert skip; induction s as [|c s IH]; intros skip.
  - simpl. now apply contains_nil_false.
  - cbn [Py.replace_from]. destruct skip as [|k]; [|apply IH].
    destruct (Py.startswith old (c :: s)) eqn:E.
    + apply contains_after_new; [exact fresh | apply IH].
    + rewrite contains_cons, IH, orb_false_r.
      destruct (Py.startswith old (c :: Py.replace_from old new 0 s)) eqn:E'.
      * assert (H : Py.startswith old (Py.replace_from old new 0 (c :: s)) = true).
        { cbn [Py.replace_from]. rewrite E. exact E'. }
        apply startswith_replace_from in H; [congruence|].
        intros x Hx Hn; exact (fresh x Hn Hx).
      * reflexivity.
Qed.

Lemma replace_clean (s : text) : Py.contains old (Py.replace old new s) = false.
Proof.
  rewrite replace_unfold by exact old_nonempty. apply replace_from_clean.
Qed.

End Replace.

Lemma replace_absent (old new s : text) :
  old <> [] -> Py.contains old s = false -> Py.replace old new s = s.
Proof.
  intros Ho. rewrite replace_unfold by exact Ho. clear Ho.
  induction s as [|c s IH]; [reflexivity|].
  rewrite contains_cons. intros H; apply orb_false_iff in H; destruct H as [H1 H2].
  cbn [Py.replace_from]. rewrite H1, IH by exact H2. reflexivity.
Qed.

Lemma replace_present (old new s : text) :
  old <> [] -> Py.contains old s = true ->
  Py.contains new (Py.replace old new s) = true.
Proof.
  intros Ho. rewrite replace_unfold by exact Ho.
  induction s as [|c s IH].
  - rewrite contains_nil_false by exact Ho. discriminate.
  - rewrite contains_cons. cbn [Py.replace_from].
    destruct (Py.startswith old (c :: s)) eqn:E.
    + intros _. apply contains_app_left.
    + simpl orb. intros H. rewrite contains_cons, IH by exact H.
      apply orb_true_r.
Qed.

(** ** The placeholder engine *)

Lemma visit_fst {A : Type} (f : A -> A * nat) (l : list A) :
  fst (visit f l) = map (fun x => fst (f x)) l.
Proof.
  induction l as [|x l IH]; [reflexivity|].
  simpl. destruct (f x) as [x' n] eqn:E, (visit f l) as [l' m].
  simpl in *. now rewrite IH.
Qed.

Lemma flat_map_concat {A B : Type} (f : A -> list B) (l : list (list A)) :
  flat_map f (concat l) = flat_map (flat_map f) l.
Proof.
  induction l as [|x l IH]; [reflexivity|].
  simpl. now rewrite flat_map_app, IH.
Qed.

Lemma concat_map_map {A B : Type} (f : A -> B) (l : list (list A)) :
  concat (map (map f) l) = map f (concat l).
Proof.
  induction l as [|x l IH]; [reflexivity|].
  simpl. now rewrite map_app, IH.
Qed.

Lemma flat_map_map {A B C : Type} (f : A -> B) (g : B -> list C) (l : list A) :
  flat_map g (map f l) = flat_map (fun x => g (f x)) l.
Proof.
  induction l as [|x l IH]; [reflexivity|]. simpl. now rewrite IH.
Qed.

Lemma contains_within (p a s b : text) :
  Py.contains p s = true -> Py.contains p (a ++ s ++ b) = true.
Proof.
  intros H. apply contains_skip.
  clear a. induction s as [|c s IH].
  - destruct p; [|discriminate H]. destruct b; reflexivity.
  - rewrite contains_cons in H. apply orb_true_iff in H.
    change ((c :: s) ++ b) with (c :: (s ++ b)). rewrite contains_cons.
    destruct H as [H|H]; [|rewrite IH by exact H; apply orb_true_r].
    assert (E : Py.startswith p (c :: s ++ b) = true); [|now rewrite E].
    clear IH. change (c :: s ++ b) with ((c :: s) ++ b).
    revert H. generalize (c :: s) as u. clear c s.
    induction p as [|x p IH]; intros [|y u]; simpl; try reflexivity;
      try discriminate.
    intros H; apply andb_true_iff in H; destruct H as [-> H].
    now rewrite IH.
Qed.

Lemma contains_in_concat (p : text) (l : list text) (t : text) :
  In t l -> Py.contains p t = true -> Py.contains p (concat l) = true.
Proof.
  intros Hin H. apply in_split in Hin. destruct Hin as (l1 & l2 & ->).
  rewrite concat_app. simpl. now apply contains_within.
Qed.

(** Text nodes are the non-empty run texts. *)
Lemma run_nodes_text (r : Run) (t : text) :
  In t (run_nodes r) -> t = run_text r.
Proof.
  unfold run_nodes, run_text. destruct (r_content r) as [[|c s]|]; simpl;
    intuition.
Qed.

Lemma run_nodes_nonempty (r : Run) :
  run_text r <> [] -> run_nodes r = [run_text r].
Proof.
  unfold run_nodes, run_text. destruct (r_content r) as [[|c s]|]; simpl;
    congruence.
Qed.

Lemma part_nodes_at (d : Document) (i : nat) :
  part_nodes d i = flat_map run_nodes (concat (part_at (d_parts d) i)).
Proof.
  unfold part_nodes, part_at, paras_nodes.
  rewrite flat_map_concat.
  destruct (nth_error (d_parts d) i) as [part|] eqn:E.
  - now rewrite (nth_error_nth _ _ _ E).
  - apply nth_error_None in E. now rewrite nth_overflow.
Qed.

Lemma doc_nodes_runs (d : Document) :
  doc_nodes d = flat_map run_nodes (doc_runs d).
Proof.
  unfold doc_nodes, doc_runs, body_nodes, body_runs, paras_nodes, doc_cells.
  rewrite !flat_map_app, !flat_map_concat. f_equal; [f_equal; f_equal|].
  - generalize (flat_map table_cells (d_tables d)) as cs.
    induction cs as [|c cs IH]; [reflexivity|].
    cbn [flat_map]. rewrite IH, flat_map_app. f_equal.
    unfold cell_nodes, cell_runs, paras_nodes.
    now rewrite flat_map_app, !flat_map_concat.
  - generalize (doc_refs d) as refs.
    induction refs as [|i refs IH]; [reflexivity|].
    cbn [flat_map]. now rewrite flat_map_app, IH, part_nodes_at.
Qed.

Lemma absent_of_runs (p : text) (d : Document) :
  Forall (fun r => Py.contains p (run_text r) = false) (doc_runs d) ->
  absent p (doc_nodes d).
Proof.
  intros H. unfold absent. rewrite doc_nodes_runs.
  apply Forall_forall. intros t Ht. apply in_flat_map in Ht.
  destruct Ht as (r & Hr & Ht). apply run_nodes_text in Ht; subst t.
  rewrite Forall_forall in H. now apply H.
Qed.

Lemma present_of_runs (p : text) (d : Document) :
  p <> [] ->
  Exists (fun r => Py.contains p (run_text r) = true) (doc_runs d) ->
  present p (doc_nodes d).
Proof.
  intros Hp H. unfold present. rewrite doc_nodes_runs.
  apply Exists_exists in H. destruct H as (r & Hr & H).
  apply Exists_exists. exists (run_text r). split; [|exact H].
  apply in_flat_map. exists r. split; [exact Hr|].
  rewrite run_nodes_nonempty; [now left|].
  intros E. rewrite E, contains_nil_false in H by exact Hp. discriminate.
Qed.

Lemma present_runs (p : text) (d : Document) :
  present p (doc_nodes d) ->
  Exists (fun r => Py.contains p (run_text r) = true) (doc_runs d).
Proof.
  unfold present. rewrite doc_nodes_runs. intros H.
  apply Exists_exists in H. destruct H as (t & Ht & H).
  apply in_flat_map in Ht. destruct Ht as (r & Hr & Ht).
  apply run_nodes_text in Ht; subst t.
  apply Exists_exists. now exists r.
Qed.

(** Resolve a [let (x, n) := visit f l in ...]: name the pair and rewrite
    its first component as a [map]. *)
Ltac name_visit f l x n :=
  let E := fresh "E" in
  destruct (visit f l) as [x n] eqn:E;
  apply (f_equal fst) in E; rewrite visit_fst in E; simpl in E; subst x.

Section Substitution.

Variables placeholder replacement : text.
Hypothesis placeholder_nonempty : placeholder <> [].
Hypothesis replacement_nonempty : replacement <> [].
Hypothesis fresh : forall c, In c replacement -> ~ In c placeholder.

Local Abbreviation has p := (fun r : Run => Py.contains p (run_text r) = true).
Local Abbreviation lacks p := (fun r : Run => Py.contains p (run_text r) = false).
Local Abbreviation touched :=
  (fun r : Run => Py.contains placeholder (run_text r) = true
                  \/ Py.contains replacement (run_text r) = true).
Local Abbreviation node := (fun r => fst (replace_node placeholder replacement r)).
Local Abbreviation para_pass :=
  (fun p => fst (replace_para placeholder replacement p)).

(** *** One text node *)

Lemma replace_node_clean (r : Run) : lacks placeholder (node r).
Proof.
  unfold replace_node, run_text. destruct (r_content r) as [s|path w] eqn:E.
  - destruct (Py.truthy s && Py.contains placeholder s) eqn:C; simpl.
    + now apply replace_clean.
    + rewrite E. destruct s as [|c s]; [now apply contains_nil_false|].
      exact C.
  - cbn [fst]. rewrite E. now apply contains_nil_false.
Qed.

Lemma replace_node_marks (r : Run) : touched r -> has replacement (node r).
Proof.
  unfold replace_node, run_text. destruct (r_content r) as [s|path w] eqn:E.
  - destruct (Py.truthy s && Py.contains placeholder s) eqn:C; simpl.
    + intros _. apply replace_present; [assumption|].
      now apply andb_true_iff in C.
    + rewrite E. intros [H|H]; [|exact H].
      rewrite H, andb_true_r in C. destruct s; [|discriminate C].
      rewrite contains_nil_false in H by assumption. discriminate.
  - cbn [fst]. rewrite E. intros [H|H]; [|exact H].
    rewrite contains_nil_false in H by assumption. discriminate.
Qed.

Lemma xpath_replace_fst (element : list Paragraph) :
  fst (xpath_replace element placeholder replacement) = map (map node) element.
Proof.
  unfold xpath_replace. rewrite visit_fst. apply map_ext.
  intros p. apply visit_fst.
Qed.

(** *** The deep scan of the body *)

Lemma xpath_cell_fst (c : Cell) :
  fst (xpath_cell placeholder replacement c)
  = mkCell (c_width c) (map (map node) (c_paras c))
      (map (map node) (c_nested c)).
Proof.
  unfold xpath_cell.
  rewrite <- !xpath_replace_fst.
  destruct (xpath_replace (c_paras c) _ _), (xpath_replace (c_nested c) _ _).
  reflexivity.
Qed.

Lemma xpath_table_cells (t : Table) :
  table_cells (fst (xpath_table placeholder replacement t))
  = map (fun c => fst (xpath_cell placeholder replacement c)) (table_cells t).
Proof.
  unfold xpath_table, table_cells.
  name_visit (visit (xpath_cell placeholder replacement)) (t_rows t) rs n.
  simpl. rewrite <- concat_map_map. f_equal. apply map_ext.
  intros row. apply visit_fst.
Qed.

Lemma xpath_cell_runs (c : Cell) :
  cell_runs (fst (xpath_cell placeholder replacement c)) = map node (cell_runs c).
Proof.
  rewrite xpath_cell_fst. unfold cell_runs; simpl.
  now rewrite map_app, !concat_map_map.
Qed.

Lemma xpath_body_fst (d : Document) :
  let d' := fst (xpath_body placeholder replacement d) in
  body_runs d' = map node (body_runs d)
  /\ d_parts d' = d_parts d /\ d_sections d' = d_sections d.
Proof.
  unfold xpath_body.
  pose proof (xpath_replace_fst (d_paras d)) as E1.
  pose proof (xpath_replace_fst (d_deep d)) as E3.
  destruct (xpath_replace (d_paras d) _ _) as [ps n1],
           (xpath_replace (d_deep d) _ _) as [fs n3].
  name_visit (xpath_table placeholder replacement) (d_tables d) ts n2.
  simpl in *. subst ps fs. repeat split.
  unfold body_runs, doc_cells; simpl.
  rewrite !map_app, !concat_map_map. f_equal. f_equal.
  induction (d_tables d) as [|t ts IH]; [reflexivity|].
  simpl. rewrite !flat_map_app, !map_app, IH. f_equal.
  rewrite xpath_table_cells.
  induction (table_cells t) as [|c cs IHc]; [reflexivity|].
  simpl. now rewrite map_app, IHc, xpath_cell_runs.
Qed.

(** *** The paragraph loops *)

Lemma replace_in_first_run_marks (runs runs' : list Run) :
  replace_in_first_run placeholder replacement runs = Some runs' ->
  Exists (has replacement) runs'.
Proof.
  revert runs'; induction runs as [|run rest IH]; intros runs'; simpl;
    [discriminate|].
  destruct (Py.truthy (run_text run) && Py.contains placeholder (run_text run))
    eqn:C.
  - intros H; inversion H; subst. left. unfold set_run_text, run_text; simpl.
    apply replace_present; [assumption | now apply andb_true_iff in C].
  - destruct (replace_in_first_run placeholder replacement rest) as [rest'|];
      simpl; [|discriminate].
    intros H; inversion H; subst. right. now apply IH.
Qed.

Lemma replace_para_marks (para : Paragraph) :
  Py.contains placeholder (para_text para) = true ->
  Exists (has replacement) (para_pass para).
Proof.
  intros H. unfold replace_para, replace_placeholder_in_paragraph.
  rewrite H. fold (para_text para). rewrite H. simpl.
  destruct (replace_in_first_run placeholder replacement para) as [para'|] eqn:E.
  - simpl. now apply replace_in_first_run_marks with (runs := para).
  - simpl. destruct para as [|first rest].
    + rewrite contains_nil_false in H by assumption. discriminate.
    + left. unfold set_run_text, run_text; simpl.
      now apply replace_present.
Qed.

Lemma replace_para_same (para : Paragraph) :
  Py.contains placeholder (para_text para) = false -> para_pass para = para.
Proof. intros H. unfold replace_para. now rewrite H. Qed.

Lemma run_in_para (p : text) (para : Paragraph) (r : Run) :
  In r para -> Py.contains p (run_text r) = true ->
  Py.contains p (para_text para) = true.
Proof.
  intros Hin H. apply contains_in_concat with (t := run_text r); [|exact H].
  now apply in_map.
Qed.

(** After the paragraph loop over [ps], a paragraph that showed the
    placeholder has a run with the replacement. *)
Lemma paragraph_loop_marks (ps : list Paragraph) :
  Exists (fun para => Py.contains placeholder (para_text para) = true) ps ->
  Exists (has replacement) (concat (map para_pass ps)).
Proof.
  intros H. apply Exists_exists in H. destruct H as (para & Hin & H).
  apply replace_para_marks in H. apply Exists_exists in H.
  destruct H as (r & Hr & H). apply Exists_exists. exists r. split; [|exact H].
  apply in_concat. exists (para_pass para). split; [|exact Hr].
  now apply (in_map para_pass).
Qed.

Lemma paragraph_loop_keeps (ps : list Paragraph) :
  Exists (has placeholder) (concat ps) ->
  Exists (has replacement) (concat (map para_pass ps)).
Proof.
  intros H. apply paragraph_loop_marks.
  apply Exists_exists in H. destruct H as (r & Hr & H).
  apply in_concat in Hr. destruct Hr as (para & Hp & Hr).
  apply Exists_exists. exists para. split; [exact Hp|].
  now apply run_in_para with (r := r).
Qed.

Lemma replace_cell_paras_fst (c : Cell) :
  fst (replace_cell_paras placeholder replacement c)
  = mkCell (c_width c) (map para_pass (c_paras c)) (c_nested c).
Proof.
  unfold replace_cell_paras.
  name_visit (replace_para placeholder replacement) (c_paras c) ps n.
  reflexivity.
Qed.

Lemma replace_table_paras_cells (t : Table) :
  table_cells (fst (replace_table_paras placeholder replacement t))
  = map (fun c => fst (replace_cell_paras placeholder replacement c))
        (table_cells t).
Proof.
  unfold replace_table_paras, table_cells.
  name_visit (visit (replace_cell_paras placeholder replacement)) (t_rows t) rs n.
  simpl. rewrite <- concat_map_map. f_equal. apply map_ext.
  intros row. apply visit_fst.
Qed.

Local Abbreviation cell_pass :=
  (fun c => fst (replace_cell_paras placeholder replacement c)).
Local Abbreviation table_pass :=
  (fun t => fst (replace_table_paras placeholder replacement t)).
Local Abbreviation para_shows :=
  (fun para : Paragraph => Py.contains placeholder (para_text para) = true).

Lemma cell_pass_touched (c : Cell) :
  Exists (has placeholder) (cell_runs c) \/ Exists para_shows (c_paras c) ->
  Exists touched (cell_runs (cell_pass c)).
Proof.
  cbv beta. rewrite replace_cell_paras_fst. unfold cell_runs; simpl.
  rewrite !Exists_app. intros [[H|H]|H].
  - left. apply paragraph_loop_keeps in H.
    eapply Exists_impl; [|exact H]. intros r Hr; now right.
  - right. eapply Exists_impl; [|exact H]. intros r Hr; now left.
  - left. apply paragraph_loop_marks in H.
    eapply Exists_impl; [|exact H]. intros r Hr; now right.
Qed.

Lemma cells_pass_touched (cs : list Cell) :
  Exists (has placeholder) (flat_map cell_runs cs)
  \/ Exists para_shows (flat_map c_paras cs) ->
  Exists touched (flat_map cell_runs (map cell_pass cs)).
Proof.
  intros H.
  assert (Hc : exists c, In c cs /\
            (Exists (has placeholder) (cell_runs c)
             \/ Exists para_shows (c_paras c))).
  { destruct H as [H|H]; apply Exists_exists in H;
      destruct H as (x & Hx & H); apply in_flat_map in Hx;
      destruct Hx as (c & Hc & Hx); exists c; (split; [exact Hc|]);
      [left | right]; apply Exists_exists; now exists x. }
  destruct Hc as (c & Hc & Hr). apply cell_pass_touched in Hr.
  apply Exists_exists in Hr. destruct Hr as (r & Hr & Ht).
  apply Exists_exists. exists r. split; [|exact Ht].
  apply in_flat_map. exists (cell_pass c). split; [|exact Hr].
  now apply (in_map cell_pass).
Qed.

Lemma table_pass_cells (ts : list Table) :
  flat_map table_cells (map table_pass ts)
  = map cell_pass (flat_map table_cells ts).
Proof.
  induction ts as [|t ts IH]; [reflexivity|].
  simpl. now rewrite map_app, IH, replace_table_paras_cells.
Qed.

(** The document between the paragraph loops and the deep scan. *)
Lemma paragraph_loops_touched (d : Document) :
  Exists (has placeholder) (body_runs d)
  \/ Exists para_shows (walked_paragraphs d) ->
  Exists touched
    (body_runs (mkDocument (map para_pass (d_paras d))
                  (map table_pass (d_tables d)) (d_deep d) (d_parts d)
                  (d_sections d))).
Proof.
  unfold body_runs, walked_paragraphs, doc_cells; simpl.
  rewrite table_pass_cells, !Exists_app.
  intros [[H|[H|H]]|[H|H]].
  - left. apply paragraph_loop_keeps in H.
    eapply Exists_impl; [|exact H]. intros r Hr; now right.
  - right; left. apply cells_pass_touched. now left.
  - right; right. eapply Exists_impl; [|exact H]. intros r Hr; now left.
  - left. apply paragraph_loop_marks in H.
    eapply Exists_impl; [|exact H]. intros r Hr; now right.
  - right; left. apply cells_pass_touched. now right.
Qed.

(** *** Headers and footers *)

Lemma update_at_nth {A : Type} (l : list A) (i j : nat) (x y d : A) :
  nth_error l i = Some y ->
  nth j (update_at i x l) d = if Nat.eqb i j then x else nth j l d.
Proof.
  revert i j; induction l as [|a l IH]; intros [|i] [|j]; simpl;
    try discriminate; try reflexivity.
  apply IH.
Qed.

Lemma xpath_part_at (parts : list (list Paragraph)) (i j : nat) :
  part_at (fst (xpath_part placeholder replacement parts i)) j
  = if Nat.eqb i j then map (map node) (part_at parts j)
    else part_at parts j.
Proof.
  unfold xpath_part, part_at.
  destruct (nth_error parts i) as [part|] eqn:E.
  - pose proof (xpath_replace_fst part) as F.
    destruct (xpath_replace part placeholder replacement) as [part' n].
    simpl in *. subst part'. rewrite (update_at_nth _ _ _ _ _ _ E).
    destruct (Nat.eqb_spec i j) as [->|]; [|reflexivity].
    now rewrite (nth_error_nth _ _ _ E).
  - simpl. destruct (Nat.eqb_spec i j) as [->|]; [|reflexivity].
    apply nth_error_None in E. now rewrite nth_overflow.
Qed.

Lemma part_scan_clean (part : list Paragraph) :
  Forall (lacks placeholder) (concat (map (map node) part)).
Proof.
  rewrite concat_map_map. apply Forall_forall. intros r Hr.
  apply in_map_iff in Hr. destruct Hr as (r0 & <- & _).
  apply replace_node_clean.
Qed.

Lemma part_scan_marks (part : list Paragraph) :
  Exists touched (concat part) ->
  Exists (has replacement) (concat (map (map node) part)).
Proof.
  rewrite concat_map_map. intros H. apply Exists_exists in H.
  destruct H as (r & Hr & H). apply Exists_exists. exists (node r).
  split; [now apply (in_map node) | now apply replace_node_marks].
Qed.

Lemma xpath_parts_clean (refs : list nat) (parts : list (list Paragraph))
    (j : nat) :
  In j refs \/ Forall (lacks placeholder) (concat (part_at parts j)) ->
  Forall (lacks placeholder)
    (concat (part_at (fst (xpath_parts placeholder replacement parts refs)) j)).
Proof.
  revert parts; induction refs as [|i refs IH]; intros parts H.
  - simpl. destruct H as [[]|H]; exact H.
  - simpl. pose proof (xpath_part_at parts i j) as E.
    destruct (xpath_part placeholder replacement parts i) as [parts' n].
    specialize (IH parts').
    destruct (xpath_parts placeholder replacement parts' refs) as [parts'' m].
    simpl in *. apply IH.
    destruct (Nat.eqb_spec i j) as [->|Hne].
    + right. rewrite E. apply part_scan_clean.
    + destruct H as [[Hi|Hj]|H]; [contradiction | now left | right].
      now rewrite E.
Qed.

Lemma xpath_parts_marks (refs : list nat) (parts : list (list Paragraph))
    (j : nat) :
  (In j refs /\ Exists touched (concat (part_at parts j)))
  \/ Exists (has replacement) (concat (part_at parts j)) ->
  Exists (has replacement)
    (concat (part_at (fst (xpath_parts placeholder replacement parts refs)) j)).
Proof.
  revert parts; induction refs as [|i refs IH]; intros parts H.
  - simpl. destruct H as [[[] _]|H]; exact H.
  - simpl. pose proof (xpath_part_at parts i j) as E.
    destruct (xpath_part placeholder replacement parts i) as [parts' n].
    specialize (IH parts').
    destruct (xpath_parts placeholder replacement parts' refs) as [parts'' m].
    simpl in *. apply IH. rewrite E.
    destruct (Nat.eqb_spec i j) as [->|Hne].
    + right. apply part_scan_marks.
      destruct H as [[_ H]|H]; [exact H|].
      eapply Exists_impl; [|exact H]. intros r Hr; now right.
    + destruct H as [[[Hi|Hj] H]|H]; [contradiction | now left | now right].
Qed.

(** *** The whole of [global_replace] *)

Lemma global_replace_fst (doc : Document) :
  let doc1 :=
    mkDocument (map para_pass (d_paras doc)) (map table_pass (d_tables doc))
      (d_deep doc) (d_parts doc) (d_sections doc) in
  let doc2 := fst (xpath_body placeholder replacement doc1) in
  fst (global_replace doc placeholder replacement)
  = mkDocument (d_paras doc2) (d_tables doc2) (d_deep doc2)
      (fst (xpath_parts placeholder replacement (d_parts doc2) (doc_refs doc2)))
      (d_sections doc2).
Proof.
  unfold global_replace.
  name_visit (replace_para placeholder replacement) (d_paras doc) ps n1.
  name_visit (replace_table_paras placeholder replacement) (d_tables doc) ts n2.
  cbv zeta.
  destruct (xpath_body placeholder replacement _) as [doc2 n3].
  destruct (xpath_parts placeholder replacement _ _) as [parts n4].
  reflexivity.
Qed.

Lemma global_replace_runs (doc : Document) :
  let doc1 :=
    mkDocument (map para_pass (d_paras doc)) (map table_pass (d_tables doc))
      (d_deep doc) (d_parts doc) (d_sections doc) in
  doc_runs (fst (global_replace doc placeholder replacement))
  = map node (body_runs doc1)
    ++ flat_map
         (fun i =>
            concat (part_at (fst (xpath_parts placeholder replacement
                                    (d_parts doc) (doc_refs doc))) i))
         (doc_refs doc).
Proof.
  intros doc1. rewrite global_replace_fst. fold doc1.
  destruct (xpath_body_fst doc1) as (Hb & Hp & Hs).
  unfold doc_runs, doc_refs. simpl. rewrite Hp, Hs. f_equal.
  rewrite <- Hb. reflexivity.
Qed.

(** After [global_replace] no text node contains the placeholder; and when
    the placeholder was findable, some text node contains the
    replacement. *)
Lemma global_replace_exhaustive (doc : Document) :
  absent placeholder
    (doc_nodes (fst (global_replace doc placeholder replacement))).
Proof.
  apply absent_of_runs. rewrite global_replace_runs.
  apply Forall_app. split.
  - apply Forall_forall. intros r Hr. apply in_map_iff in Hr.
    destruct Hr as (r0 & <- & _). apply replace_node_clean.
  - apply Forall_forall. intros r Hr. apply in_flat_map in Hr.
    destruct Hr as (i & Hi & Hr).
    pose proof (xpath_parts_clean (doc_refs doc) (d_parts doc) i
                  (or_introl Hi)) as H.
    rewrite Forall_forall in H. now apply H.
Qed.

Lemma global_replace_marks (doc : Document) :
  findable placeholder doc ->
  present replacement
    (doc_nodes (fst (global_replace doc placeholder replacement))).
Proof.
  intros H. apply present_of_runs; [assumption|].
  rewrite global_replace_runs. apply Exists_app.
  assert (Hc : (Exists (has placeholder) (body_runs doc)
                \/ Exists para_shows (walked_paragraphs doc))
               \/ exists i, In i (doc_refs doc)
                  /\ Exists (has placeholder) (concat (part_at (d_parts doc) i))).
  { destruct H as [H|H].
    - apply present_runs in H. unfold doc_runs in H.
      apply Exists_app in H. destruct H as [H|H]; [now left; left|].
      right. apply Exists_exists in H. destruct H as (r & Hr & H).
      apply in_flat_map in Hr. destruct Hr as (i & Hi & Hr).
      exists i. split; [exact Hi|]. apply Exists_exists. now exists r.
    - left; right. unfold present in H. now rewrite Exists_map in H. }
  destruct Hc as [Hb|(i & Hi & Hp)].
  - left. apply paragraph_loops_touched in Hb.
    apply Exists_exists in Hb. destruct Hb as (r & Hr & Ht).
    apply Exists_exists. exists (node r).
    split; [now apply (in_map node) | now apply replace_node_marks].
  - right.
    assert (Ht : Exists touched (concat (part_at (d_parts doc) i))).
    { eapply Exists_impl; [|exact Hp]. intros r Hr; now left. }
    pose proof (xpath_parts_marks (doc_refs doc) (d_parts doc) i
                  (or_introl (conj Hi Ht))) as Hm.
    apply Exists_exists in Hm. destruct Hm as (r & Hr & Hm).
    apply Exists_exists. exists r. split; [|exact Hm].
    apply in_flat_map. now exists i.
Qed.

End Substitution.

Lemma placeholder_without_x (placeholder : text) :
  In placeholder placeholders ->
  placeholder <> [] /\ forall c, In c (lit "X") -> ~ In c placeholder.
Proof.
  intros H. split.
  - intros ->. vm_compute in H.
    repeat (destruct H as [H|H]; [discriminate H|]). exact H.
  - intros c [<-|[]] Hc.
    repeat (destruct H as [<-|H];
            [vm_compute in Hc;
             repeat (destruct Hc as [Hc|Hc]; [discriminate Hc|]); exact Hc|]).
    exact H.
Qed.

(** C1, as amended.  For every placeholder token of a template, in
    particular [{{DOC_TITLE}}]: after a single [global_replace(doc,
    placeholder, "X")] no text node of the document (body paragraphs, table
    cells, nested and floating containers, headers, footers) contains the
    literal placeholder; and when the placeholder was findable (whole in
    some text node, or in the concatenated run text of a body or table-cell
    paragraph), at least one text node contains [X]. *)
Theorem substitution_exhaustive (doc : Document) (placeholder : text) :
  In placeholder placeholders ->
  let doc' := fst (global_replace doc placeholder (lit "X")) in
  absent placeholder (doc_nodes doc')
  /\ (findable placeholder doc -> present (lit "X") (doc_nodes doc')).
Proof.
  intros H. destruct (placeholder_without_x placeholder H) as [Hne Hfresh].
  split.
  - apply global_replace_exhaustive; [exact Hne | discriminate | exact Hfresh].
  - apply global_replace_marks; [exact Hne | discriminate].
Qed.

Lemma substitution_exhaustive_witness :
  In DOC_TITLE placeholders
  /\ findable DOC_TITLE split_body_doc
  /\ absent DOC_TITLE
       (doc_nodes (fst (global_replace split_body_doc DOC_TITLE (lit "X"))))
  /\ present (lit "X")
       (doc_nodes (fst (global_replace split_body_doc DOC_TITLE (lit "X")))).
Proof.
  assert (P : In DOC_TITLE placeholders) by (left; reflexivity).
  assert (H : findable DOC_TITLE split_body_doc).
  { right. left. reflexivity. }
  split; [exact P|]. split; [exact H|].
  destruct (substitution_exhaustive split_body_doc DOC_TITLE P) as [Ha Hp].
  split; [exact Ha | exact (Hp H)].
Defined.

(** C1, as stated, fails.  In a document that does not show the
    placeholder nothing is replaced and no text node contains [X].  The
    same holds when the placeholder only occurs split over two runs of a
    header: the deep scan reads one text node at a time, the header still
    reads the placeholder, and no text node contains [X]. *)
Lemma substitution_without_x :
  ~ present (lit "X")
      (doc_nodes (fst (global_replace plain_doc DOC_TITLE (lit "X"))))
  /\ present DOC_TITLE
       (map para_text
          (part_at (d_parts (fst (global_replace split_header_doc DOC_TITLE
                                    (lit "X")))) 0))
  /\ ~ present (lit "X")
         (doc_nodes (fst (global_replace split_header_doc DOC_TITLE (lit "X")))).
Proof.
  assert (N : forall nodes : list text,
            forallb (fun t => negb (Py.contains (lit "X") t)) nodes = true ->
            ~ present (lit "X") nodes).
  { intros nodes H E. unfold present in E. apply Exists_exists in E.
    destruct E as (t & Ht & E). rewrite forallb_forall in H.
    specialize (H t Ht). rewrite E in H. discriminate. }
  split; [apply N; reflexivity|].
  split; [left; reflexivity | apply N; reflexivity].
Qed.

(** ** Placeholders split over runs *)

Lemma replace_in_first_run_none (p r : text) (runs : list Run) :
  Forall (fun run => Py.contains p (run_text run) = false) runs ->
  replace_in_first_run p r runs = None.
Proof.
  induction 1 as [|run rest H _ IH]; [reflexivity|].
  simpl. now rewrite H, andb_false_r, IH.
Qed.

Lemma concat_empty_runs (rest : list Run) :
  concat (map run_text (map (fun run => set_run_text run []) rest)) = [].
Proof. induction rest as [|run rest IH]; [reflexivity | exact IH]. Qed.

(** When the paragraph text contains the placeholder and no single run
    does, the paragraph is rewritten as a whole: its text is the old text
    with the placeholder replaced, held by the first run; the other runs
    are kept, empty; every run keeps its font. *)
Lemma split_placeholder_replaced (para : Paragraph) (p r : text) :
  p <> [] ->
  Py.contains p (para_text para) = true ->
  Forall (fun run => Py.contains p (run_text run) = false) para ->
  let para' := fst (replace_placeholder_in_paragraph para p r) in
  snd (replace_placeholder_in_paragraph para p r) = true
  /\ para_text para' = Py.replace p r (para_text para)
  /\ map run_text para'
     = Py.replace p r (para_text para) :: repeat [] (List.length para - 1)
  /\ map r_font para' = map r_font para.
Proof.
  intros Hp Hc Hruns. unfold replace_placeholder_in_paragraph.
  fold (para_text para). rewrite Hc, replace_in_first_run_none by exact Hruns.
  simpl. destruct para as [|first rest].
  - rewrite contains_nil_false in Hc by exact Hp. discriminate.
  - simpl. rewrite Nat.sub_0_r. split; [reflexivity|].
    unfold para_text at 1. simpl. rewrite concat_empty_runs, app_nil_r.
    split; [reflexivity|]. split.
    + f_equal. clear. induction rest as [|x rest IH]; [reflexivity|].
      simpl. now rewrite IH.
    + f_equal. clear. induction rest as [|x rest IH]; [reflexivity|].
      simpl. now rewrite IH.
Qed.

Example three_run_split :
  replace_placeholder_in_paragraph
    [plain "{{DOC"; plain "_TIT"; plain "LE}}"] DOC_TITLE (lit "X")
  = ([plain "X"; plain ""; plain ""], true).
Proof. reflexivity. Qed.

(** C2 at the failing input.  The paragraph text contains a placeholder
    split over three adjacent runs, and another run holds the placeholder
    whole: the first loop rewrites that run and returns, the split
    occurrence stays, and the paragraph text is not the old text with the
    placeholder replaced. *)
Theorem split_placeholder_left_behind :
  let result :=
    replace_placeholder_in_paragraph mixed_paragraph DOC_TITLE (lit "X") in
  result = ([plain "X / "; plain "{{DOC"; plain "_TIT"; plain "LE}}"], true)
  /\ para_text (fst result) = lit "X / {{DOC_TITLE}}"
  /\ Py.replace DOC_TITLE (lit "X") (para_text mixed_paragraph) = lit "X / X".
Proof. repeat split. Qed.

(** [global_replace] does not repair it: the deep scan works node by
    node. *)
Example split_placeholder_survives_global_replace :
  let doc := mkDocument [mixed_paragraph] [] [] [[]; []] [no_parts] in
  map para_text (d_paras (fst (global_replace doc DOC_TITLE (lit "X"))))
  = [lit "X / {{DOC_TITLE}}"].
Proof. reflexivity. Qed.

(** ** Normalisation of the grouping key *)

Lemma lstrip_spaces (w s : text) :
  forallb Py.isspace w = true -> Py.lstrip (w ++ s) = Py.lstrip s.
Proof.
  induction w as [|c w IH]; [reflexivity|]. simpl.
  intros H; apply andb_true_iff in H; destruct H as [-> H]. now apply IH.
Qed.

Lemma lstrip_keeps (a s : text) :
  forallb Py.isspace a = false -> Py.lstrip (a ++ s) = Py.lstrip a ++ s.
Proof.
  induction a as [|c a IH]; [discriminate|]. simpl.
  destruct (Py.isspace c); simpl; [exact IH | reflexivity].
Qed.

Lemma forallb_rev {A : Type} (f : A -> bool) (l : list A) :
  forallb f (rev l) = forallb f l.
Proof.
  induction l as [|x l IH]; [reflexivity|].
  simpl. rewrite forallb_app, IH. simpl. rewrite andb_true_r. apply andb_comm.
Qed.

Lemma rstrip_spaces (s w : text) :
  forallb Py.isspace w = true -> Py.rstrip (s ++ w) = Py.rstrip s.
Proof.
  intros H. unfold Py.rstrip. rewrite rev_app_distr, lstrip_spaces; [reflexivity|].
  now rewrite forallb_rev.
Qed.

Lemma rstrip_keeps (s b : text) :
  forallb Py.isspace b = false -> Py.rstrip (s ++ b) = s ++ Py.rstrip b.
Proof.
  intros H. unfold Py.rstrip.
  rewrite rev_app_distr, lstrip_keeps by now rewrite forallb_rev.
  now rewrite rev_app_distr, rev_involutive.
Qed.

Lemma collapse_run (st : bool) (w s : text) :
  w <> [] -> forallb Py.isspace w = true ->
  Py.collapse_from st (w ++ s)
  = (if st then [] else [" "%char]) ++ Py.collapse_from true s.
Proof.
  intros Hw H. destruct w as [|c w]; [congruence|]. clear Hw.
  simpl in H. apply andb_true_iff in H; destruct H as [Hc H].
  assert (E : Py.collapse_from true (w ++ s) = Py.collapse_from true s).
  { induction w as [|d w IH]; [reflexivity|]. simpl in *.
    apply andb_true_iff in H; destruct H as [-> H]. now apply IH. }
  simpl. rewrite Hc, E. now destruct st.
Qed.

Lemma collapse_inner_run (a w1 w2 b : text) (st : bool) :
  w1 <> [] -> w2 <> [] ->
  forallb Py.isspace w1 = true -> forallb Py.isspace w2 = true ->
  Py.collapse_from st (a ++ w1 ++ b) = Py.collapse_from st (a ++ w2 ++ b).
Proof.
  intros N1 N2 H1 H2. revert st; induction a as [|c a IH]; intros st.
  - simpl. now rewrite !collapse_run.
  - simpl. destruct (Py.isspace c), st; now rewrite IH.
Qed.

Lemma strip_inner_run (a w1 w2 b : text) :
  w1 <> [] -> w2 <> [] ->
  forallb Py.isspace w1 = true -> forallb Py.isspace w2 = true ->
  Py.collapse_spaces (Py.strip (a ++ w1 ++ b))
  = Py.collapse_spaces (Py.strip (a ++ w2 ++ b)).
Proof.
  intros N1 N2 H1 H2. unfold Py.strip, Py.collapse_spaces.
  destruct (forallb Py.isspace a) eqn:Ea.
  - now rewrite !lstrip_spaces by assumption.
  - rewrite !lstrip_keeps by assumption.
    destruct (forallb Py.isspace b) eqn:Eb.
    + rewrite !app_assoc. now rewrite !rstrip_spaces by assumption.
    + rewrite !app_assoc, !rstrip_keeps by assumption.
      rewrite <- !app_assoc. now apply collapse_inner_run.
Qed.

Lemma normalize_same_words (k1 k2 : text) :
  same_words k1 k2 -> normalize_key (Some k1) = normalize_key (Some k2).
Proof.
  unfold normalize_key.
  induction 1 as [s | s t _ IH | s t u _ IH1 _ IH2 | c s Hc | c s Hc
                  | a w1 w2 b N1 N2 H1 H2].
  - reflexivity.
  - now symmetry.
  - now rewrite IH1.
  - unfold Py.strip. simpl. now rewrite Hc.
  - unfold Py.strip.
    destruct (forallb Py.isspace s) eqn:E.
    + assert (N : Py.lstrip s = []).
      { rewrite <- (app_nil_r s). now rewrite lstrip_spaces. }
      rewrite lstrip_spaces by exact E. simpl. now rewrite Hc, N.
    + rewrite lstrip_keeps by exact E. rewrite rstrip_spaces; [reflexivity|].
      simpl. now rewrite Hc.
  - now apply strip_inner_run.
Qed.

(** Stripped text neither starts nor ends with white space. *)
Lemma lstrip_head (s : text) :
  Py.isspace (hd "x"%char (Py.lstrip s)) = false.
Proof.
  induction s as [|c s IH]; [reflexivity|]. simpl.
  destruct (Py.isspace c) eqn:E; [exact IH | exact E].
Qed.

Lemma lstrip_fixed (s : text) :
  Py.isspace (hd "x"%char s) = false -> Py.lstrip s = s.
Proof. destruct s as [|c s]; [reflexivity|]. simpl. now intros ->. Qed.

Lemma hd_rev (s : text) (d : ascii) : hd d (rev s) = last s d.
Proof.
  induction s as [|c s IH]; [reflexivity|].
  simpl rev. destruct s as [|c' s]; [reflexivity|].
  change (last (c :: c' :: s) d) with (last (c' :: s) d). rewrite <- IH.
  destruct (rev (c' :: s)) eqn:E; [|reflexivity].
  apply (f_equal (@List.length _)) in E. rewrite length_rev in E. discriminate.
Qed.

Lemma rstrip_last (s : text) :
  Py.isspace (last (Py.rstrip s) "x"%char) = false.
Proof.
  unfold Py.rstrip. rewrite <- hd_rev, rev_involutive. apply lstrip_head.
Qed.

Lemma rstrip_fixed (s : text) :
  Py.isspace (last s "x"%char) = false -> Py.rstrip s = s.
Proof.
  intros H. unfold Py.rstrip. rewrite lstrip_fixed, rev_involutive; auto.
  now rewrite hd_rev.
Qed.

Lemma lstrip_suffix (s : text) : exists w, s = w ++ Py.lstrip s.
Proof.
  induction s as [|c s [w IH]]; [now exists []|]. simpl.
  destruct (Py.isspace c); [|now exists []].
  exists (c :: w). simpl. now rewrite <- IH.
Qed.

Lemma rstrip_head (s : text) :
  Py.isspace (hd "x"%char s) = false ->
  Py.isspace (hd "x"%char (Py.rstrip s)) = false.
Proof.
  intros H. destruct (lstrip_suffix (rev s)) as [w E].
  apply (f_equal (@rev _)) in E. rewrite rev_involutive, rev_app_distr in E.
  fold (Py.rstrip s) in E.
  destruct (Py.rstrip s) as [|c t]; [reflexivity|].
  rewrite E in H. exact H.
Qed.

Lemma collapse_head (s : text) :
  Py.isspace (hd "x"%char s) = false ->
  Py.isspace (hd "x"%char (Py.collapse_from false s)) = false.
Proof.
  destruct s as [|c s]; [reflexivity|]. simpl. intros H. now rewrite H.
Qed.

Lemma collapse_snoc (st : bool) (s : text) (z : ascii) :
  Py.isspace z = false ->
  Py.collapse_from st (s ++ [z]) = Py.collapse_from st s ++ [z].
Proof.
  intros Hz. revert st; induction s as [|c s IH]; intros st; simpl.
  - now rewrite Hz.
  - destruct (Py.isspace c), st; now rewrite IH.
Qed.

Lemma collapse_last (s : text) :
  Py.isspace (last s "x"%char) = false ->
  Py.isspace (last (Py.collapse_from false s) "x"%char) = false.
Proof.
  intros H. destruct (list_eq_dec ascii_dec s []) as [->|N]; [reflexivity|].
  rewrite (app_removelast_last "x"%char N), collapse_snoc by exact H.
  now rewrite last_last.
Qed.

Lemma collapse_true_head (s : text) :
  Py.isspace (hd "x"%char (Py.collapse_from true s)) = false.
Proof.
  induction s as [|c s IH]; [reflexivity|]. simpl.
  destruct (Py.isspace c) eqn:E; [exact IH | exact E].
Qed.

Lemma collapse_restart (s : text) :
  Py.isspace (hd "x"%char s) = false ->
  Py.collapse_from true s = Py.collapse_from false s.
Proof. destruct s as [|c s]; [reflexivity|]. simpl. now intros ->. Qed.

Lemma collapse_idempotent (st : bool) (s : text) :
  Py.collapse_from false (Py.collapse_from st s) = Py.collapse_from st s.
Proof.
  revert st; induction s as [|c s IH]; intros st; [reflexivity|].
  simpl. destruct (Py.isspace c) eqn:E.
  - destruct st; [apply IH|].
    change (Py.collapse_from false (" "%char :: Py.collapse_from true s))
      with (" "%char :: Py.collapse_from true (Py.collapse_from true s)).
    f_equal. rewrite collapse_restart by apply collapse_true_head. apply IH.
  - simpl. rewrite E. f_equal. apply IH.
Qed.

Lemma normalize_idempotent (v : cell) :
  normalize_key (Some (normalize_key v)) = normalize_key v.
Proof.
  unfold normalize_key.
  set (s := match v with Some s => s | None => [] end).
  assert (Hh : Py.isspace (hd "x"%char (Py.strip s)) = false).
  { apply rstrip_head, lstrip_head. }
  assert (Hl : Py.isspace (last (Py.strip s) "x"%char) = false).
  { apply rstrip_last. }
  unfold Py.collapse_spaces.
  assert (E : Py.strip (Py.collapse_from false (Py.strip s))
              = Py.collapse_from false (Py.strip s)).
  { unfold Py.strip at 1.
    rewrite lstrip_fixed by now apply collapse_head.
    apply rstrip_fixed. now apply collapse_last. }
  rewrite E. apply collapse_idempotent.
Qed.

(** ** Grouping *)

Lemma index_of_bound {A : Type} (f : A -> bool) (l : list A) (i : nat) :
  Py.index_of f l = Some i -> i < List.length l.
Proof.
  revert i; induction l as [|x l IH]; intros i; simpl; [discriminate|].
  destruct (f x); [intros H; inversion H; lia|].
  destruct (Py.index_of f l) as [j|]; simpl; [|discriminate].
  intros H; inversion H. specialize (IH j eq_refl). lia.
Qed.

Lemma update_at_same {A : Type} (l : list A) (i : nat) (x d : A) :
  i < List.length l -> nth i (update_at i x l) d = x.
Proof.
  revert i; induction l as [|a l IH]; intros [|i]; simpl; try lia; auto.
  intros H. apply IH. lia.
Qed.

Lemma update_at_other {A : Type} (l : list A) (i j : nat) (x d : A) :
  j <> i -> nth j (update_at i x l) d = nth j l d.
Proof.
  revert i j; induction l as [|a l IH]; intros [|i] [|j] H; simpl; auto;
    try congruence.
Qed.

Lemma update_at_length {A : Type} (l : list A) (i : nat) (x : A) :
  List.length (update_at i x l) = List.length l.
Proof.
  revert i; induction l as [|a l IH]; intros [|i]; simpl; auto.
Qed.

Lemma unique_from_spec (seen l : list text) (x : text) :
  In x (unique_from seen l) <-> In x l /\ ~ In x seen.
Proof.
  revert seen; induction l as [|y l IH]; intros seen; simpl; [tauto|].
  destruct (existsb (Py.eqb y) seen) eqn:E.
  - apply existsb_exists in E. destruct E as (z & Hz & E).
    apply py_eqb_eq in E; subst z. rewrite IH.
    split; [tauto|]. intros [[->|H] N]; tauto.
  - assert (N : ~ In y seen).
    { intros H. apply not_true_iff_false in E. apply E.
      apply existsb_exists. exists y. split; [exact H | apply py_eqb_refl]. }
    simpl. rewrite IH. simpl.
    destruct (list_eq_dec ascii_dec y x) as [->|D]; [tauto|].
    split; [intros [H|H]; tauto|]. intros [[H|H] K]; [tauto|].
    right. split; [exact H|]. intros [H'|H']; tauto.
Qed.

Lemma unique_from_nodup (seen l : list text) : NoDup (unique_from seen l).
Proof.
  revert seen; induction l as [|y l IH]; intros seen; simpl; [constructor|].
  destruct (existsb (Py.eqb y) seen); [apply IH|].
  constructor; [|apply IH]. rewrite unique_from_spec. simpl. tauto.
Qed.

Lemma insert_sorted_perm (k : text) (l : list text) :
  Permutation (insert_sorted k l) (k :: l).
Proof.
  induction l as [|x l IH]; [reflexivity|]. simpl.
  destruct (Py.leb k x); [reflexivity|].
  rewrite IH. apply perm_swap.
Qed.

Lemma sort_keys_perm (l : list text) : Permutation (sort_keys l) l.
Proof.
  induction l as [|x l IH]; [reflexivity|].
  simpl. rewrite insert_sorted_perm. now constructor.
Qed.

Lemma group_keys_nodup (l : list text) : NoDup (sort_keys (unique l)).
Proof.
  apply (Permutation_NoDup (l := unique l)).
  - symmetry. apply sort_keys_perm.
  - apply unique_from_nodup.
Qed.

Lemma group_keys_in (l : list text) (k : text) :
  In k (sort_keys (unique l)) <-> In k l.
Proof.
  split.
  - intros H. apply (Permutation_in _ (sort_keys_perm _)) in H.
    now apply unique_from_spec in H.
  - intros H. apply (Permutation_in _ (Permutation_sym (sort_keys_perm _))).
    apply unique_from_spec. simpl. tauto.
Qed.

Lemma present_keys_in (pos : nat) (rs : list (nat * list cell)) (k : text) :
  In k (present_keys pos rs) <-> exists r, In r rs /\ key_at pos r = Some k.
Proof.
  induction rs as [|r rs IH]; simpl.
  - split; [tauto | intros (r & [] & _)].
  - destruct (key_at pos r) as [k'|] eqn:E; simpl; rewrite IH.
    + split.
      * intros [->|(r' & Hr & H)]; [exists r; auto | exists r'; auto].
      * intros (r' & [->|Hr] & H); [left; congruence | right; now exists r'].
    + split.
      * intros (r' & Hr & H). exists r'; auto.
      * intros (r' & [->|Hr] & H); [congruence | now exists r'].
Qed.

Lemma has_key_spec (pos : nat) (k : text) (r : nat * list cell) :
  has_key pos k r = true <-> key_at pos r = Some k.
Proof.
  unfold has_key. destruct (key_at pos r) as [k'|].
  - rewrite py_eqb_eq. split; congruence.
  - split; discriminate.
Qed.

Lemma filter_other_key (pos : nat) (k k' : text) (r : nat * list cell)
    (rs : list (nat * list cell)) :
  key_at pos r = Some k' -> k <> k' ->
  filter (has_key pos k) (r :: rs) = filter (has_key pos k) rs.
Proof.
  intros H N. simpl.
  destruct (has_key pos k r) eqn:E; [|reflexivity].
  apply has_key_spec in E. congruence.
Qed.

Lemma flat_map_filter_other (pos : nat) (ks : list text) (k' : text)
    (r : nat * list cell) (rs : list (nat * list cell)) :
  key_at pos r = Some k' -> ~ In k' ks ->
  flat_map (fun k => filter (has_key pos k) (r :: rs)) ks
  = flat_map (fun k => filter (has_key pos k) rs) ks.
Proof.
  intros H N. induction ks as [|k ks IH]; [reflexivity|].
  cbn [flat_map]. rewrite IH by (intros Hk; apply N; now right).
  f_equal. apply filter_other_key with (k' := k'); [exact H|].
  intros ->. apply N. now left.
Qed.

(** Groups over distinct keys that cover every row partition the rows. *)
Lemma groups_partition (pos : nat) (ks : list text)
    (rs : list (nat * list cell)) :
  NoDup ks ->
  (forall r, In r rs -> exists k, key_at pos r = Some k /\ In k ks) ->
  Permutation (flat_map (fun k => filter (has_key pos k) rs) ks) rs.
Proof.
  intros Hk. induction rs as [|r rs IH]; intros Hall.
  - clear. induction ks as [|k ks IHk]; [reflexivity | exact IHk].
  - destruct (Hall r (or_introl eq_refl)) as (k & Hr & Hin).
    apply in_split in Hin. destruct Hin as (k1 & k2 & ->).
    apply NoDup_remove_2 in Hk as Hnot.
    rewrite flat_map_app. cbn [flat_map].
    rewrite (flat_map_filter_other pos k1 k r rs Hr)
      by (intros H; apply Hnot, in_or_app; now left).
    rewrite (flat_map_filter_other pos k2 k r rs Hr)
      by (intros H; apply Hnot, in_or_app; now right).
    assert (E : filter (has_key pos k) (r :: rs)
                = r :: filter (has_key pos k) rs).
    { simpl. apply has_key_spec in Hr. now rewrite Hr. }
    rewrite E. cbn [app].
    rewrite <- Permutation_middle. constructor.
    specialize (IH (fun r' H => Hall r' (or_intror H))).
    rewrite flat_map_app in IH. exact IH.
Qed.

Lemma labelled_in_from (l : list (list cell)) (s i : nat) (row : list cell) :
  nth_error l i = Some row -> In (s + i, row) (combine (seq s (List.length l)) l).
Proof.
  revert s i; induction l as [|x l IH]; intros s [|i]; simpl; try discriminate.
  - intros H; inversion H. left. f_equal. lia.
  - intros H. right. replace (s + S i) with (S s + i) by lia. now apply IH.
Qed.

Lemma labelled_in (l : list (list cell)) (i : nat) (row : list cell) :
  nth_error l i = Some row -> In (i, row) (labelled l).
Proof. apply (labelled_in_from l 0 i row). Qed.

Lemma labelled_rows (l : list (list cell)) (r : nat * list cell) :
  In r (labelled l) -> In (snd r) l.
Proof.
  destruct r as [i row]. intros H. now apply in_combine_r in H.
Qed.

Lemma normalized_keyed (pos width : nat) (rs : list (list cell))
    (r : nat * list cell) :
  pos < width ->
  Forall (fun row => List.length row = width) rs ->
  In r (labelled (normalize_column pos rs)) ->
  exists k, key_at pos r = Some k.
Proof.
  intros Hp Hw Hr. apply labelled_rows in Hr.
  unfold normalize_column in Hr. apply in_map_iff in Hr.
  destruct Hr as (row & E & Hrow). rewrite Forall_forall in Hw.
  specialize (Hw row Hrow). unfold key_at. rewrite <- E.
  rewrite update_at_same by lia. eauto.
Qed.

(** The group of a row: the one keyed by its normalised key. *)
Lemma group_of_row (pos width : nat) (rs : list (list cell)) (i : nat)
    (row : list cell) :
  pos < width ->
  Forall (fun row => List.length row = width) rs ->
  nth_error rs i = Some row ->
  let k := normalize_key (nth pos row None) in
  let rows' := labelled (normalize_column pos rs) in
  In (k, filter (has_key pos k) rows') (groupby pos rows')
  /\ In (i, normalized_row pos row) (filter (has_key pos k) rows').
Proof.
  intros Hp Hw Hi k rows'.
  assert (Hin : In (i, normalized_row pos row) rows').
  { apply labelled_in. unfold normalize_column.
    exact (map_nth_error _ i rs Hi). }
  assert (Hk : key_at pos (i, normalized_row pos row) = Some k).
  { unfold key_at, normalized_row. simpl. rewrite update_at_same; [reflexivity|].
    rewrite Forall_forall in Hw. rewrite (Hw row); [exact Hp|].
    now apply nth_error_In with (n := i). }
  split.
  - unfold groupby. apply in_map_iff. exists k. split; [reflexivity|].
    apply group_keys_in, present_keys_in. eauto.
  - apply filter_In. split; [exact Hin | now apply has_key_spec].
Qed.

(** C3.  Grouping is a partition, for a sheet in which the grouping
    label names one column.  The group keys are distinct; the rows of a
    group carry its key; the rows of all groups together are the input
    rows, each once; and every input row, whatever its grouping cell
    (missing and empty included), is in exactly one group.  A row appears
    in its group with its grouping cell normalised and every other cell
    as read. *)
Theorem grouping_is_partition (cfg : Scope) (df : DataFrame) (pos : nat) :
  rectangular df ->
  column_pos (columns df) (ring_col cfg) = Some pos ->
  unambiguous (columns df) (ring_col cfg) ->
  let groups := group_records cfg (columns df) (rows df) in
  NoDup (map fst groups)
  /\ (forall k g r, In (k, g) groups -> In r g -> key_at pos r = Some k)
  /\ Permutation (flat_map snd groups)
       (labelled (map (normalized_row pos) (rows df)))
  /\ (forall i row, nth_error (rows df) i = Some row ->
      exists k g,
        In (k, g) groups /\ In (i, normalized_row pos row) g
        /\ forall k' g', In (k', g') groups ->
             In (i, normalized_row pos row) g' -> k' = k)
  /\ (forall row c, c <> pos ->
      nth c (normalized_row pos row) None = nth c row None).
Proof.
  intros Hrect Hpos _ groups.
  assert (Hp : pos < List.length (columns df)).
  { now apply index_of_bound in Hpos. }
  unfold groups, group_records. rewrite Hpos.
  change (map (normalized_row pos) (rows df))
    with (normalize_column pos (rows df)).
  set (rows' := labelled (normalize_column pos (rows df))).
  assert (Hmem : forall k g r, In (k, g) (groupby pos rows') -> In r g ->
                   key_at pos r = Some k).
  { intros k g r Hg Hr. unfold groupby in Hg. apply in_map_iff in Hg.
    destruct Hg as (k0 & E & _). inversion E; subst.
    apply filter_In in Hr. now apply has_key_spec. }
  split; [|split; [exact Hmem | split; [|split]]].
  - unfold groupby. rewrite map_map. simpl. rewrite map_id.
    apply group_keys_nodup.
  - unfold groupby. rewrite flat_map_map. simpl.
    apply groups_partition; [apply group_keys_nodup|].
    intros r Hr.
    destruct (normalized_keyed pos _ _ r Hp Hrect Hr) as [k Hk].
    exists k. split; [exact Hk|].
    apply group_keys_in, present_keys_in. eauto.
  - intros i row Hi.
    destruct (group_of_row pos _ _ i row Hp Hrect Hi) as [Hg Hr].
    eexists; eexists. split; [exact Hg|]. split; [exact Hr|].
    intros k' g' Hg' Hr'. specialize (Hmem k' g' _ Hg' Hr').
    apply filter_In in Hr. destruct Hr as [_ Hr].
    apply has_key_spec in Hr. congruence.
  - intros row c Hc. now apply update_at_other.
Qed.

Lemma grouping_is_partition_witness :
  rectangular sample_frame
  /\ column_pos (columns sample_frame) (ring_col sample_scope) = Some 0
  /\ unambiguous (columns sample_frame) (ring_col sample_scope)
  /\ NoDup (map fst (group_records sample_scope (columns sample_frame)
                       (rows sample_frame)))
  /\ Permutation
       (flat_map snd (group_records sample_scope (columns sample_frame)
                        (rows sample_frame)))
       (labelled (map (normalized_row 0) (rows sample_frame))).
Proof.
  assert (R : rectangular sample_frame) by (repeat constructor).
  assert (C : column_pos (columns sample_frame) (ring_col sample_scope)
              = Some 0) by reflexivity.
  assert (U : unambiguous (columns sample_frame) (ring_col sample_scope))
    by (unfold unambiguous; simpl; lia).
  split; [exact R|]. split; [exact C|]. split; [exact U|].
  destruct (grouping_is_partition sample_scope sample_frame 0 R C U)
    as (H1 & _ & H3 & _ & _).
  split; [exact H1 | exact H3].
Defined.

Example sample_groups :
  map (fun g => (fst g, map fst (snd g)))
      (group_records sample_scope (columns sample_frame) (rows sample_frame))
  = [([], [3]); (lit "Ring A", [0; 1]); (lit "Ring B", [2])].
Proof. reflexivity. Qed.

(** C4.  Normalising the grouping key (strip, then collapse every run of
    white space to one space) is idempotent; two keys that differ only in
    surrounding white space or in the length of internal white-space runs
    normalise to the same text; and, in a sheet in which the grouping
    label names one column, two records with such keys are in the same
    group. *)
Theorem key_normalization_idempotent :
  (forall v, normalize_key (Some (normalize_key v)) = normalize_key v)
  /\ (forall k1 k2, same_words k1 k2 ->
        normalize_key (Some k1) = normalize_key (Some k2))
  /\ (forall cfg df pos i j ri rj k1 k2,
        rectangular df ->
        column_pos (columns df) (ring_col cfg) = Some pos ->
        unambiguous (columns df) (ring_col cfg) ->
        nth_error (rows df) i = Some ri -> nth_error (rows df) j = Some rj ->
        nth pos ri None = Some k1 -> nth pos rj None = Some k2 ->
        same_words k1 k2 ->
        exists k g,
          In (k, g) (group_records cfg (columns df) (rows df))
          /\ In (i, normalized_row pos ri) g
          /\ In (j, normalized_row pos rj) g).
Proof.
  split; [exact normalize_idempotent|]. split; [exact normalize_same_words|].
  intros cfg df pos i j ri rj k1 k2 Hrect Hpos _ Hi Hj E1 E2 Hsw.
  assert (Hp : pos < List.length (columns df)).
  { now apply index_of_bound in Hpos. }
  destruct (group_of_row pos _ _ i ri Hp Hrect Hi) as [Hg Hri].
  destruct (group_of_row pos _ _ j rj Hp Hrect Hj) as [_ Hrj].
  rewrite E1 in Hg, Hri. rewrite E2 in Hrj.
  rewrite <- (normalize_same_words _ _ Hsw) in Hrj.
  unfold group_records. rewrite Hpos. eauto.
Qed.

Lemma key_normalization_idempotent_witness :
  same_words (lit " Ring  A ") (lit "Ring A")
  /\ normalize_key (Some (lit " Ring  A ")) = normalize_key (Some (lit "Ring A"))
  /\ normalize_key (Some (lit " Ring  A ")) = lit "Ring A".
Proof.
  assert (H : same_words (lit " Ring  A ") (lit "Ring A")).
  { apply sw_trans with (t := lit "Ring  A ");
      [apply (sw_lead " "%char (lit "Ring  A ")); reflexivity|].
    apply sw_trans with (t := lit "Ring  A");
      [apply (sw_trail " "%char (lit "Ring  A")); reflexivity|].
    apply (sw_run (lit "Ring") (lit "  ") (lit " ") (lit "A"));
      try discriminate; reflexivity. }
  split; [exact H|].
  split; [exact (proj1 (proj2 key_normalization_idempotent) _ _ H)|].
  reflexivity.
Defined.

(** ** Document title *)

(** C6, as amended.  In a sheet in which the title label names one
    column, the title of a group is the title cell of its first record
    when that cell holds a value, whatever the value; when the cell is
    missing (NaN, which is how a blank spreadsheet cell is read) the title
    is the fallback [Doc - ] followed by the group key. *)
Theorem title_of_first_record (cfg : Scope) (cols : list text)
    (group_name : text) (idx : nat) (first : list cell)
    (others : list (nat * list cell)) (pos : nat) :
  column_pos cols (title_col cfg) = Some pos ->
  unambiguous cols (title_col cfg) ->
  doc_title cfg cols group_name ((idx, first) :: others)
  = match nth pos first None with
    | Some value => value
    | None => lit "Doc - " ++ group_name
    end.
Proof.
  intros H _. unfold doc_title, row_get. rewrite H. simpl.
  now destruct (nth pos first None).
Qed.

Lemma title_of_first_record_witness :
  column_pos (columns sample_frame) (title_col sample_scope) = Some 1
  /\ unambiguous (columns sample_frame) (title_col sample_scope)
  /\ doc_title sample_scope (columns sample_frame) (lit "Ring B")
       [(2, [Some (lit "Ring B"); None; Some (lit "T-003")])]
     = lit "Doc - Ring B".
Proof.
  assert (U : unambiguous (columns sample_frame) (title_col sample_scope))
    by (unfold unambiguous; simpl; lia).
  split; [reflexivity|]. split; [exact U|].
  exact (title_of_first_record sample_scope (columns sample_frame)
           (lit "Ring B") 2 [Some (lit "Ring B"); None; Some (lit "T-003")]
           [] 1 eq_refl U).
Defined.

(** C6, as stated, fails for a blank value that is an empty string.  When
    the title column is the grouping column, a blank ring cell is filled
    with the empty string before grouping; the group key and the title
    cell are both empty, and the title is the empty string, not the
    fallback. *)
Lemma blank_title_not_fallback :
  let cols := columns blank_ring_frame in
  let groups := group_records ring_title_scope cols (rows blank_ring_frame) in
  groups = [([], [(0, [Some []; Some (lit "T-001")])])]
  /\ doc_title ring_title_scope cols [] [(0, [Some []; Some (lit "T-001")])]
     = []
  /\ doc_title ring_title_scope cols [] [(0, [Some []; Some (lit "T-001")])]
     <> lit "Doc - " ++ [].
Proof. repeat split. discriminate. Qed.

(** ** Table fill *)

Lemma remove_at_length {A : Type} (l : list A) (i : nat) :
  i < List.length l -> List.length (remove_at i l) = List.length l - 1.
Proof.
  revert i; induction l as [|x l IH]; intros [|i]; simpl; try lia.
  intros H. rewrite IH by lia. lia.
Qed.

Lemma remove_at_first {A : Type} (l : list A) (i : nat) :
  firstn 1 (remove_at (S i) l) = firstn 1 l.
Proof. destruct l; reflexivity. Qed.

Lemma clear_from {A : Type} (n : nat) (l : list A) :
  List.length l = S n ->
  fold_left (fun acc i => remove_at i acc) (rev (seq 1 n)) l = firstn 1 l.
Proof.
  revert l; induction n as [|n IH]; intros l H.
  - simpl. destruct l as [|x [|y l]]; simpl in *; try discriminate; reflexivity.
  - rewrite seq_S, rev_app_distr.
    change (rev [1 + n] ++ rev (seq 1 n)) with (S n :: rev (seq 1 n)).
    cbn [fold_left].
    rewrite IH; [apply remove_at_first|].
    rewrite remove_at_length; lia.
Qed.

(** The clearing loop keeps the first row and nothing else. *)
Lemma clear_body_rows_header (rs : list Row) :
  clear_body_rows rs = firstn 1 rs.
Proof.
  unfold clear_body_rows. destruct rs as [|r rs]; [reflexivity|].
  apply clear_from. simpl. lia.
Qed.

Lemma append_records_rows (cfg : Scope) (cols : list text)
    (group_data records : list (nat * list cell)) (t : Table) :
  exists added,
    t_rows (fold_left (append_record cfg cols group_data) records t)
    = t_rows t ++ added
    /\ List.length added = List.length records.
Proof.
  revert t; induction records as [|r records IH]; intros t.
  - exists []. now rewrite app_nil_r.
  - simpl. destruct (IH (append_record cfg cols group_data t r))
      as (added & E & L).
    rewrite E. unfold append_record. cbn [t_rows]. rewrite <- app_assoc.
    eexists. split; [reflexivity|]. simpl. now rewrite L.
Qed.

Lemma is_target_rows (keyword : text) (t : Table) :
  is_target keyword t = true -> t_rows t <> [].
Proof. unfold is_target. destruct (t_rows t); [discriminate | discriminate]. Qed.

(** C5.  After the fill of a located table the table has
    [header_row_count + len(group_data)] rows, and the cells of the header
    row hold what they held. *)
Theorem fill_table_row_count (cfg : Scope) (cols : list text)
    (group_data : list (nat * list cell)) (t : Table) :
  is_target (table_keyword cfg) t = true ->
  let t' := fill_table cfg cols group_data t in
  List.length (t_rows t') = header_row_count + List.length group_data
  /\ map (map c_paras) (firstn header_row_count (t_rows t'))
     = map (map c_paras) (firstn header_row_count (t_rows t))
  /\ map (map c_nested) (firstn header_row_count (t_rows t'))
     = map (map c_nested) (firstn header_row_count (t_rows t)).
Proof.
  intros H. apply is_target_rows in H.
  unfold fill_table, reset_table_width.
  match goal with
  | |- context [fold_left ?f group_data ?s] =>
      destruct (append_records_rows cfg cols group_data group_data s)
        as (added & E & L)
  end.
  cbv zeta. cbn [t_rows] in *. rewrite E, clear_body_rows_header.
  destruct (t_rows t) as [|header body]; [congruence|].
  unfold header_row_count.
  change (firstn 1 (header :: body)) with [header].
  cbn [app map firstn List.length].
  split; [rewrite length_map; simpl; f_equal; exact L|].
  split; f_equal; rewrite map_map; reflexivity.
Qed.

Lemma fill_table_row_count_witness :
  is_target (table_keyword sample_scope) sample_table = true
  /\ List.length
       (t_rows (fill_table sample_scope (columns sample_frame)
                  [(0, [Some (lit "Ring A"); None; Some (lit "T-001")]);
                   (1, [Some (lit "Ring A"); None; Some (lit "T-002")])]
                  sample_table))
     = header_row_count + 2.
Proof.
  split; [reflexivity|].
  exact (proj1 (fill_table_row_count sample_scope (columns sample_frame)
                  [(0, [Some (lit "Ring A"); None; Some (lit "T-001")]);
                   (1, [Some (lit "Ring A"); None; Some (lit "T-002")])]
                  sample_table eq_refl)).
Defined.

(** Only row 0 counts as header: a second row, whatever it shows, is
    cleared with the body. *)
Example second_row_is_cleared :
  map (map cell_text)
    (t_rows (fill_table sample_scope (columns sample_frame) [] sample_table))
  = [[lit "No"; lit "Tower ID"; lit "Ring"]].
Proof. reflexivity. Qed.

Example sample_table_filled :
  map (map cell_text)
    (t_rows (fill_table sample_scope (columns sample_frame)
               [(0, [Some (lit "Ring A"); None; Some (lit "T-001")]);
                (1, [Some (lit "Ring A"); None; Some (lit "nan")])]
               sample_table))
  = [[lit "No"; lit "Tower ID"; lit "Ring"];
     [lit "1"; lit "T-001"; lit "Ring A"];
     [lit "2"; []; lit "Ring A"]].
Proof. reflexivity. Qed.

(** ** Topology image *)

(** C7 at the failing input.  The scope has topology images, the image
    file of the group exists, and the placeholder sits in two cells of one
    table row and in no body paragraph: the loop over the cells of a row
    has no test of [image_inserted], both cells receive the picture, and
    the document has two pictures. *)
Theorem two_pictures_in_one_row :
  let doc' :=
    fst (topology_step image_env sample_scope
           [(lit "Ring A", lit "ring-a.png")] (lit "Ring A")
           two_placeholder_doc) in
  body_pictures two_placeholder_doc = 0
  /\ doc' = fst (insert_image true (lit "ring-a.png") (lit "Ring A")
                   two_placeholder_doc)
  /\ body_pictures doc' = 2
  /\ map (map (map c_paras)) (map t_rows (d_tables doc'))
     = [[[[picture_paragraph (lit "ring-a.png") inches_5_5];
          [picture_paragraph (lit "ring-a.png") inches_5_5]]]].
Proof. repeat split. Qed.

(** Each of the two pictures is logged. *)
Example two_pictures_two_log_lines :
  snd (topology_step image_env sample_scope
         [(lit "Ring A", lit "ring-a.png")] (lit "Ring A")
         two_placeholder_doc)
  = [LogImageInsertedInTable (lit "Ring A");
     LogImageInsertedInTable (lit "Ring A")].
Proof. reflexivity. Qed.

(** ** Column validation *)

Lemma has_column_spec (cols : list text) (name : text) :
  has_column cols name = true <-> In name cols.
Proof.
  unfold has_column. rewrite existsb_exists. split.
  - intros (c & Hc & E). apply py_eqb_eq in E. now subst.
  - intros H. exists name. split; [exact H | apply py_eqb_refl].
Qed.

Lemma missing_columns_spec (cfg : Scope) (cols : list text) (c : text) :
  In c (missing_columns cfg cols)
  <-> In c (columns_mapping cfg ++ [ring_col cfg; title_col cfg])
      /\ ~ In c cols.
Proof.
  unfold missing_columns. rewrite filter_In, negb_true_iff.
  split; intros [H1 H2]; (split; [exact H1|]).
  - intros H. apply has_column_spec in H. congruence.
  - destruct (has_column cols c) eqn:E; [|reflexivity].
    apply has_column_spec in E. contradiction.
Qed.

(** C8.  When the header (stripped) lacks a required column (one of the
    mapped columns, the grouping column or the title column) the run
    stops at the validation: the message carries the list of the missing
    columns, no archive path is returned, the count is zero, and neither a
    document nor an archive has been written; only the empty output folder
    exists. *)
Theorem missing_columns_abort (env : Env) (cfg : Scope)
    (excel_path scope_key : text) (topology_images : list (text * text))
    (df : DataFrame) :
  read_excel env excel_path (excel_sheet cfg) = Some df ->
  (exists c, In c (columns_mapping cfg ++ [ring_col cfg; title_col cfg])
             /\ ~ In c (map Py.strip (columns df))) ->
  let missing := missing_columns cfg (map Py.strip (columns df)) in
  let run :=
    generate_documents env (Some cfg) excel_path scope_key topology_images in
  missing <> []
  /\ message (fst run) = MsgMissingColumns missing
  /\ zip_path (fst run) = None
  /\ doc_count (fst run) = 0
  /\ documents (snd run) = []
  /\ archives (snd run) = []
  /\ List.length (folders (snd run)) = 1.
Proof.
  intros Hread (c & Hreq & Hnot) missing run.
  assert (Hm : In c missing) by (apply missing_columns_spec; auto).
  unfold run, generate_documents. rewrite Hread. fold missing.
  destruct missing as [|m ms]; [destruct Hm|].
  split; [discriminate|].
  destruct topology_images; repeat split.
Qed.

Lemma missing_columns_abort_witness :
  read_excel sample_env (lit "in.xlsx") (excel_sheet strict_scope)
  = Some sample_frame
  /\ In (lit "Hostname")
       (columns_mapping strict_scope
        ++ [ring_col strict_scope; title_col strict_scope])
  /\ message (fst (generate_documents sample_env (Some strict_scope)
                     (lit "in.xlsx") (lit "Swap") []))
     = MsgMissingColumns [lit "Hostname"].
Proof.
  split; [reflexivity|]. split; [right; left; reflexivity|].
  refine (proj1 (proj2 (missing_columns_abort sample_env strict_scope
                          (lit "in.xlsx") (lit "Swap") [] sample_frame
                          eq_refl _))).
  exists (lit "Hostname"). split; [right; left; reflexivity|].
  intros H. vm_compute in H.
  repeat (destruct H as [H|H]; [discriminate H|]). exact H.
Defined.

(** With every required column present the same run writes one document
    per group and one archive. *)
Example sample_run :
  let run :=
    generate_documents sample_env (Some sample_scope) (lit "in.xlsx")
      (lit "Swap") [] in
  message (fst run) = MsgGenerated 3
  /\ map fst (documents (snd run))
     = [lit "output/Hasil_Swap_2026-01-05_101500/Doc - .docx";
        lit "output/Hasil_Swap_2026-01-05_101500/Swap Ring A.docx";
        lit "output/Hasil_Swap_2026-01-05_101500/Doc - Ring B.docx"]
  /\ map (fun a => map snd (snd a)) (archives (snd run))
     = [[lit "Doc - .docx"; lit "Swap Ring A.docx"; lit "Doc - Ring B.docx"]].
Proof. vm_compute. repeat split. Qed.

(** ** Nearest C/AG hostname *)

Lemma index_of_none {A : Type} (f : A -> bool) (l : list A) :
  (forall x, In x l -> f x = false) -> Py.index_of f l = None.
Proof.
  induction l as [|x l IH]; intros H; [reflexivity|]. simpl.
  rewrite (H x (or_introl eq_refl)), IH; [reflexivity|].
  intros y Hy. apply H. now right.
Qed.

(** [index_of] returns the first position that satisfies the test. *)
Lemma index_of_first {A : Type} (f : A -> bool) (l : list A) (i : nat) :
  Py.index_of f l = Some i ->
  (exists x, nth_error l i = Some x /\ f x = true)
  /\ (forall j x, j < i -> nth_error l j = Some x -> f x = false).
Proof.
  revert i; induction l as [|y l IH]; intros i; simpl; [discriminate|].
  destruct (f y) eqn:E.
  - intros H; inversion H; subst. split; [now exists y | intros j x Hj; lia].
  - destruct (Py.index_of f l) as [k|]; simpl; [|discriminate].
    intros H; inversion H; subst. destruct (IH k eq_refl) as [Hx Hlt].
    split; [exact Hx|]. intros [|j] x Hj; simpl.
    + intros H'; inversion H'; now subst.
    + apply Hlt. lia.
Qed.

Lemma first_cag_some (l : list text) (d d' : nat) (h : text) :
  first_cag d l = Some (d', h) ->
  exists k, d' = d + k /\ nth_error l k = Some h /\ is_cag h = true
            /\ forall k' h', k' < k -> nth_error l k' = Some h' ->
                 is_cag h' = false.
Proof.
  revert d; induction l as [|x l IH]; intros d; simpl; [discriminate|].
  destruct (is_cag x) eqn:E.
  - intros H; inversion H; subst. exists 0. repeat split; auto; try lia.
  - intros H. destruct (IH _ H) as (k & -> & Hn & Hc & Hmin).
    exists (S k). repeat split; auto; try lia.
    intros [|k'] h' Hk; simpl.
    + intros H'; inversion H'; now subst.
    + apply Hmin. lia.
Qed.

Lemma first_cag_none (l : list text) (d : nat) :
  first_cag d l = None ->
  forall k h, nth_error l k = Some h -> is_cag h = false.
Proof.
  revert d; induction l as [|x l IH]; intros d; simpl.
  - intros _ [|k] h; discriminate.
  - destruct (is_cag x) eqn:E; [discriminate|].
    intros H [|k] h; simpl.
    + intros H'; inversion H'; now subst.
    + now apply (IH _ H).
Qed.

(** The hosts left of [pos], nearest first, and the hosts right of it. *)
Lemma left_of (hostnames : list text) (pos k : nat) :
  pos <= List.length hostnames -> k < pos ->
  nth_error (rev (firstn pos hostnames)) k = nth_error hostnames (pos - S k).
Proof.
  intros Hp Hk. rewrite nth_error_rev, firstn_length_le by exact Hp.
  destruct (Nat.ltb_spec k pos); [|lia].
  rewrite nth_error_firstn.
  destruct (Nat.ltb_spec (pos - S k) pos); [reflexivity | lia].
Qed.

Lemma left_of_bound (hostnames : list text) (pos k : nat) (h : text) :
  pos <= List.length hostnames ->
  nth_error (rev (firstn pos hostnames)) k = Some h -> k < pos.
Proof.
  intros Hp H.
  assert (N : nth_error (rev (firstn pos hostnames)) k <> None) by congruence.
  apply nth_error_Some in N.
  now rewrite length_rev, firstn_length_le in N by exact Hp.
Qed.

Lemma right_of (hostnames : list text) (pos k : nat) :
  nth_error (skipn (S pos) hostnames) k = nth_error hostnames (S pos + k).
Proof. apply nth_error_skipn. Qed.

Lemma nearest_in_chain_spec (pag_hostname chain : text) (pos : nat) :
  Py.index_of (Py.eqb pag_hostname) (chain_hostnames chain) = Some pos ->
  (exists j, cag_at (chain_hostnames chain) j /\ j <> pos) ->
  exists j h,
    nearest_in_chain pag_hostname chain = Some h
    /\ nth_error (chain_hostnames chain) j = Some h
    /\ nearest_cag (chain_hostnames chain) pos j.
Proof.
  intros Hpos (j0 & (h0 & Hj0 & Hc0) & Hne).
  unfold nearest_in_chain. rewrite Hpos.
  set (hs := chain_hostnames chain) in *.
  assert (Hp : pos <= List.length hs).
  { apply index_of_bound in Hpos. lia. }
  assert (Hleft : forall d h, first_cag 1 (rev (firstn pos hs)) = Some (d, h) ->
            exists k, d = S k /\ k < pos /\ nth_error hs (pos - S k) = Some h
                      /\ is_cag h = true
                      /\ forall j', cag_at hs j' -> j' < pos -> pos - S k >= j').
  { intros d h H. apply first_cag_some in H.
    destruct H as (k & -> & Hn & Hc & Hmin).
    pose proof (left_of_bound hs pos k h Hp Hn) as Hk.
    exists k. rewrite left_of in Hn by assumption.
    repeat split; auto. intros j' (h' & Hn' & Hc') Hj'.
    destruct (Nat.le_gt_cases j' (pos - S k)) as [|Hgt]; [assumption|].
    specialize (Hmin (pos - S j') h').
    rewrite left_of in Hmin by lia.
    replace (pos - S (pos - S j')) with j' in Hmin by lia.
    rewrite Hmin in Hc'; [discriminate | lia | exact Hn']. }
  assert (Hright : forall d h, first_cag 1 (skipn (S pos) hs) = Some (d, h) ->
            exists k, d = S k /\ nth_error hs (S pos + k) = Some h
                      /\ is_cag h = true
                      /\ forall j', cag_at hs j' -> pos < j' -> S pos + k <= j').
  { intros d h H. apply first_cag_some in H.
    destruct H as (k & -> & Hn & Hc & Hmin).
    exists k. rewrite right_of in Hn.
    repeat split; auto. intros j' (h' & Hn' & Hc') Hj'.
    destruct (Nat.le_gt_cases (S pos + k) j') as [|Hgt]; [assumption|].
    specialize (Hmin (j' - S pos) h').
    rewrite right_of in Hmin.
    replace (S pos + (j' - S pos)) with j' in Hmin by lia.
    rewrite Hmin in Hc'; [discriminate | lia | exact Hn']. }
  assert (Hnoleft : first_cag 1 (rev (firstn pos hs)) = None ->
            forall j', cag_at hs j' -> j' < pos -> False).
  { intros H j' (h' & Hn' & Hc') Hj'.
    pose proof (first_cag_none _ _ H (pos - S j') h') as N.
    rewrite left_of in N by lia.
    replace (pos - S (pos - S j')) with j' in N by lia.
    rewrite N in Hc'; [discriminate | exact Hn']. }
  assert (Hnoright : first_cag 1 (skipn (S pos) hs) = None ->
            forall j', cag_at hs j' -> pos < j' -> False).
  { intros H j' (h' & Hn' & Hc') Hj'.
    pose proof (first_cag_none _ _ H (j' - S pos) h') as N.
    rewrite right_of in N.
    replace (S pos + (j' - S pos)) with j' in N by lia.
    rewrite N in Hc'; [discriminate | exact Hn']. }
  unfold nearest_cag, distance.
  destruct (first_cag 1 (rev (firstn pos hs))) as [[ld l]|] eqn:El;
    destruct (first_cag 1 (skipn (S pos) hs)) as [[rd r]|] eqn:Er.
  - destruct (Hleft _ _ eq_refl) as (kl & -> & Hkl & Hnl & Hcl & Hml).
    destruct (Hright _ _ eq_refl) as (kr & -> & Hnr & Hcr & Hmr).
    destruct (Nat.leb_spec (S kl) (S kr)).
    + exists (pos - S kl), l. repeat split; auto; try lia.
      * now exists l.
      * intros j' Hj' Hd. destruct (Nat.lt_ge_cases j' pos) as [Hlt|Hge].
        -- specialize (Hml j' Hj' Hlt). lia.
        -- specialize (Hmr j' Hj'). lia.
    + exists (S pos + kr), r. repeat split; auto; try lia.
      * now exists r.
      * intros j' Hj' Hd. destruct (Nat.lt_ge_cases j' pos) as [Hlt|Hge].
        -- specialize (Hml j' Hj' Hlt). lia.
        -- specialize (Hmr j' Hj'). lia.
      * intros _ j' Hj' Hlt. specialize (Hml j' Hj' Hlt). lia.
  - destruct (Hleft _ _ eq_refl) as (kl & -> & Hkl & Hnl & Hcl & Hml).
    exists (pos - S kl), l. repeat split; auto; try lia.
    + now exists l.
    + intros j' Hj' Hd. destruct (Nat.lt_ge_cases j' pos) as [Hlt|Hge].
      * specialize (Hml j' Hj' Hlt). lia.
      * exfalso. apply (Hnoright eq_refl j' Hj'). lia.
  - destruct (Hright _ _ eq_refl) as (kr & -> & Hnr & Hcr & Hmr).
    exists (S pos + kr), r. repeat split; auto; try lia.
    + now exists r.
    + intros j' Hj' Hd. destruct (Nat.lt_ge_cases j' pos) as [Hlt|Hge].
      * exfalso. apply (Hnoleft eq_refl j' Hj' Hlt).
      * specialize (Hmr j' Hj'). lia.
    + intros _ j' Hj' Hlt. exfalso. apply (Hnoleft eq_refl j' Hj' Hlt).
  - exfalso. assert (Hc : cag_at hs j0) by now exists h0.
    destruct (Nat.lt_ge_cases j0 pos) as [Hlt|Hge].
    + apply (Hnoleft eq_refl j0 Hc Hlt).
    + apply (Hnoright eq_refl j0 Hc). lia.
Qed.

Lemma find_nearest_cag_skips (pag_hostname : text) (before rest : list Json) :
  Forall (without_host pag_hostname) before ->
  find_nearest_cag pag_hostname (before ++ rest)
  = find_nearest_cag pag_hostname rest.
Proof.
  induction 1 as [|entry before H _ IH]; [reflexivity|].
  simpl. destruct entry as [| |shown|[|c chain]]; try exact IH.
  unfold nearest_in_chain. simpl in H.
  rewrite index_of_none; [exact IH|].
  intros x Hx. apply py_eqb_neq. intros ->. contradiction.
Qed.

(** C9.  For a chain that names the queried host, reached by the lookup
    (no earlier entry names the host), and that has a C/AG hostname at some
    other position: the lookup returns the hostname at the C/AG position
    nearest to the first position of the host; no C/AG position is closer,
    and a position on the right is returned only when it is strictly
    closer than every C/AG position on the left. *)
Theorem find_nearest_cag_nearest (pag_hostname : text)
    (before : list Json) (chain : text) (after : list Json) (pos : nat) :
  Forall (without_host pag_hostname) before ->
  Py.index_of (Py.eqb pag_hostname) (chain_hostnames chain) = Some pos ->
  (exists j, cag_at (chain_hostnames chain) j /\ j <> pos) ->
  exists j h,
    find_nearest_cag pag_hostname (before ++ JStr chain :: after) = Some h
    /\ nth_error (chain_hostnames chain) j = Some h
    /\ nearest_cag (chain_hostnames chain) pos j.
Proof.
  intros Hbefore Hpos Hcand.
  destruct (nearest_in_chain_spec _ _ _ Hpos Hcand) as (j & h & Hn & Hj & Hnear).
  exists j, h. split; [|split; assumption].
  rewrite find_nearest_cag_skips by exact Hbefore.
  destruct chain as [|c chain]; [discriminate Hpos|].
  simpl. now rewrite Hn.
Qed.

Lemma find_nearest_cag_nearest_witness :
  Forall (without_host (lit "PAG-7")) [JNull]
  /\ Py.index_of (Py.eqb (lit "PAG-7"))
       (chain_hostnames (lit "AG-1, PAG-7 ,C-2, PAG-9")) = Some 1
  /\ exists j h,
       find_nearest_cag (lit "PAG-7") sample_topo = Some h
       /\ nth_error (chain_hostnames (lit "AG-1, PAG-7 ,C-2, PAG-9")) j = Some h
       /\ nearest_cag (chain_hostnames (lit "AG-1, PAG-7 ,C-2, PAG-9")) 1 j.
Proof.
  assert (B : Forall (without_host (lit "PAG-7")) [JNull]).
  { constructor; [exact I | constructor]. }
  split; [exact B|]. split; [reflexivity|].
  apply (find_nearest_cag_nearest (lit "PAG-7") [JNull]
           (lit "AG-1, PAG-7 ,C-2, PAG-9") [] 1 B eq_refl).
  exists 0. split; [|discriminate].
  exists (lit "AG-1"). split; reflexivity.
Defined.

(** On equal distance the left host is returned. *)
Example tie_goes_left :
  find_nearest_cag (lit "PAG-7") sample_topo = Some (lit "AG-1")
  /\ find_nearest_cag (lit "PAG-9") sample_topo = Some (lit "C-2").
Proof. split; reflexivity. Qed.

(** ** Auto-fill *)

Lemma fill_row_unchanged (lookup : list (text * text))
    (key_index target_index : nat) (row : list Json) (seen : list text) :
  filled (cell_at row target_index) = true ->
  fst (fst (fill_row lookup key_index target_index row seen)) = row.
Proof.
  intros H. unfold fill_row.
  destruct (filled (cell_at row key_index)); simpl; [|reflexivity].
  now rewrite H.
Qed.

Lemma fill_row_changed (lookup : list (text * text))
    (key_index target_index : nat) (row : list Json) (seen : list text) :
  fst (fst (fill_row lookup key_index target_index row seen)) <> row ->
  filled (cell_at row key_index) = true
  /\ filled (cell_at row target_index) = false
  /\ exists value,
       dict_get lookup (Py.lower (cell_at row key_index)) = Some value
       /\ value <> []
       /\ fst (fst (fill_row lookup key_index target_index row seen))
          = set_padded row target_index value.
Proof.
  unfold fill_row.
  destruct (filled (cell_at row key_index)); simpl; [|congruence].
  destruct (filled (cell_at row target_index)); simpl; [congruence|].
  destruct (dict_get lookup (Py.lower (cell_at row key_index)))
    as [value|]; simpl; [|congruence].
  destruct value as [|c value]; simpl; [congruence|].
  intros _. repeat split. exists (c :: value). repeat split. discriminate.
Qed.

Lemma fill_rows_rows (lookup : list (text * text))
    (key_index target_index : nat) (rs : list (list Json)) (count : nat)
    (seen : list text) (i : nat) (row : list Json) :
  nth_error rs i = Some row ->
  exists seen',
    nth_error (out_rows (fill_rows lookup key_index target_index rs count seen))
      i
    = Some (fst (fst (fill_row lookup key_index target_index row seen'))).
Proof.
  revert count seen i; induction rs as [|r rs IH]; intros count seen [|i];
    simpl; try discriminate.
  - intros H; inversion H; subst.
    destruct (fill_row lookup key_index target_index row seen)
      as [[row' n] seen'] eqn:E.
    simpl. exists seen. now rewrite E.
  - intros H.
    destruct (fill_row lookup key_index target_index r seen)
      as [[row' n] seen'].
    simpl. now apply IH.
Qed.

Lemma fill_rows_length (lookup : list (text * text))
    (key_index target_index : nat) (rs : list (list Json)) (count : nat)
    (seen : list text) :
  List.length (out_rows (fill_rows lookup key_index target_index rs count seen))
  = List.length rs.
Proof.
  revert count seen; induction rs as [|r rs IH]; intros count seen;
    [reflexivity|].
  simpl.
  destruct (fill_row lookup key_index target_index r seen) as [[row' n] seen'].
  simpl. now rewrite IH.
Qed.

(** C10, as amended.  Both helpers return one row per input row.  A row
    whose target cell, converted to text and stripped, is not empty and is
    not [nan] in any letter case comes back unchanged.  A row that comes
    back changed had a filled key cell, a target cell that was not filled,
    and a non-empty value in the lookup, which is what its target cell now
    holds. *)
Theorem autofill_keeps_filled_cells (rs : list (list Json))
    (report : list (option Json * option Json))
    (key_index target_index : Z) :
  (0 <= key_index)%Z -> (0 <= target_index)%Z ->
  exists out count missing,
    api_excel_autofill_ring rs report key_index target_index
    = Success out count missing
    /\ api_excel_autofill_hostname rs report key_index target_index
       = Success out count missing
    /\ List.length out = List.length rs
    /\ forall i row, nth_error rs i = Some row ->
       exists row',
         nth_error out i = Some row'
         /\ (filled (cell_at row (Z.to_nat target_index)) = true -> row' = row)
         /\ (row' <> row ->
             filled (cell_at row (Z.to_nat key_index)) = true
             /\ filled (cell_at row (Z.to_nat target_index)) = false
             /\ exists value,
                  dict_get (build_lookup report [])
                    (Py.lower (cell_at row (Z.to_nat key_index))) = Some value
                  /\ value <> []
                  /\ row' = set_padded row (Z.to_nat target_index) value).
Proof.
  intros Hk Ht.
  unfold api_excel_autofill_ring, api_excel_autofill_hostname.
  destruct (Z.ltb_spec key_index 0); [lia|].
  destruct (Z.ltb_spec target_index 0); [lia|]. simpl.
  eexists; eexists; eexists. split; [reflexivity|]. split; [reflexivity|].
  split; [apply fill_rows_length|].
  intros i row Hi.
  destruct (fill_rows_rows (build_lookup report []) (Z.to_nat key_index)
              (Z.to_nat target_index) rs 0 [] i row Hi) as [seen E].
  eexists. split; [exact E|]. split.
  - apply fill_row_unchanged.
  - apply fill_row_changed.
Qed.

Lemma autofill_keeps_filled_cells_witness :
  (0 <= 0)%Z /\ (0 <= 1)%Z
  /\ exists out count missing,
       api_excel_autofill_ring sample_rows sample_report 0 1
       = Success out count missing
       /\ nth_error out 0 = nth_error sample_rows 0.
Proof.
  split; [lia|]. split; [lia|].
  destruct (autofill_keeps_filled_cells sample_rows sample_report 0 1
              ltac:(lia) ltac:(lia))
    as (out & count & missing & E & _ & _ & H).
  exists out, count, missing. split; [exact E|].
  destruct (H 0 _ eq_refl) as (row' & Hn & Hsame & _).
  rewrite Hn. simpl. f_equal. apply Hsame. reflexivity.
Defined.

(** C10, as stated, fails: a target cell that holds white space only, or
    [NaN] in capitals, holds a non-empty value other than the text [nan],
    and is overwritten. *)
Lemma blank_looking_cells_overwritten :
  json_str (JStr (lit " ")) <> [] /\ json_str (JStr (lit " ")) <> lit "nan"
  /\ json_str (JStr (lit "NaN")) <> [] /\ json_str (JStr (lit "NaN")) <> lit "nan"
  /\ api_excel_autofill_ring sample_rows sample_report 0 1
     = Success
         [[JStr (lit "PAG-7"); JStr (lit "Ring 1")];
          [JStr (lit "PAG-8"); JStr (lit "Ring 8")];
          [JStr (lit "pag-8"); JStr (lit "Ring 8")];
          [JStr (lit "PAG-9")]]
         2 [lit "PAG-9"].
Proof. repeat split; discriminate. Qed.

(** * Further properties *)

(** ** File names *)

Lemma unsafe_char_codes (c : ascii) :
  Py.unsafe_char c = false -> ~ In (N_of_ascii c) unsafe_codes.
Proof.
  intros H Hin.
  assert (E : exists n, In n unsafe_codes /\ c = ascii_of_N n).
  { exists (N_of_ascii c). split; [exact Hin|].
    symmetry. apply ascii_N_embedding. }
  destruct E as (n & Hn & ->). unfold unsafe_codes in Hn. simpl in Hn.
  repeat (destruct Hn as [<-|Hn]; [vm_compute in H; discriminate H|]).
  exact Hn.
Qed.

(** X1.  A sanitised file name holds none of the characters backslash,
    slash, star, question mark, colon, double quote, angle brackets and
    bar; sanitising it again changes nothing. *)
Theorem sanitize_filename_safe (filename : text) :
  (forall c, In c (sanitize_filename filename) ->
             ~ In (N_of_ascii c) unsafe_codes)
  /\ sanitize_filename (sanitize_filename filename)
     = sanitize_filename filename.
Proof.
  unfold sanitize_filename. split.
  - intros c Hc. apply filter_In in Hc. destruct Hc as [_ Hc].
    apply unsafe_char_codes. now apply negb_true_iff.
  - induction filename as [|c s IH]; [reflexivity|]. simpl.
    destruct (negb (Py.unsafe_char c)) eqn:E; [|exact IH].
    simpl. now rewrite E, IH.
Qed.

(** ** Counting replacements *)

Lemma visit_snd {A : Type} (f : A -> A * nat) (l : list A) :
  snd (visit f l) = list_sum (map (fun x => snd (f x)) l).
Proof.
  induction l as [|x l IH]; [reflexivity|].
  simpl. destruct (f x) as [x' n], (visit f l) as [l' m].
  simpl in *. now rewrite IH.
Qed.

Lemma visit_same {A : Type} (f : A -> A * nat) (l : list A) :
  (forall x, In x l -> f x = (x, 0)) -> visit f l = (l, 0).
Proof.
  induction l as [|x l IH]; intros H; [reflexivity|].
  simpl. rewrite (H x (or_introl eq_refl)), IH; [reflexivity|].
  intros y Hy. apply H. now right.
Qed.

Lemma replace_node_count (p r : text) (run : Run) :
  snd (replace_node p r run)
  = List.length (filter (Py.contains p) (run_nodes run)).
Proof.
  unfold replace_node, run_nodes.
  destruct (r_content run) as [[|c s]|path w]; simpl; try reflexivity.
  now destruct (Py.startswith p (c :: s) || Py.contains p s).
Qed.

Lemma replace_node_same (p r : text) (run : Run) :
  Forall (fun t => Py.contains p t = false) (run_nodes run) ->
  replace_node p r run = (run, 0).
Proof.
  unfold replace_node, run_nodes.
  destruct (r_content run) as [[|c s]|path w]; simpl; try reflexivity.
  intros H. inversion H as [|? ? E _]; subst.
  change (Py.startswith p (c :: s) || Py.contains p s)
    with (Py.contains p (c :: s)).
  now rewrite E.
Qed.

Lemma xpath_replace_same (p r : text) (element : list Paragraph) :
  Forall (fun t => Py.contains p t = false) (paras_nodes element) ->
  xpath_replace element p r = (element, 0).
Proof.
  intros H. unfold xpath_replace. apply visit_same. intros para Hpara.
  apply visit_same. intros run Hrun. apply replace_node_same.
  rewrite Forall_forall in *. intros t Ht. apply H.
  unfold paras_nodes. apply in_flat_map. exists para. split; [exact Hpara|].
  apply in_flat_map. now exists run.
Qed.

Lemma list_sum_filter_length {A B : Type} (f : A -> list B) (g : B -> bool)
    (l : list A) :
  list_sum (map (fun x => List.length (filter g (f x))) l)
  = List.length (filter g (flat_map f l)).
Proof.
  induction l as [|x l IH]; [reflexivity|].
  simpl. now rewrite filter_app, length_app, IH.
Qed.

(** X2.  [xpath_replace] returns the number of text nodes below the
    element that contain the placeholder; when it returns 0 the element is
    unchanged. *)
Theorem xpath_replace_count (element : list Paragraph) (p r : text) :
  snd (xpath_replace element p r)
  = List.length (filter (Py.contains p) (paras_nodes element))
  /\ (snd (xpath_replace element p r) = 0 ->
      fst (xpath_replace element p r) = element).
Proof.
  assert (E : snd (xpath_replace element p r)
              = List.length (filter (Py.contains p) (paras_nodes element))).
  { unfold xpath_replace, paras_nodes. rewrite visit_snd.
    rewrite <- list_sum_filter_length. f_equal. apply map_ext.
    intros para.
    etransitivity; [apply (visit_snd (replace_node p r) para)|].
    rewrite <- (list_sum_filter_length run_nodes (Py.contains p) para).
    f_equal. apply map_ext. intros run. apply replace_node_count. }
  split; [exact E|]. rewrite E. intros H.
  rewrite xpath_replace_same; [reflexivity|].
  apply Forall_forall. intros t Ht.
  destruct (Py.contains p t) eqn:C; [|reflexivity].
  assert (Hin : In t (filter (Py.contains p) (paras_nodes element))).
  { apply filter_In. now split. }
  destruct (filter (Py.contains p) (paras_nodes element));
    [destruct Hin | discriminate H].
Qed.

Lemma xpath_replace_count_witness :
  snd (xpath_replace [[plain "{{DOC_DATE}}"; plain "on {{DOC_DATE}}"];
                      [plain "{{DOC"; plain "_DATE}}"]]
         DOC_DATE (lit "05-Jan")) = 2
  /\ fst (xpath_replace [[plain "Report"]] DOC_DATE (lit "05-Jan"))
     = [[plain "Report"]].
Proof.
  split.
  - rewrite (proj1 (xpath_replace_count _ DOC_DATE (lit "05-Jan"))).
    reflexivity.
  - apply (proj2 (xpath_replace_count [[plain "Report"]] DOC_DATE
                    (lit "05-Jan"))).
    reflexivity.
Defined.

(** ** The paragraph rewrite *)

Lemma replace_in_first_run_shape (p r : text) (runs runs' : list Run) :
  replace_in_first_run p r runs = Some runs' ->
  List.length runs' = List.length runs /\ map r_font runs' = map r_font runs.
Proof.
  revert runs'; induction runs as [|run rest IH]; intros runs'; simpl;
    [discriminate|].
  destruct (Py.truthy (run_text run) && Py.contains p (run_text run)).
  - intros H; inversion H; subst. now split.
  - destruct (replace_in_first_run p r rest) as [rest'|]; simpl;
      [|discriminate].
    intros H; inversion H; subst. destruct (IH rest' eq_refl) as [L F].
    simpl. now rewrite L, F.
Qed.

Lemma rewrite_runs_shape (new_text : text) (runs : list Run) :
  List.length (rewrite_runs new_text runs) = List.length runs
  /\ map r_font (rewrite_runs new_text runs) = map r_font runs.
Proof.
  destruct runs as [|first rest]; [now split|]. simpl.
  rewrite length_map, map_map. simpl. now split.
Qed.

(** X3.  [replace_placeholder_in_paragraph] answers whether the joined
    run text contains the placeholder; when it does not, the paragraph is
    unchanged; in every case the paragraph keeps its number of runs and
    every run keeps its font. *)
Theorem replace_placeholder_in_paragraph_shape (para : Paragraph)
    (p r : text) :
  let result := replace_placeholder_in_paragraph para p r in
  snd result = Py.contains p (para_text para)
  /\ (snd result = false -> fst result = para)
  /\ List.length (fst result) = List.length para
  /\ map r_font (fst result) = map r_font para.
Proof.
  unfold replace_placeholder_in_paragraph. fold (para_text para).
  destruct (Py.contains p (para_text para)); simpl.
  - destruct (replace_in_first_run p r para) as [para'|] eqn:E; simpl.
    + destruct (replace_in_first_run_shape p r para para' E) as [L F].
      repeat split; auto. discriminate.
    + destruct (rewrite_runs_shape (Py.replace p r (para_text para)) para)
        as [L F].
      repeat split; auto. discriminate.
  - repeat split.
Qed.

Lemma replace_placeholder_in_paragraph_shape_witness :
  snd (replace_placeholder_in_paragraph mixed_paragraph DOC_DATE (lit "x"))
  = false
  /\ fst (replace_placeholder_in_paragraph mixed_paragraph DOC_DATE (lit "x"))
     = mixed_paragraph.
Proof.
  split; [reflexivity|].
  apply (proj1 (proj2 (replace_placeholder_in_paragraph_shape
                         mixed_paragraph DOC_DATE (lit "x")))).
  reflexivity.
Defined.

(** ** The zero count of [global_replace] *)

Lemma replace_para_none (p r : text) (para : Paragraph) :
  Py.contains p (para_text para) = false -> replace_para p r para = (para, 0).
Proof. intros H. unfold replace_para. now rewrite H. Qed.

Lemma replace_para_one (p r : text) (para : Paragraph) :
  Py.contains p (para_text para) = true -> snd (replace_para p r para) = 1.
Proof.
  intros H. unfold replace_para, replace_placeholder_in_paragraph.
  rewrite H. fold (para_text para). rewrite H. simpl.
  now destruct (replace_in_first_run p r para).
Qed.

Lemma list_sum_in (l : list nat) (n : nat) : In n l -> n <= list_sum l.
Proof.
  induction l as [|x l IH]; intros H; [destruct H|].
  destruct H as [<-|H]; simpl; [lia|]. specialize (IH H). lia.
Qed.

Lemma visit_counts {A : Type} (f : A -> A * nat) (l : list A) (x : A) :
  In x l -> snd (f x) <= snd (visit f l).
Proof.
  intros H. rewrite visit_snd. apply list_sum_in.
  now apply (in_map (fun x => snd (f x))).
Qed.

Lemma update_at_self {A : Type} (l : list A) (i : nat) (x : A) :
  nth_error l i = Some x -> update_at i x l = l.
Proof.
  revert i; induction l as [|a l IH]; intros [|i]; simpl; try discriminate.
  - intros H; now inversion H.
  - intros H. now rewrite IH.
Qed.

Lemma not_present_absent (p : text) (nodes : list text) :
  ~ present p nodes -> absent p nodes.
Proof.
  intros H. apply Forall_forall. intros t Ht.
  destruct (Py.contains p t) eqn:E; [|reflexivity].
  exfalso. apply H. apply Exists_exists. now exists t.
Qed.

Lemma replace_cell_paras_same (p r : text) (c : Cell) :
  absent p (map para_text (c_paras c)) -> replace_cell_paras p r c = (c, 0).
Proof.
  intros H. unfold replace_cell_paras. rewrite visit_same.
  - now destruct c.
  - intros para Hpara. apply replace_para_none.
    unfold absent in H. rewrite Forall_forall in H.
    apply H. now apply in_map.
Qed.

Lemma replace_table_paras_same (p r : text) (t : Table) :
  absent p (map para_text (flat_map c_paras (table_cells t))) ->
  replace_table_paras p r t = (t, 0).
Proof.
  intros H. unfold replace_table_paras. rewrite visit_same.
  - now destruct t.
  - intros row Hrow. apply visit_same. intros c Hc.
    apply replace_cell_paras_same.
    unfold absent in *. rewrite Forall_forall in *. intros x Hx. apply H.
    apply in_map_iff in Hx. destruct Hx as (para & <- & Hpara).
    apply in_map. apply in_flat_map. exists c. split; [|exact Hpara].
    unfold table_cells. apply in_concat. now exists row.
Qed.

Lemma xpath_cell_same (p r : text) (c : Cell) :
  absent p (cell_nodes c) -> xpath_cell p r c = (c, 0).
Proof.
  intros H. unfold absent, cell_nodes in H. apply Forall_app in H.
  destruct H as [H1 H2]. unfold xpath_cell.
  rewrite !xpath_replace_same by assumption. now destruct c.
Qed.

Lemma xpath_table_same (p r : text) (t : Table) :
  absent p (flat_map cell_nodes (table_cells t)) -> xpath_table p r t = (t, 0).
Proof.
  intros H. unfold xpath_table. rewrite visit_same.
  - now destruct t.
  - intros row Hrow. apply visit_same. intros c Hc. apply xpath_cell_same.
    unfold absent in *. rewrite Forall_forall in *. intros x Hx. apply H.
    apply in_flat_map. exists c. split; [|exact Hx].
    unfold table_cells. apply in_concat. now exists row.
Qed.

Lemma xpath_body_same (p r : text) (d : Document) :
  absent p (body_nodes d) -> xpath_body p r d = (d, 0).
Proof.
  intros H. unfold absent, body_nodes in H.
  apply Forall_app in H. destruct H as [H1 H].
  apply Forall_app in H. destruct H as [H2 H3].
  unfold xpath_body. rewrite !xpath_replace_same by assumption.
  rewrite visit_same.
  - now destruct d.
  - intros t Ht. apply xpath_table_same.
    unfold absent. rewrite Forall_forall in *. intros x Hx. apply H2.
    apply in_flat_map in Hx. destruct Hx as (c & Hc & Hx).
    apply in_flat_map. exists c. split; [|exact Hx].
    apply in_flat_map. now exists t.
Qed.

Lemma xpath_parts_same (p r : text) (parts : list (list Paragraph))
    (refs : list nat) :
  (forall i part, In i refs -> nth_error parts i = Some part ->
     absent p (paras_nodes part)) ->
  xpath_parts p r parts refs = (parts, 0).
Proof.
  induction refs as [|i refs IH]; intros H; [reflexivity|].
  simpl. unfold xpath_part.
  destruct (nth_error parts i) as [part|] eqn:E.
  - rewrite xpath_replace_same by (apply (H i); [now left | exact E]).
    rewrite update_at_self by exact E.
    rewrite IH; [reflexivity|]. intros j part' Hj. apply H. now right.
  - rewrite IH; [reflexivity|]. intros j part' Hj. apply H. now right.
Qed.

Lemma global_replace_same (doc : Document) (p r : text) :
  ~ findable p doc -> global_replace doc p r = (doc, 0).
Proof.
  intros H.
  assert (Hn : absent p (doc_nodes doc)).
  { apply not_present_absent. intros E. apply H. now left. }
  assert (Hw : absent p (map para_text (walked_paragraphs doc))).
  { apply not_present_absent. intros E. apply H. now right. }
  unfold absent, doc_nodes in Hn. apply Forall_app in Hn.
  destruct Hn as [Hb Hp].
  unfold absent, walked_paragraphs in Hw. rewrite map_app in Hw.
  apply Forall_app in Hw. destruct Hw as [Hw1 Hw2].
  unfold global_replace.
  rewrite (visit_same (replace_para p r)).
  2:{ intros para Hpara. apply replace_para_none.
      rewrite Forall_forall in Hw1. apply Hw1. now apply in_map. }
  rewrite (visit_same (replace_table_paras p r)).
  2:{ intros t Ht. apply replace_table_paras_same.
      unfold absent. rewrite Forall_forall in *. intros x Hx. apply Hw2.
      apply in_map_iff in Hx. destruct Hx as (para & <- & Hpara).
      apply in_map. apply in_flat_map in Hpara.
      destruct Hpara as (c & Hc & Hpara).
      apply in_flat_map. exists c. split; [|exact Hpara].
      unfold doc_cells. apply in_flat_map. now exists t. }
  assert (E : mkDocument (d_paras doc) (d_tables doc) (d_deep doc)
                (d_parts doc) (d_sections doc) = doc) by now destruct doc.
  rewrite E, xpath_body_same by exact Hb.
  rewrite xpath_parts_same.
  - now rewrite E.
  - intros i part Hi Hpart. unfold absent. rewrite Forall_forall in *.
    intros t Ht. apply Hp. apply in_flat_map. exists i. split; [exact Hi|].
    unfold part_nodes. now rewrite Hpart.
Qed.

Lemma global_replace_snd (doc : Document) (p r : text) :
  let doc1 :=
    mkDocument (fst (visit (replace_para p r) (d_paras doc)))
      (fst (visit (replace_table_paras p r) (d_tables doc)))
      (d_deep doc) (d_parts doc) (d_sections doc) in
  let doc2 := fst (xpath_body p r doc1) in
  snd (global_replace doc p r)
  = snd (visit (replace_para p r) (d_paras doc))
    + snd (visit (replace_table_paras p r) (d_tables doc))
    + snd (xpath_body p r doc1)
    + snd (xpath_parts p r (d_parts doc2) (doc_refs doc2)).
Proof.
  unfold global_replace.
  destruct (visit (replace_para p r) (d_paras doc)) as [ps n1].
  destruct (visit (replace_table_paras p r) (d_tables doc)) as [ts n2].
  cbv zeta. cbn [fst snd].
  destruct (xpath_body p r _) as [doc2 n3]. cbn [fst snd].
  destruct (xpath_parts p r _ _) as [parts n4]. reflexivity.
Qed.

Lemma xpath_body_snd (p r : text) (d : Document) :
  snd (xpath_body p r d)
  = snd (xpath_replace (d_paras d) p r)
    + snd (visit (xpath_table p r) (d_tables d))
    + snd (xpath_replace (d_deep d) p r).
Proof.
  unfold xpath_body.
  destruct (xpath_replace (d_paras d) p r), (visit (xpath_table p r) _),
    (xpath_replace (d_deep d) p r).
  reflexivity.
Qed.

Lemma xpath_replace_finds (p r : text) (element : list Paragraph) (t : text) :
  In t (paras_nodes element) -> Py.contains p t = true ->
  1 <= snd (xpath_replace element p r).
Proof.
  intros Hin H. rewrite (proj1 (xpath_replace_count element p r)).
  assert (Hf : In t (filter (Py.contains p) (paras_nodes element))).
  { apply filter_In. now split. }
  destruct (filter (Py.contains p) (paras_nodes element));
    [destruct Hf | simpl; lia].
Qed.

Lemma replace_cell_paras_snd (p r : text) (c : Cell) :
  snd (replace_cell_paras p r c) = snd (visit (replace_para p r) (c_paras c)).
Proof.
  unfold replace_cell_paras. now destruct (visit (replace_para p r) _).
Qed.

Lemma replace_table_paras_snd (p r : text) (t : Table) :
  snd (replace_table_paras p r t)
  = snd (visit (visit (replace_cell_paras p r)) (t_rows t)).
Proof.
  unfold replace_table_paras.
  now destruct (visit (visit (replace_cell_paras p r)) _).
Qed.

Lemma xpath_table_snd (p r : text) (t : Table) :
  snd (xpath_table p r t) = snd (visit (visit (xpath_cell p r)) (t_rows t)).
Proof.
  unfold xpath_table. now destruct (visit (visit (xpath_cell p r)) _).
Qed.

Lemma xpath_cell_snd (p r : text) (c : Cell) :
  snd (xpath_cell p r c)
  = snd (xpath_replace (c_paras c) p r) + snd (xpath_replace (c_nested c) p r).
Proof.
  unfold xpath_cell.
  now destruct (xpath_replace (c_paras c) p r),
               (xpath_replace (c_nested c) p r).
Qed.

(** A paragraph of a table cell that shows the placeholder is counted by
    the table loop. *)
Lemma table_loop_counts (p r : text) (ts : list Table) (para : Paragraph) :
  In para (flat_map c_paras (flat_map table_cells ts)) ->
  Py.contains p (para_text para) = true ->
  1 <= snd (visit (replace_table_paras p r) ts).
Proof.
  intros Hin H. apply in_flat_map in Hin. destruct Hin as (c & Hc & Hpara).
  apply in_flat_map in Hc. destruct Hc as (t & Ht & Hc).
  unfold table_cells in Hc. apply in_concat in Hc.
  destruct Hc as (row & Hrow & Hc).
  pose proof (visit_counts (replace_table_paras p r) ts t Ht) as B1.
  rewrite replace_table_paras_snd in B1.
  pose proof (visit_counts (visit (replace_cell_paras p r)) (t_rows t) row Hrow)
    as B2.
  pose proof (visit_counts (replace_cell_paras p r) row c Hc) as B3.
  rewrite replace_cell_paras_snd in B3.
  pose proof (visit_counts (replace_para p r) (c_paras c) para Hpara) as B4.
  rewrite (replace_para_one p r para H) in B4. lia.
Qed.

(** A text node of a nested table that contains the placeholder is
    counted by the deep scan of the tables. *)
Lemma table_scan_counts (p r : text) (ts : list Table) (c : Cell) (t : text) :
  In c (flat_map table_cells ts) ->
  In t (paras_nodes (c_nested c)) -> Py.contains p t = true ->
  1 <= snd (visit (xpath_table p r) ts).
Proof.
  intros Hc Hin H. apply in_flat_map in Hc. destruct Hc as (tb & Ht & Hc).
  unfold table_cells in Hc. apply in_concat in Hc.
  destruct Hc as (row & Hrow & Hc).
  pose proof (visit_counts (xpath_table p r) ts tb Ht) as B1.
  rewrite xpath_table_snd in B1.
  pose proof (visit_counts (visit (xpath_cell p r)) (t_rows tb) row Hrow) as B2.
  pose proof (visit_counts (xpath_cell p r) row c Hc) as B3.
  rewrite xpath_cell_snd in B3.
  pose proof (xpath_replace_finds p r (c_nested c) t Hin H). lia.
Qed.

Lemma xpath_parts_counts (p r : text) (refs : list nat)
    (parts : list (list Paragraph)) (i : nat) (part : list Paragraph)
    (t : text) :
  In i refs -> nth_error parts i = Some part ->
  In t (paras_nodes part) -> Py.contains p t = true ->
  1 <= snd (xpath_parts p r parts refs).
Proof.
  intros Hi Hpart Hin H. induction refs as [|i0 refs IH]; [destruct Hi|].
  simpl. unfold xpath_part.
  destruct (nth_error parts i0) as [part0|] eqn:E.
  - pose proof (xpath_replace_count part0 p r) as [_ Hzero].
    destruct (xpath_replace part0 p r) as [part0' n] eqn:X.
    cbn [fst snd] in Hzero.
    destruct n as [|n].
    + rewrite (Hzero eq_refl), update_at_self by exact E.
      destruct (xpath_parts p r parts refs) as [parts' m] eqn:Y.
      cbn [snd] in *. destruct Hi as [->|Hi]; [|now apply IH].
      rewrite Hpart in E. inversion E; subst part0.
      pose proof (xpath_replace_finds p r part t Hin H) as B.
      rewrite X in B. simpl in B. lia.
    + cbv iota beta.
      match goal with
      | |- context [xpath_parts p r ?ps refs] =>
          destruct (xpath_parts p r ps refs)
      end.
      simpl. lia.
  - destruct (xpath_parts p r parts refs) as [parts' m] eqn:Y.
    cbn [snd] in *. destruct Hi as [->|Hi]; [congruence | now apply IH].
Qed.

(** X4.  The count [global_replace] returns is zero exactly when the
    placeholder is not findable (whole in a text node of the document, or
    in the joined run text of a body or table-cell paragraph): then the
    document is unchanged; when it is findable the count is at least
    one. *)
Theorem global_replace_zero_count (doc : Document) (p r : text) :
  (~ findable p doc -> global_replace doc p r = (doc, 0))
  /\ (findable p doc -> 1 <= snd (global_replace doc p r)).
Proof.
  split; [apply global_replace_same|].
  intros H. rewrite global_replace_snd. cbv zeta.
  assert (Hw : present p (map para_text (walked_paragraphs doc)) ->
               1 <= snd (visit (replace_para p r) (d_paras doc))
                    + snd (visit (replace_table_paras p r) (d_tables doc))).
  { intros E. unfold present in E. rewrite Exists_map in E.
    apply Exists_exists in E. destruct E as (para & Hpara & E).
    unfold walked_paragraphs in Hpara. apply in_app_or in Hpara.
    destruct Hpara as [Hpara|Hpara].
    - pose proof (visit_counts (replace_para p r) _ _ Hpara) as B.
      rewrite (replace_para_one p r para E) in B. lia.
    - pose proof (table_loop_counts p r _ _ Hpara E). lia. }
  assert (Hshow : forall ps para t, In para ps ->
            In t (flat_map run_nodes para) -> Py.contains p t = true ->
            present p (map para_text ps)).
  { intros ps para t Hpara Ht E. unfold present. rewrite Exists_map.
    apply Exists_exists. exists para. split; [exact Hpara|].
    apply in_flat_map in Ht. destruct Ht as (run & Hrun & Ht).
    apply run_nodes_text in Ht; subst t.
    now apply run_in_para with (r := run). }
  destruct H as [H|H]; [|specialize (Hw H); lia].
  unfold present in H. apply Exists_exists in H. destruct H as (t & Ht & E).
  unfold doc_nodes in Ht. apply in_app_or in Ht. destruct Ht as [Ht|Ht].
  - unfold body_nodes in Ht. apply in_app_or in Ht. destruct Ht as [Ht|Ht].
    + unfold paras_nodes in Ht. apply in_flat_map in Ht.
      destruct Ht as (para & Hpara & Ht).
      assert (Hp : present p (map para_text (walked_paragraphs doc))).
      { apply (Hshow _ para t); auto. unfold walked_paragraphs.
        apply in_or_app. now left. }
      specialize (Hw Hp). lia.
    + apply in_app_or in Ht. destruct Ht as [Ht|Ht].
      * apply in_flat_map in Ht. destruct Ht as (c & Hc & Ht).
        unfold cell_nodes in Ht. apply in_app_or in Ht.
        destruct Ht as [Ht|Ht].
        -- unfold paras_nodes in Ht. apply in_flat_map in Ht.
           destruct Ht as (para & Hpara & Ht).
           assert (Hp : present p (map para_text (walked_paragraphs doc))).
           { apply (Hshow _ para t); auto. unfold walked_paragraphs, doc_cells.
             apply in_or_app. right. apply in_flat_map. now exists c. }
           specialize (Hw Hp). lia.
        -- rewrite xpath_body_snd. cbn [d_tables].
           rewrite (visit_fst (replace_table_paras p r)).
           assert (B : 1 <= snd (visit (xpath_table p r)
                                   (map (fun t => fst (replace_table_paras p r t))
                                      (d_tables doc)))).
           { apply (table_scan_counts p r _
                      (fst (replace_cell_paras p r c)) t); auto.
             - rewrite (table_pass_cells p r).
               now apply (in_map (fun c => fst (replace_cell_paras p r c))).
             - now rewrite (replace_cell_paras_fst p r). }
           lia.
      * rewrite xpath_body_snd. cbn [d_deep].
        pose proof (xpath_replace_finds p r (d_deep doc) t Ht E). lia.
  - apply in_flat_map in Ht. destruct Ht as (i & Hi & Ht).
    unfold part_nodes in Ht.
    destruct (nth_error (d_parts doc) i) as [part|] eqn:Epart; [|destruct Ht].
    match goal with
    | |- context [xpath_parts p r (d_parts ?d2) (doc_refs ?d2)] =>
        assert (E2 : d_parts d2 = d_parts doc /\ doc_refs d2 = doc_refs doc)
    end.
    { unfold xpath_body.
      destruct (xpath_replace _ p r), (visit (xpath_table p r) _),
        (xpath_replace _ p r).
      split; reflexivity. }
    destruct E2 as [-> ->].
    pose proof (xpath_parts_counts p r _ _ i part t Hi Epart Ht E). lia.
Qed.

Lemma global_replace_zero_count_witness :
  findable DOC_TITLE split_body_doc
  /\ 1 <= snd (global_replace split_body_doc DOC_TITLE (lit "X")).
Proof.
  assert (H : findable DOC_TITLE split_body_doc).
  { right. left. reflexivity. }
  split; [exact H|].
  exact (proj2 (global_replace_zero_count split_body_doc DOC_TITLE (lit "X"))
           H).
Defined.

(** ** Order of the groups *)

Lemma ascii_compare_eq (a b : ascii) : Ascii.compare a b = Eq -> a = b.
Proof. apply Ascii.compare_eq_iff. Qed.

Lemma ascii_compare_trans (a b c : ascii) :
  Ascii.compare a b = Lt -> Ascii.compare b c = Lt -> Ascii.compare a c = Lt.
Proof.
  unfold Ascii.compare. rewrite !N.compare_lt_iff. apply N.lt_trans.
Qed.

Lemma py_leb_total (a b : text) : Py.leb a b = false -> Py.leb b a = true.
Proof.
  revert b; induction a as [|x a IH]; intros [|y b]; simpl; try discriminate;
    try reflexivity.
  rewrite (Ascii.compare_antisym x y).
  destruct (Ascii.compare y x); simpl; auto.
Qed.

Lemma py_leb_trans (a b c : text) :
  Py.leb a b = true -> Py.leb b c = true -> Py.leb a c = true.
Proof.
  revert b c; induction a as [|x a IH]; intros [|y b] [|z c]; simpl;
    try discriminate; try reflexivity.
  destruct (Ascii.compare x y) eqn:E1; try discriminate.
  - apply ascii_compare_eq in E1; subst y.
    destruct (Ascii.compare x z); try discriminate; auto. apply IH.
  - destruct (Ascii.compare y z) eqn:E2; try discriminate.
    + apply ascii_compare_eq in E2; subst z. now rewrite E1.
    + now rewrite (ascii_compare_trans _ _ _ E1 E2).
Qed.

Lemma insert_sorted_in (k x : text) (l : list text) :
  In x (insert_sorted k l) -> x = k \/ In x l.
Proof.
  intros H. apply (Permutation_in _ (insert_sorted_perm k l)) in H.
  destruct H as [<-|H]; auto.
Qed.

Lemma insert_sorted_sorted (k : text) (l : list text) :
  StronglySorted (fun a b => Py.leb a b = true) l ->
  StronglySorted (fun a b => Py.leb a b = true) (insert_sorted k l).
Proof.
  induction 1 as [|x l Hs IH Hx]; simpl; [repeat constructor|].
  destruct (Py.leb k x) eqn:E.
  - constructor; [now constructor|]. constructor; [exact E|].
    rewrite Forall_forall in *. intros y Hy.
    apply py_leb_trans with (b := x); auto.
  - constructor; [exact IH|]. apply Forall_forall. intros y Hy.
    apply insert_sorted_in in Hy. destruct Hy as [->|Hy].
    + now apply py_leb_total.
    + rewrite Forall_forall in Hx. now apply Hx.
Qed.

Lemma sort_keys_sorted (l : list text) :
  StronglySorted (fun a b => Py.leb a b = true) (sort_keys l).
Proof.
  induction l as [|x l IH]; [constructor|].
  simpl. now apply insert_sorted_sorted.
Qed.

Lemma filter_sorted {A : Type} (R : A -> A -> Prop) (f : A -> bool)
    (l : list A) :
  StronglySorted R l -> StronglySorted R (filter f l).
Proof.
  induction 1 as [|x l Hs IH Hx]; simpl; [constructor|].
  destruct (f x); [|exact IH]. constructor; [exact IH|].
  rewrite Forall_forall in *. intros y Hy. apply Hx.
  now apply filter_In in Hy.
Qed.

Lemma labelled_sorted_from (l : list (list cell)) (s : nat) :
  StronglySorted (fun a b : nat * list cell => fst a < fst b)
    (combine (seq s (List.length l)) l).
Proof.
  revert s; induction l as [|x l IH]; intros s; simpl; constructor.
  - apply IH.
  - apply Forall_forall. intros [i row] H. apply in_combine_l in H.
    apply in_seq in H. simpl. lia.
Qed.

(** X5.  The groups come in ascending order of their keys (code point
    order, every key once), and the rows of each group keep the order of
    the sheet. *)
Theorem groupby_order (pos : nat) (rs : list (list cell)) :
  let groups := groupby pos (labelled rs) in
  StronglySorted (fun a b => Py.leb a b = true) (map fst groups)
  /\ NoDup (map fst groups)
  /\ forall k g, In (k, g) groups ->
       StronglySorted (fun a b => fst a < fst b) g.
Proof.
  unfold groupby. rewrite map_map. simpl. rewrite map_id.
  split; [apply sort_keys_sorted|]. split; [apply group_keys_nodup|].
  intros k g H. apply in_map_iff in H. destruct H as (k0 & E & _).
  inversion E; subst. apply filter_sorted. apply labelled_sorted_from.
Qed.

(** ** What a run leaves behind *)

Lemma process_groups_result (env : Env) (cfg : Scope) (scope_key : text)
    (cols : list text) (topology_images : list (text * text))
    (folder : text) (total : nat)
    (groups : list (text * list (nat * list cell))) :
  forall current st,
  match process_groups env cfg scope_key cols topology_images folder total
          current groups st with
  | inl st' =>
      load_template env (template_file cfg) = None /\ groups <> []
      /\ outputs st' = outputs st
  | inr st' =>
      (groups = [] \/ load_template env (template_file cfg) <> None)
      /\ generated_files st'
         = generated_files st
           ++ map (fun g => path_join folder (group_file_name cfg cols g))
                groups
      /\ map fst (documents (outputs st'))
         = map fst (documents (outputs st))
           ++ map (fun g => path_join folder (group_file_name cfg cols g))
                groups
      /\ folders (outputs st') = folders (outputs st)
      /\ archives (outputs st') = archives (outputs st)
  end.
Proof.
  induction groups as [|[group_name group_data] groups IH]; intros current st.
  - simpl. rewrite !app_nil_r. repeat split. now left.
  - simpl.
    destruct (load_template env (template_file cfg)) as [template|] eqn:Hload.
    + destruct (build_document env cfg scope_key cols topology_images
                  group_name group_data
                  (doc_title cfg cols group_name group_data) template)
        as [doc image_logs].
      match goal with
      | |- context [process_groups _ _ _ _ _ _ _ ?c groups ?s] =>
          specialize (IH c s);
          destruct (process_groups env cfg scope_key cols topology_images
                      folder total c groups s) as [st'|st']
      end.
      * destruct IH as [H _]. discriminate.
      * destruct IH as (_ & G & D & F & A).
        split; [right; discriminate|].
        rewrite G, D, F, A. simpl. rewrite map_app. simpl.
        rewrite <- !app_assoc. repeat split.
    + repeat split. discriminate.
Qed.

Lemma archive_entries_names (folder : text) (names : list text) :
  archive_entries folder (map (path_join folder) names)
  = map (fun name => (path_join folder name, name)) names.
Proof.
  unfold archive_entries. rewrite map_map. apply map_ext. intros name.
  f_equal. unfold path_join.
  replace (List.length folder + 1) with (List.length (folder ++ lit "/")).
  - rewrite app_assoc. now rewrite skipn_app, skipn_all, Nat.sub_diag.
  - rewrite length_app. reflexivity.
Qed.

Lemma archive_entries_paths (folder : text) (files : list text) :
  map fst (archive_entries folder files) = files.
Proof.
  unfold archive_entries. rewrite map_map. simpl. apply map_id.
Qed.

Ltac split_run :=
  match goal with
  | |- context [process_groups ?a ?b ?c ?d ?e ?f ?g ?h ?i ?j] =>
      let H := fresh "Hrun" in
      pose proof (process_groups_result a b c d e f g i h j) as H;
      destruct (process_groups a b c d e f g h i j)
  end.

(** X6.  A run that returns no archive path has written no document and
    no archive and reports zero documents; a run that returns one has
    written exactly that archive, with one entry per document written, and
    reports their number. *)
Theorem no_partial_output (env : Env) (cfg : option Scope)
    (excel_path scope_key : text) (topology_images : list (text * text)) :
  let run :=
    generate_documents env cfg excel_path scope_key topology_images in
  (zip_path (fst run) = None ->
     documents (snd run) = [] /\ archives (snd run) = []
     /\ doc_count (fst run) = 0)
  /\ (forall zip, zip_path (fst run) = Some zip ->
        exists entries,
          archives (snd run) = [(zip, entries)]
          /\ map fst entries = map fst (documents (snd run))
          /\ List.length (documents (snd run)) = doc_count (fst run)
          /\ message (fst run) = MsgGenerated (doc_count (fst run))).
Proof.
  unfold generate_documents.
  destruct cfg as [cfg|]; [|split; [repeat split | discriminate]].
  destruct (read_excel env excel_path (excel_sheet cfg)) as [df|];
    [|destruct topology_images; (split; [repeat split | discriminate])].
  destruct (missing_columns cfg (map Py.strip (columns df)));
    [|destruct topology_images; (split; [repeat split | discriminate])].
  cbv zeta. split_run.
  - destruct Hrun as (_ & _ & O).
    cbn [fst snd zip_path doc_count documents archives].
    rewrite O. split; [|discriminate]. intros _.
    destruct topology_images; repeat split.
  - destruct Hrun as (_ & G & D & _ & _).
    cbn [fst snd zip_path doc_count documents archives message].
    split; [discriminate|]. intros zip Hzip. inversion Hzip; subst zip.
    eexists. split; [reflexivity|].
    rewrite archive_entries_paths.
    rewrite <- (length_map fst (documents (outputs r))).
    rewrite D, G.
    destruct topology_images; repeat split.
Qed.

Lemma no_partial_output_witness :
  (exists entries,
     archives (snd (generate_documents sample_env (Some sample_scope)
                      (lit "rings.xlsx") (lit "Swap") []))
     = [(lit "output/Hasil_Swap_2026-01-05_101500.zip", entries)]
     /\ List.length entries = 3)
  /\ documents (snd (generate_documents no_template_env (Some sample_scope)
                       (lit "rings.xlsx") (lit "Swap") []))
     = [].
Proof.
  split.
  - destruct (proj2 (no_partial_output sample_env (Some sample_scope)
                       (lit "rings.xlsx") (lit "Swap") [])
                (lit "output/Hasil_Swap_2026-01-05_101500.zip") eq_refl)
      as (entries & A & _ & _ & _).
    exists entries. split; [exact A|]. inversion A. reflexivity.
  - exact (proj1 (proj1 (no_partial_output no_template_env
                           (Some sample_scope) (lit "rings.xlsx")
                           (lit "Swap") []) eq_refl)).
Defined.

Lemma group_records_nil (cfg : Scope) (cols : list text) :
  group_records cfg cols [] = [].
Proof.
  unfold group_records. now destruct (column_pos cols (ring_col cfg)).
Qed.

Lemma column_pos_some (cols : list text) (name : text) :
  In name cols ->
  exists pos, column_pos cols name = Some pos /\ pos < List.length cols.
Proof.
  intros H. unfold column_pos.
  destruct (Py.index_of (Py.eqb name) cols) as [pos|] eqn:E.
  - exists pos. split; [reflexivity|]. now apply index_of_bound in E.
  - exfalso. revert E H. clear. induction cols as [|c cols IH]; simpl.
    + intros _ [].
    + destruct (Py.eqb name c) eqn:Ec; [discriminate|].
      destruct (Py.index_of (Py.eqb name) cols); [discriminate|].
      intros _ [->|H]; [now rewrite py_eqb_refl in Ec | now apply IH].
Qed.

Lemma ring_column_present (cfg : Scope) (cols : list text) :
  missing_columns cfg cols = [] -> In (ring_col cfg) cols.
Proof.
  intros H.
  destruct (has_column cols (ring_col cfg)) eqn:E;
    [now apply has_column_spec|].
  assert (In (ring_col cfg) (missing_columns cfg cols)) as Hin.
  { unfold missing_columns. apply filter_In. split.
    - apply in_or_app. right. now left.
    - now rewrite E. }
  rewrite H in Hin. destruct Hin.
Qed.

Lemma group_records_not_nil (cfg : Scope) (df : DataFrame) :
  rectangular df ->
  missing_columns cfg (map Py.strip (columns df)) = [] ->
  rows df <> [] ->
  group_records cfg (map Py.strip (columns df)) (rows df) <> [].
Proof.
  intros Hrect Hmissing Hrows.
  destruct (column_pos_some _ _ (ring_column_present _ _ Hmissing))
    as (pos & Hpos & Hlt).
  rewrite length_map in Hlt.
  unfold group_records. rewrite Hpos.
  unfold rectangular in Hrect.
  destruct (rows df) as [|row rs] eqn:Erows; [contradiction|].
  destruct (group_of_row pos (List.length (columns df)) (row :: rs) 0 row
              Hlt Hrect eq_refl) as [Hin _].
  intros E. rewrite E in Hin. destruct Hin.
Qed.

(** X7.  When the sheet has the required columns, no two of its columns
    share a label and the template loads, one document is written per
    group, in the order of the groups, under the run's folder and named
    after the sanitised title; the archive holds these files under their
    bare names, and the count returned is the number of groups. *)
Theorem one_document_per_group (env : Env) (cfg : Scope) (df : DataFrame)
    (template : Document) (excel_path scope_key : text)
    (topology_images : list (text * text)) :
  read_excel env excel_path (excel_sheet cfg) = Some df ->
  missing_columns cfg (map Py.strip (columns df)) = [] ->
  NoDup (map Py.strip (columns df)) ->
  load_template env (template_file cfg) = Some template ->
  let cols := map Py.strip (columns df) in
  let groups := group_records cfg cols (rows df) in
  let names := map (group_file_name cfg cols) groups in
  let folder := run_folder env scope_key in
  let run :=
    generate_documents env (Some cfg) excel_path scope_key topology_images in
  zip_path (fst run) = Some (folder ++ lit ".zip")
  /\ doc_count (fst run) = List.length groups
  /\ message (fst run) = MsgGenerated (List.length groups)
  /\ folders (snd run) = [folder]
  /\ map fst (documents (snd run)) = map (path_join folder) names
  /\ archives (snd run)
     = [(folder ++ lit ".zip",
         map (fun name => (path_join folder name, name)) names)].
Proof.
  intros Hread Hmissing _ Hload cols groups names folder.
  unfold generate_documents. rewrite Hread, Hmissing.
  cbv zeta. fold cols. fold groups. split_run.
  - destruct Hrun as (E & _). rewrite Hload in E. discriminate.
  - destruct Hrun as (_ & G & D & F & _).
    cbn [fst snd zip_path doc_count documents archives message folders].
    rewrite F, D, G.
    assert (Hnames :
      map (fun g => path_join (path_join (output_root env)
                      (lit "Hasil_" ++ scope_key ++ lit "_" ++ timestamp env))
                      (group_file_name cfg cols g)) groups
      = map (path_join folder) names).
    { unfold names. now rewrite map_map. }
    assert (Hzip :
      path_join (output_root env)
        ((lit "Hasil_" ++ scope_key ++ lit "_" ++ timestamp env)
         ++ lit ".zip")
      = folder ++ lit ".zip").
    { unfold folder, run_folder, path_join. now rewrite <- !app_assoc. }
    rewrite Hzip.
    match goal with
    | |- context [generated_files ?st ++ _] =>
        change (generated_files st) with (@nil text)
    end.
    cbn [app map fst snd documents outputs log folders].
    rewrite Hnames, length_map. unfold names at 1 2.
    rewrite !length_map.
    repeat split.
    now rewrite archive_entries_names.
Qed.

Lemma one_document_per_group_witness :
  let run :=
    generate_documents sample_env (Some sample_scope) (lit "rings.xlsx")
      (lit "Swap") [] in
  doc_count (fst run) = 3
  /\ map fst (documents (snd run))
     = [lit "output/Hasil_Swap_2026-01-05_101500/Doc - .docx";
        lit "output/Hasil_Swap_2026-01-05_101500/Swap Ring A.docx";
        lit "output/Hasil_Swap_2026-01-05_101500/Doc - Ring B.docx"].
Proof.
  assert (N : NoDup (map Py.strip (columns sample_frame))).
  { simpl. repeat constructor; simpl; intuition discriminate. }
  pose proof (one_document_per_group sample_env sample_scope sample_frame
                _ (lit "rings.xlsx") (lit "Swap") []
                eq_refl eq_refl N eq_refl) as H.
  cbv zeta in H. destruct H as (_ & C & _ & _ & D & _).
  split; [exact C | exact D].
Defined.

(** X8.  A sheet with the required columns, one of them for the grouping
    label, and no row is a success with zero documents and an empty
    archive; the template is not opened, so this holds even when it cannot
    be loaded. *)
Theorem empty_sheet_succeeds (env : Env) (cfg : Scope) (df : DataFrame)
    (excel_path scope_key : text) (topology_images : list (text * text)) :
  read_excel env excel_path (excel_sheet cfg) = Some df ->
  missing_columns cfg (map Py.strip (columns df)) = [] ->
  unambiguous (map Py.strip (columns df)) (ring_col cfg) ->
  rows df = [] ->
  let folder := run_folder env scope_key in
  let run :=
    generate_documents env (Some cfg) excel_path scope_key topology_images in
  zip_path (fst run) = Some (folder ++ lit ".zip")
  /\ message (fst run) = MsgGenerated 0
  /\ doc_count (fst run) = 0
  /\ documents (snd run) = []
  /\ archives (snd run) = [(folder ++ lit ".zip", [])].
Proof.
  intros Hread Hmissing _ Hrows folder.
  unfold generate_documents. rewrite Hread, Hmissing, Hrows.
  cbv zeta. rewrite group_records_nil.
  assert (Hzip :
    path_join (output_root env)
      ((lit "Hasil_" ++ scope_key ++ lit "_" ++ timestamp env)
       ++ lit ".zip")
    = folder ++ lit ".zip").
  { unfold folder, run_folder, path_join. now rewrite <- !app_assoc. }
  cbn [process_groups fst snd zip_path message doc_count documents archives
       generated_files log outputs List.length archive_entries map].
  rewrite Hzip. repeat split.
Qed.

Lemma empty_sheet_succeeds_witness :
  let run :=
    generate_documents empty_sheet_env (Some sample_scope)
      (lit "rings.xlsx") (lit "Swap") [] in
  message (fst run) = MsgGenerated 0 /\ documents (snd run) = [].
Proof.
  assert (U : unambiguous (map Py.strip (columns sample_frame))
                (ring_col sample_scope))
    by (unfold unambiguous; simpl; lia).
  pose proof (empty_sheet_succeeds empty_sheet_env sample_scope
                (mkFrame (columns sample_frame) []) (lit "rings.xlsx")
                (lit "Swap") [] eq_refl eq_refl U eq_refl) as H.
  cbv zeta in H. destruct H as (_ & M & _ & D & _).
  split; [exact M | exact D].
Defined.

(** X9.  When the template cannot be loaded and the sheet has at least one
    row, with one column each for the grouping label and the title label,
    the run fails with the template message: no archive path, zero
    documents, nothing saved and nothing archived, while the run's folder,
    made before the sheet was read, stays behind. *)
Theorem template_failure (env : Env) (cfg : Scope) (df : DataFrame)
    (excel_path scope_key : text) (topology_images : list (text * text)) :
  read_excel env excel_path (excel_sheet cfg) = Some df ->
  rectangular df ->
  missing_columns cfg (map Py.strip (columns df)) = [] ->
  unambiguous (map Py.strip (columns df)) (ring_col cfg) ->
  unambiguous (map Py.strip (columns df)) (title_col cfg) ->
  rows df <> [] ->
  load_template env (template_file cfg) = None ->
  let run :=
    generate_documents env (Some cfg) excel_path scope_key topology_images in
  zip_path (fst run) = None
  /\ message (fst run) = MsgTemplateNotFound
  /\ doc_count (fst run) = 0
  /\ documents (snd run) = []
  /\ archives (snd run) = []
  /\ folders (snd run) = [run_folder env scope_key].
Proof.
  intros Hread Hrect Hmissing _ _ Hrows Hload.
  pose proof (group_records_not_nil cfg df Hrect Hmissing Hrows) as Hgroups.
  unfold generate_documents. rewrite Hread, Hmissing.
  cbv zeta. split_run.
  - destruct Hrun as (_ & _ & O).
    cbn [fst snd zip_path message doc_count]. rewrite O.
    destruct topology_images; repeat split.
  - destruct Hrun as ([E|E] & _); [contradiction|].
    now rewrite Hload in E.
Qed.

Lemma template_failure_witness :
  let run :=
    generate_documents no_template_env (Some sample_scope)
      (lit "rings.xlsx") (lit "Swap") [] in
  message (fst run) = MsgTemplateNotFound
  /\ folders (snd run) = [lit "output/Hasil_Swap_2026-01-05_101500"].
Proof.
  assert (R : rectangular sample_frame) by (repeat constructor).
  assert (N : rows sample_frame <> []) by discriminate.
  assert (U1 : unambiguous (map Py.strip (columns sample_frame))
                 (ring_col sample_scope))
    by (unfold unambiguous; simpl; lia).
  assert (U2 : unambiguous (map Py.strip (columns sample_frame))
                 (title_col sample_scope))
    by (unfold unambiguous; simpl; lia).
  pose proof (template_failure no_template_env sample_scope sample_frame
                (lit "rings.xlsx") (lit "Swap") [] eq_refl R eq_refl U1 U2 N
                eq_refl) as H.
  cbv zeta in H. destruct H as (_ & M & _ & _ & _ & F).
  split; [exact M | exact F].
Defined.

(** ** The fill loop of the spreadsheet helpers *)

Lemma nth_error_update_at {A : Type} (l : list A) (i j : nat) (x : A) :
  nth_error (update_at i x l) j
  = if Nat.eqb j i
    then (if Nat.ltb i (List.length l) then Some x else None)
    else nth_error l j.
Proof.
  revert i j; induction l as [|a l IH]; intros [|i] [|j]; simpl;
    try reflexivity.
  - now destruct (Nat.eqb j i).
  - rewrite IH. change (S i <? S (List.length l)) with (i <? List.length l).
    reflexivity.
Qed.

Lemma set_padded_length (row : list Json) (i : nat) (value : text) :
  List.length (set_padded row i value) = Nat.max (List.length row) (S i).
Proof.
  unfold set_padded. rewrite update_at_length, length_app, repeat_length.
  lia.
Qed.

Lemma set_padded_nth (row : list Json) (i j : nat) (value : text) :
  nth_error (set_padded row i value) j
  = if Nat.eqb j i then Some (JStr value)
    else if Nat.ltb j (List.length row) then nth_error row j
    else if Nat.ltb j i then Some (JStr []) else None.
Proof.
  unfold set_padded. rewrite nth_error_update_at.
  rewrite length_app, repeat_length.
  destruct (Nat.eqb_spec j i) as [->|Hji].
  - destruct (Nat.ltb_spec i (List.length row + (S i - List.length row)));
      [reflexivity | lia].
  - destruct (Nat.ltb_spec j (List.length row)) as [Hj|Hj].
    + now rewrite nth_error_app1.
    + rewrite nth_error_app2 by lia.
      destruct (Nat.ltb_spec j i) as [Hlt|Hge].
      * rewrite nth_error_repeat; [reflexivity | lia].
      * apply nth_error_None. rewrite repeat_length. lia.
Qed.

Lemma fill_row_spec (lookup : list (text * text))
    (key_index target_index : nat) (row : list Json) (not_found : list text) :
  fill_row lookup key_index target_index row not_found
  = (if fillable lookup key_index target_index row
     then set_padded row target_index (looked_up lookup key_index row)
     else row,
     if fillable lookup key_index target_index row then 1 else 0,
     if unmatched lookup key_index target_index row
     then (if existsb (Py.eqb (cell_at row key_index)) not_found
           then not_found else not_found ++ [cell_at row key_index])
     else not_found).
Proof.
  unfold fill_row, fillable, unmatched, wanting, looked_up.
  destruct (filled (cell_at row key_index)); simpl; [|reflexivity].
  destruct (filled (cell_at row target_index)); simpl; [reflexivity|].
  destruct (dict_get lookup (Py.lower (cell_at row key_index))) as [value|];
    [|reflexivity].
  destruct (Py.truthy value); reflexivity.
Qed.

Lemma unique_from_seen (seen seen' l : list text) :
  (forall x, existsb (Py.eqb x) seen = existsb (Py.eqb x) seen') ->
  unique_from seen l = unique_from seen' l.
Proof.
  revert seen seen'; induction l as [|y l IH]; intros seen seen' H;
    [reflexivity|].
  simpl. rewrite <- H. destruct (existsb (Py.eqb y) seen); [now apply IH|].
  f_equal. apply IH. intros x. simpl. now rewrite H.
Qed.

Lemma fill_rows_spec (lookup : list (text * text))
    (key_index target_index : nat) (rs : list (list Json)) :
  forall count not_found,
  let r := fill_rows lookup key_index target_index rs count not_found in
  out_rows r
  = map (fun row =>
           if fillable lookup key_index target_index row
           then set_padded row target_index (looked_up lookup key_index row)
           else row) rs
  /\ out_count r
     = count
       + List.length (filter (fillable lookup key_index target_index) rs)
  /\ out_not_found r
     = not_found
       ++ unique_from not_found
            (map (fun row => cell_at row key_index)
               (filter (unmatched lookup key_index target_index) rs)).
Proof.
  induction rs as [|row rs IH]; intros count not_found; cbv zeta.
  - simpl. rewrite app_nil_r, Nat.add_0_r. repeat split.
  - cbn [fill_rows]. rewrite fill_row_spec.
    match goal with
    | |- context [fill_rows lookup key_index target_index rs ?c ?nf] =>
        destruct (IH c nf) as (R & C & N)
    end.
    cbn [out_rows out_count out_not_found map filter].
    rewrite R, C, N. split; [reflexivity|]. split.
    + destruct (fillable lookup key_index target_index row); simpl; lia.
    + destruct (unmatched lookup key_index target_index row);
        [|reflexivity].
      cbn [map unique_from].
      destruct (existsb (Py.eqb (cell_at row key_index)) not_found) eqn:E;
        [reflexivity|].
      rewrite <- app_assoc. cbn [app]. do 2 f_equal.
      apply unique_from_seen. intros x.
      rewrite existsb_app. simpl. rewrite orb_false_r. apply orb_comm.
Qed.

(** X10.  The fill loop changes nothing but the target cell: a returned
    row that differs from the row sent has the looked-up value in the
    target cell, every other cell the row had is as it was, and a row too
    short for the target cell is padded with empty strings up to it. *)
Theorem autofill_touches_only_target (rs : list (list Json))
    (report : list (option Json * option Json))
    (key_index target_index : Z) :
  (0 <= key_index)%Z -> (0 <= target_index)%Z ->
  exists out count missing,
    api_excel_autofill_ring rs report key_index target_index
    = Success out count missing
    /\ forall i row, nth_error rs i = Some row ->
       exists row',
         nth_error out i = Some row'
         /\ (row' = row
             \/ List.length row'
                = Nat.max (List.length row) (S (Z.to_nat target_index))
                /\ (forall j, j <> Z.to_nat target_index ->
                      j < List.length row ->
                      nth_error row' j = nth_error row j)
                /\ (forall j, List.length row <= j ->
                      j < Z.to_nat target_index ->
                      nth_error row' j = Some (JStr []))
                /\ exists value,
                     value <> []
                     /\ nth_error row' (Z.to_nat target_index)
                        = Some (JStr value)).
Proof.
  intros Hk Ht. unfold api_excel_autofill_ring.
  destruct (Z.ltb_spec key_index 0); [lia|].
  destruct (Z.ltb_spec target_index 0); [lia|]. simpl.
  do 3 eexists. split; [reflexivity|].
  intros i row Hi.
  destruct (fill_rows_spec (build_lookup report []) (Z.to_nat key_index)
              (Z.to_nat target_index) rs 0 []) as (R & _ & _).
  rewrite R.
  erewrite map_nth_error by exact Hi.
  eexists. split; [reflexivity|].
  unfold fillable.
  destruct (wanting (Z.to_nat key_index) (Z.to_nat target_index) row);
    simpl; [|now left].
  destruct (looked_up (build_lookup report []) (Z.to_nat key_index) row)
    as [|c value] eqn:E; simpl; [now left|].
  right. split; [apply set_padded_length|]. split; [|split].
  - intros j Hj Hlt. rewrite set_padded_nth.
    destruct (Nat.eqb_spec j (Z.to_nat target_index)); [contradiction|].
    destruct (Nat.ltb_spec j (List.length row)); [reflexivity | lia].
  - intros j Hge Hlt. rewrite set_padded_nth.
    destruct (Nat.eqb_spec j (Z.to_nat target_index)); [lia|].
    destruct (Nat.ltb_spec j (List.length row)); [lia|].
    destruct (Nat.ltb_spec j (Z.to_nat target_index)); [reflexivity | lia].
  - exists (c :: value). split; [discriminate|].
    rewrite set_padded_nth. now rewrite Nat.eqb_refl.
Qed.

Lemma autofill_touches_only_target_witness :
  exists out count missing,
    api_excel_autofill_ring sample_rows sample_report 0 1
    = Success out count missing
    /\ forall i row, nth_error sample_rows i = Some row ->
       exists row',
         nth_error out i = Some row'
         /\ (row' = row
             \/ List.length row' = Nat.max (List.length row) 2
                /\ (forall j, j <> 1 -> j < List.length row ->
                      nth_error row' j = nth_error row j)
                /\ (forall j, List.length row <= j -> j < 1 ->
                      nth_error row' j = Some (JStr []))
                /\ exists value,
                     value <> [] /\ nth_error row' 1 = Some (JStr value)).
Proof.
  apply (autofill_touches_only_target sample_rows sample_report 0 1); lia.
Defined.

(** X11.  The count a helper returns is the number of rows it wrote to:
    the rows with a filled key cell, a target cell that is not filled and
    a non-empty value in the lookup.  When the count is zero the rows come
    back as they were sent. *)
Theorem autofill_count (rs : list (list Json))
    (report : list (option Json * option Json))
    (key_index target_index : Z) :
  (0 <= key_index)%Z -> (0 <= target_index)%Z ->
  exists out count missing,
    api_excel_autofill_hostname rs report key_index target_index
    = Success out count missing
    /\ count
       = List.length
           (filter (fillable (build_lookup report []) (Z.to_nat key_index)
                      (Z.to_nat target_index)) rs)
    /\ count <= List.length rs
    /\ (count = 0 -> out = rs).
Proof.
  intros Hk Ht. unfold api_excel_autofill_hostname.
  destruct (Z.ltb_spec key_index 0); [lia|].
  destruct (Z.ltb_spec target_index 0); [lia|]. simpl.
  do 3 eexists. split; [reflexivity|].
  destruct (fill_rows_spec (build_lookup report []) (Z.to_nat key_index)
              (Z.to_nat target_index) rs 0 []) as (R & C & _).
  rewrite R, C. simpl. split; [reflexivity|]. split.
  - apply filter_length_le.
  - clear. induction rs as [|row rs IH]; [reflexivity|]. simpl.
    destruct (fillable _ _ _ row); simpl; [discriminate|].
    intros H. now rewrite IH.
Qed.

Lemma autofill_count_witness :
  exists out count missing,
    api_excel_autofill_hostname sample_rows sample_report 0 1
    = Success out count missing
    /\ count
       = List.length
           (filter (fillable (build_lookup sample_report []) 0 1)
              sample_rows)
    /\ count <= List.length sample_rows
    /\ (count = 0 -> out = sample_rows).
Proof.
  apply (autofill_count sample_rows sample_report 0 1); lia.
Defined.

(** X12.  The keys reported as not found are the key cells, stripped, of
    the rows that reached the lookup and got no value or an empty one:
    each key once, in the order of first appearance, cut after twenty. *)
Theorem autofill_not_found (rs : list (list Json))
    (report : list (option Json * option Json))
    (key_index target_index : Z) :
  (0 <= key_index)%Z -> (0 <= target_index)%Z ->
  exists out count missing,
    api_excel_autofill_ring rs report key_index target_index
    = Success out count missing
    /\ missing
       = firstn 20
           (unique
              (map (fun row => cell_at row (Z.to_nat key_index))
                 (filter (unmatched (build_lookup report [])
                            (Z.to_nat key_index) (Z.to_nat target_index))
                    rs)))
    /\ NoDup missing
    /\ List.length missing <= 20.
Proof.
  intros Hk Ht. unfold api_excel_autofill_ring.
  destruct (Z.ltb_spec key_index 0); [lia|].
  destruct (Z.ltb_spec target_index 0); [lia|].
  change (false || false) with false. cbv iota zeta.
  do 3 eexists. split; [reflexivity|].
  destruct (fill_rows_spec (build_lookup report []) (Z.to_nat key_index)
              (Z.to_nat target_index) rs 0 []) as (_ & _ & N).
  rewrite N. cbn [app]. split; [reflexivity|]. split.
  - match goal with
    | |- NoDup (firstn 20 ?l) =>
        assert (Hnd : NoDup l) by apply unique_from_nodup;
        rewrite <- (firstn_skipn 20 l) in Hnd;
        now apply NoDup_app_remove_r in Hnd
    end.
  - apply firstn_le_length.
Qed.

Lemma autofill_not_found_witness :
  exists out count missing,
    api_excel_autofill_ring sample_rows sample_report 0 1
    = Success out count missing
    /\ missing
       = firstn 20
           (unique
              (map (fun row => cell_at row 0)
                 (filter (unmatched (build_lookup sample_report []) 0 1)
                    sample_rows)))
    /\ NoDup missing
    /\ List.length missing <= 20.
Proof.
  apply (autofill_not_found sample_rows sample_report 0 1); lia.
Defined.

Lemma find_last {A : Type} (f : A -> bool) (l : list A) (x : A) :
  find f (l ++ [x])
  = match find f l with
    | Some y => Some y
    | None => if f x then Some x else None
    end.
Proof.
  induction l as [|a l IH]; simpl; [reflexivity|].
  destruct (f a); [reflexivity | exact IH].
Qed.

Lemma build_lookup_get (report : list (option Json * option Json)) (k : text) :
  forall lookup,
  dict_get (build_lookup report lookup) k
  = match find (binds k) (rev report) with
    | Some record => Some (field_str (snd record))
    | None => dict_get lookup k
    end.
Proof.
  induction report as [|[key value] report IH]; intros lookup;
    [reflexivity|].
  cbn [build_lookup rev]. rewrite IH, find_last.
  destruct (find (binds k) (rev report)); [reflexivity|].
  unfold binds. cbn [fst snd].
  destruct (filled (field_str key)); [|reflexivity].
  unfold dict_set. cbn [dict_get andb].
  now destruct (Py.eqb k (Py.lower (field_str key))).
Qed.

(** X13.  The lookup built from a report holds, for a lower-cased key, the
    value of the last record whose key field is filled and lower-cases to
    it; it holds nothing for a key that no such record has. *)
Theorem build_lookup_last_wins (report : list (option Json * option Json))
    (k : text) :
  dict_get (build_lookup report []) k
  = option_map (fun record => field_str (snd record))
      (find (binds k) (rev report)).
Proof.
  rewrite build_lookup_get. now destruct (find (binds k) (rev report)).
Qed.

(** ** The nearest C/AG host *)

Lemma nearest_in_chain_sound (pag_hostname chain cag : text) :
  nearest_in_chain pag_hostname chain = Some cag ->
  is_cag cag = true
  /\ exists i j,
       nth_error (chain_hostnames chain) i = Some pag_hostname
       /\ nth_error (chain_hostnames chain) j = Some cag
       /\ j <> i.
Proof.
  unfold nearest_in_chain.
  set (hs := chain_hostnames chain).
  destruct (Py.index_of (Py.eqb pag_hostname) hs) as [pos|] eqn:Hpos;
    [|discriminate].
  pose proof (index_of_bound _ _ _ Hpos) as Hb.
  destruct (index_of_first _ _ _ Hpos) as [(x & Hx & Ex) _].
  apply py_eqb_eq in Ex. subst x.
  assert (Hleft : forall d h, first_cag 1 (rev (firstn pos hs)) = Some (d, h) ->
            is_cag h = true
            /\ exists j, nth_error hs j = Some h /\ j <> pos).
  { intros d h H. destruct (first_cag_some _ _ _ _ H) as (k & _ & Hk & Hc & _).
    split; [exact Hc|].
    assert (k < pos) by (apply (left_of_bound hs pos k h); [lia | exact Hk]).
    rewrite left_of in Hk by lia.
    exists (pos - S k). split; [exact Hk | lia]. }
  assert (Hright : forall d h,
            first_cag 1 (skipn (S pos) hs) = Some (d, h) ->
            is_cag h = true
            /\ exists j, nth_error hs j = Some h /\ j <> pos).
  { intros d h H. destruct (first_cag_some _ _ _ _ H) as (k & _ & Hk & Hc & _).
    split; [exact Hc|]. rewrite right_of in Hk.
    exists (S pos + k). split; [exact Hk | lia]. }
  destruct (first_cag 1 (rev (firstn pos hs))) as [[ld lc]|];
    destruct (first_cag 1 (skipn (S pos) hs)) as [[rd rc]|];
    try discriminate.
  - intros H. inversion H; subst cag. clear H.
    destruct (ld <=? rd).
    + destruct (Hleft _ _ eq_refl) as (C & j & Hj & Hne).
      split; [exact C|]. now exists pos, j.
    + destruct (Hright _ _ eq_refl) as (C & j & Hj & Hne).
      split; [exact C|]. now exists pos, j.
  - intros H. inversion H; subst cag.
    destruct (Hleft _ _ eq_refl) as (C & j & Hj & Hne).
    split; [exact C|]. now exists pos, j.
  - intros H. inversion H; subst cag.
    destruct (Hright _ _ eq_refl) as (C & j & Hj & Hne).
    split; [exact C|]. now exists pos, j.
Qed.

Lemma find_nearest_cag_sound (pag_hostname : text) (topo_data : list Json)
    (cag : text) :
  find_nearest_cag pag_hostname topo_data = Some cag ->
  is_cag cag = true
  /\ exists chain i j,
       In (JStr chain) topo_data
       /\ nth_error (chain_hostnames chain) i = Some pag_hostname
       /\ nth_error (chain_hostnames chain) j = Some cag
       /\ j <> i.
Proof.
  induction topo_data as [|entry topo_data IH]; simpl; [discriminate|].
  assert (Hrest : find_nearest_cag pag_hostname topo_data = Some cag ->
            is_cag cag = true
            /\ exists chain i j,
                 (entry = JStr chain \/ In (JStr chain) topo_data)
                 /\ nth_error (chain_hostnames chain) i = Some pag_hostname
                 /\ nth_error (chain_hostnames chain) j = Some cag
                 /\ j <> i).
  { intros H. destruct (IH H) as (C & chain & i & j & Hin & Hi & Hj & Hne).
    split; [exact C|]. exists chain, i, j. auto. }
  destruct entry as [| |shown|[|c chain]]; try exact Hrest.
  destruct (nearest_in_chain pag_hostname (c :: chain)) as [found|] eqn:E;
    [|exact Hrest].
  intros H. inversion H; subst found.
  destruct (nearest_in_chain_sound _ _ _ E) as (C & i & j & Hi & Hj & Hne).
  split; [exact C|]. exists (c :: chain), i, j. auto.
Qed.

(** X14.  A host the lookup returns starts with [AG-] or [C-] and stands
    in a chain of the sheet that also names the queried host, at another
    position; when no chain names the queried host the lookup returns
    nothing. *)
Theorem find_nearest_cag_from_chain (pag_hostname : text)
    (topo_data : list Json) :
  (forall cag, find_nearest_cag pag_hostname topo_data = Some cag ->
     is_cag cag = true
     /\ exists chain i j,
          In (JStr chain) topo_data
          /\ nth_error (chain_hostnames chain) i = Some pag_hostname
          /\ nth_error (chain_hostnames chain) j = Some cag
          /\ j <> i)
  /\ (Forall (without_host pag_hostname) topo_data ->
      find_nearest_cag pag_hostname topo_data = None).
Proof.
  split; [intros cag; apply find_nearest_cag_sound|].
  intros H. rewrite <- (app_nil_r topo_data).
  now rewrite find_nearest_cag_skips.
Qed.

Lemma find_nearest_cag_from_chain_witness :
  is_cag (lit "AG-1") = true
  /\ find_nearest_cag (lit "PAG-1") sample_topo = None.
Proof.
  split.
  - exact (proj1 (proj1 (find_nearest_cag_from_chain (lit "PAG-7")
                           sample_topo) (lit "AG-1") eq_refl)).
  - apply (proj2 (find_nearest_cag_from_chain (lit "PAG-1") sample_topo)).
    repeat constructor; simpl; intuition discriminate.
Defined.

(** ** The C/AG fill loop *)

Lemma cell_or_empty_nat (row : list Json) (i : nat) :
  cell_or_empty row (Z.of_nat i) = Ok (cell_at row i).
Proof.
  unfold cell_or_empty, py_position.
  destruct (Z.ltb_spec (Z.of_nat i) (Z.of_nat (List.length row))) as [H|H].
  - destruct (Z.leb_spec 0 (Z.of_nat i)); [|lia].
    now rewrite Nat2Z.id.
  - unfold cell_at.
    assert (E : nth_error row i = None) by (apply nth_error_None; lia).
    now rewrite E.
Qed.

Lemma truthy_cag (topo_data : list Json) (pag_hostname cag : text) :
  find_nearest_cag pag_hostname topo_data = Some cag -> Py.truthy cag = true.
Proof.
  intros H. destruct (find_nearest_cag_sound _ _ _ H) as [C _].
  now destruct cag.
Qed.

Lemma cag_row_spec (topo_data : list Json) (pag_index cag_index : nat)
    (row : list Json) :
  cag_row topo_data (Z.of_nat pag_index) (Z.of_nat cag_index) row
  = if cag_writes topo_data pag_index cag_index row
    then (if Nat.ltb cag_index (List.length row)
          then Ok (update_at cag_index
                     (JStr (cag_found topo_data pag_index row)) row, 1)
          else Raised_error (lit "list assignment index out of range"))
    else Ok (row, 0).
Proof.
  unfold cag_row, cag_writes, cag_found, wanting.
  rewrite !cell_or_empty_nat.
  destruct (filled (cell_at row pag_index)); simpl; [|reflexivity].
  destruct (filled (cell_at row cag_index)); simpl; [reflexivity|].
  destruct (find_nearest_cag (cell_at row pag_index) topo_data)
    as [nearest|] eqn:E; [|reflexivity].
  rewrite (truthy_cag _ _ _ E).
  unfold py_position.
  destruct (Z.leb_spec 0 (Z.of_nat cag_index)); [|lia].
  rewrite Nat2Z.id.
  destruct (Z.ltb_spec (Z.of_nat cag_index) (Z.of_nat (List.length row)));
    destruct (Nat.ltb_spec cag_index (List.length row)); try lia;
    reflexivity.
Qed.

Lemma cag_rows_short (topo_data : list Json) (pag_index cag_index : nat)
    (rs : list (list Json)) :
  (exists row, In row rs
     /\ cag_writes topo_data pag_index cag_index row = true
     /\ List.length row <= cag_index) ->
  forall count,
  cag_rows topo_data (Z.of_nat pag_index) (Z.of_nat cag_index) rs count
  = Raised_error (lit "list assignment index out of range").
Proof.
  induction rs as [|row rs IH]; intros (short & Hin & Hw & Hlen) count;
    [destruct Hin|].
  cbn [cag_rows]. rewrite cag_row_spec.
  destruct (cag_writes topo_data pag_index cag_index row) eqn:W.
  - destruct (Nat.ltb_spec cag_index (List.length row)) as [Hlt|Hge];
      [|reflexivity].
    destruct Hin as [->|Hin]; [lia|].
    rewrite IH; [reflexivity|]. now exists short.
  - destruct Hin as [->|Hin]; [congruence|].
    rewrite IH; [reflexivity|]. now exists short.
Qed.

Lemma cag_rows_long (topo_data : list Json) (pag_index cag_index : nat)
    (rs : list (list Json)) :
  (forall row, In row rs ->
     cag_writes topo_data pag_index cag_index row = true ->
     cag_index < List.length row) ->
  forall count,
  cag_rows topo_data (Z.of_nat pag_index) (Z.of_nat cag_index) rs count
  = Ok (map (fun row =>
               if cag_writes topo_data pag_index cag_index row
               then update_at cag_index
                      (JStr (cag_found topo_data pag_index row)) row
               else row) rs,
        count
        + List.length (filter (cag_writes topo_data pag_index cag_index) rs)).
Proof.
  induction rs as [|row rs IH]; intros Hlong count.
  - simpl. now rewrite Nat.add_0_r.
  - cbn [cag_rows]. rewrite cag_row_spec.
    assert (Hrest : forall row, In row rs ->
              cag_writes topo_data pag_index cag_index row = true ->
              cag_index < List.length row).
    { intros r Hr. apply Hlong. now right. }
    cbn [map filter].
    destruct (cag_writes topo_data pag_index cag_index row) eqn:W.
    + destruct (Nat.ltb_spec cag_index (List.length row)) as [Hlt|Hge].
      * rewrite (IH Hrest). simpl. do 2 f_equal. lia.
      * specialize (Hlong row (or_introl eq_refl) W). lia.
    + rewrite (IH Hrest). do 2 f_equal. lia.
Qed.

(** X15.  The C/AG helper does not pad: when a row it would write to is
    too short to have the C/AG cell, the whole request fails with the text
    of the index error and no rows are returned. *)
Theorem autofill_cag_short_row_fails (rs : list (list Json))
    (topo_data : list Json) (pag_index cag_index : nat) (short : list Json) :
  topo_data <> [] ->
  In short rs ->
  cag_writes topo_data pag_index cag_index short = true ->
  List.length short <= cag_index ->
  api_excel_autofill_cag rs topo_data (Some (Z.of_nat pag_index))
    (Some (Z.of_nat cag_index))
  = CagFailure (lit "Error: list assignment index out of range").
Proof.
  intros Htopo Hin Hw Hlen. unfold api_excel_autofill_cag.
  destruct topo_data as [|entry topo_data]; [contradiction|].
  rewrite cag_rows_short; [reflexivity|]. now exists short.
Qed.

Lemma autofill_cag_short_row_fails_witness :
  api_excel_autofill_cag short_rows sample_topo (Some 0%Z) (Some 1%Z)
  = CagFailure (lit "Error: list assignment index out of range").
Proof.
  apply (autofill_cag_short_row_fails short_rows sample_topo 0 1
           [JStr (lit "PAG-7")]).
  - discriminate.
  - right. now left.
  - reflexivity.
  - simpl. lia.
Defined.

(** X16.  When every row the C/AG helper writes to has the C/AG cell, the
    request succeeds: the rows written to get the host found by the lookup
    in that cell, all other rows come back as sent, no row changes its
    length, and the count is the number of rows written to. *)
Theorem autofill_cag_fills (rs : list (list Json)) (topo_data : list Json)
    (pag_index cag_index : nat) :
  topo_data <> [] ->
  (forall row, In row rs ->
     cag_writes topo_data pag_index cag_index row = true ->
     cag_index < List.length row) ->
  exists out count,
    api_excel_autofill_cag rs topo_data (Some (Z.of_nat pag_index))
      (Some (Z.of_nat cag_index))
    = CagSuccess out count
    /\ count
       = List.length (filter (cag_writes topo_data pag_index cag_index) rs)
    /\ map (@List.length Json) out = map (@List.length Json) rs
    /\ forall i row, nth_error rs i = Some row ->
       exists row',
         nth_error out i = Some row'
         /\ (cag_writes topo_data pag_index cag_index row = false ->
             row' = row)
         /\ (cag_writes topo_data pag_index cag_index row = true ->
             exists cag,
               find_nearest_cag (cell_at row pag_index) topo_data = Some cag
               /\ nth_error row' cag_index = Some (JStr cag)
               /\ forall j, j <> cag_index ->
                    nth_error row' j = nth_error row j).
Proof.
  intros Htopo Hlong. unfold api_excel_autofill_cag.
  destruct topo_data as [|entry topo_data]; [contradiction|].
  rewrite (cag_rows_long _ _ _ _ Hlong).
  do 2 eexists. split; [reflexivity|]. split; [reflexivity|]. split.
  - rewrite map_map. apply map_ext. intros row.
    destruct (cag_writes _ _ _ row); [apply update_at_length | reflexivity].
  - intros i row Hi. erewrite map_nth_error by exact Hi.
    eexists. split; [reflexivity|].
    destruct (cag_writes (entry :: topo_data) pag_index cag_index row) eqn:W.
    + split; [discriminate|]. intros _.
      pose proof (Hlong row (nth_error_In _ _ Hi) W) as Hlt.
      unfold cag_writes, cag_found in W. unfold cag_found.
      destruct (find_nearest_cag (cell_at row pag_index)
                  (entry :: topo_data)) as [cag|].
      * exists cag. split; [reflexivity|]. split.
        -- rewrite nth_error_update_at, Nat.eqb_refl.
           now destruct (Nat.ltb_spec cag_index (List.length row)); [|lia].
        -- intros j Hj. rewrite nth_error_update_at.
           now destruct (Nat.eqb_spec j cag_index).
      * rewrite andb_false_r in W. discriminate.
    + split; [reflexivity | discriminate].
Qed.

Lemma autofill_cag_fills_witness :
  exists out count,
    api_excel_autofill_cag long_rows sample_topo (Some 0%Z) (Some 1%Z)
    = CagSuccess out count
    /\ count = 2
    /\ map (@List.length Json) out = map (@List.length Json) long_rows.
Proof.
  assert (L : forall row, In row long_rows ->
            cag_writes sample_topo 0 1 row = true ->
            1 < List.length row).
  { intros row [<-|[<-|[<-|[]]]] _; simpl; lia. }
  destruct (autofill_cag_fills long_rows sample_topo 0 1
              ltac:(discriminate) L) as (out & count & E & C & M & _).
  exists out, count. split; [exact E|]. split; [exact C | exact M].
Defined.

(** ** The rings listed for the image upload *)

Lemma unambiguous_spec (cols : list text) (name : text) :
  unambiguous cols name <-> ambiguous cols name = false.
Proof.
  unfold unambiguous, ambiguous.
  destruct (Nat.ltb_spec 1 (List.length (filter (Py.eqb name) cols)));
    split; intros; try lia; try reflexivity; discriminate.
Qed.

Lemma nth_update_at_cell (pos : nat) (row : list (option text))
    (f : option text -> option text) :
  f None = None ->
  nth pos (update_at pos (f (nth pos row None)) row) None
  = f (nth pos row None).
Proof.
  intros Hf. revert pos; induction row as [|c row IH]; intros [|pos]; simpl;
    auto.
Qed.

Lemma stripped_keys (pos : nat) (rs : list (list cell)) (k : text) :
  In k (present_keys pos (labelled (strip_column pos rs)))
  <-> exists row s,
        In row rs /\ nth pos row None = Some s /\ Py.strip s = k.
Proof.
  rewrite present_keys_in. unfold strip_column, key_at, cell. split.
  - intros ([i row'] & Hin & Hk).
    apply labelled_rows in Hin. cbn [snd] in Hin, Hk.
    apply in_map_iff in Hin. destruct Hin as (row & <- & Hrow).
    rewrite (nth_update_at_cell pos row (option_map Py.strip) eq_refl) in Hk.
    destruct (nth pos row None) as [s|] eqn:E; [|discriminate].
    inversion Hk. now exists row, s.
  - intros (row & s & Hrow & Hs & Hk).
    destruct (In_nth_error _ _ Hrow) as [i Hi].
    exists (i, update_at pos (option_map Py.strip (nth pos row None)) row).
    split.
    + apply labelled_in.
      apply (map_nth_error
               (fun row => update_at pos
                             (option_map Py.strip (nth pos row None)) row)).
      exact Hi.
    + cbn [snd].
      rewrite (nth_update_at_cell pos row (option_map Py.strip) eq_refl).
      rewrite Hs. simpl. now rewrite Hk.
Qed.

Lemma listed_rings_in (pos : nat) (rs : list (list cell)) (r : text) :
  In r (listed_rings pos rs)
  <-> Py.truthy r = true /\ is_nan_text r = false
      /\ exists row s,
           In row rs /\ nth pos row None = Some s /\ Py.strip s = r.
Proof.
  unfold listed_rings.
  assert (P := sort_keys_perm
                 (filter (fun r => Py.truthy r && negb (is_nan_text r))
                    (unique (present_keys pos
                               (labelled (strip_column pos rs)))))).
  split.
  - intros H. apply (Permutation_in _ P) in H.
    apply filter_In in H. destruct H as [H F].
    apply unique_from_spec in H. destruct H as [H _].
    apply andb_true_iff in F. destruct F as [T N].
    apply negb_true_iff in N.
    split; [exact T|]. split; [exact N|]. now apply stripped_keys.
  - intros (T & N & H).
    apply (Permutation_in _ (Permutation_sym P)).
    apply filter_In. split.
    + apply unique_from_spec. split; [now apply stripped_keys | intros []].
    + now rewrite T, N.
Qed.

(** X17.  For an Excel upload, a scope with a topology image and a sheet
    that has one column with the ring label, the rings returned are the
    ring cells, stripped, that are neither empty nor [nan]: each once, in
    ascending order, with their number as the total.  The white space inside a ring
    is kept, so [generate_documents] groups the records of a listed ring
    under the ring with its white space runs collapsed. *)
Theorem parse_rings_listed (filename scope : text) (cfg : Scope)
    (df : DataFrame) (pos : nat) :
  filename <> [] ->
  is_excel_name filename = true ->
  has_topology_image cfg = true ->
  rectangular df ->
  column_pos (map Py.strip (columns df)) (ring_col cfg) = Some pos ->
  unambiguous (map Py.strip (columns df)) (ring_col cfg) ->
  exists rings,
    api_parse_rings (Some filename) scope (Some cfg) (inl df)
    = RingsFound rings (List.length rings)
    /\ StronglySorted (fun a b => Py.leb a b = true) rings
    /\ NoDup rings
    /\ (forall r, In r rings
          <-> Py.truthy r = true /\ is_nan_text r = false
              /\ exists row s,
                   In row (rows df) /\ nth pos row None = Some s
                   /\ Py.strip s = r)
    /\ forall r, In r rings ->
         In (Py.collapse_spaces r)
            (map fst (group_records cfg (map Py.strip (columns df))
                        (rows df))).
Proof.
  intros Hname Hexcel Himage Hrect Hpos Hone.
  apply unambiguous_spec in Hone.
  exists (listed_rings pos (rows df)). split; [|split; [|split; [|split]]].
  - unfold api_parse_rings.
    destruct filename as [|c filename]; [contradiction|].
    now rewrite Hexcel, Himage, Hpos, Hone.
  - apply sort_keys_sorted.
  - unfold listed_rings.
    eapply Permutation_NoDup; [apply Permutation_sym, sort_keys_perm|].
    apply NoDup_filter, unique_from_nodup.
  - apply listed_rings_in.
  - intros r Hr. apply listed_rings_in in Hr.
    destruct Hr as (_ & _ & row & s & Hrow & Hs & <-).
    destruct (In_nth_error _ _ Hrow) as [i Hi].
    pose proof (index_of_bound _ _ _ Hpos) as Hlt.
    rewrite length_map in Hlt.
    destruct (group_of_row pos (List.length (columns df)) (rows df) i row
                Hlt Hrect Hi) as [Hin _].
    unfold group_records. rewrite Hpos.
    rewrite Hs in Hin. unfold normalize_key in Hin.
    apply (in_map fst) in Hin. exact Hin.
Qed.

Lemma parse_rings_listed_witness :
  exists rings,
    api_parse_rings (Some (lit "rings.xlsx")) (lit "Swap")
      (Some sample_scope) (inl sample_frame)
    = RingsFound rings (List.length rings)
    /\ rings = [lit "Ring  A"; lit "Ring A"; lit "Ring B"]
    /\ forall r, In r rings ->
         In (Py.collapse_spaces r)
            (map fst (group_records sample_scope
                        (map Py.strip (columns sample_frame))
                        (rows sample_frame))).
Proof.
  assert (R : rectangular sample_frame) by (repeat constructor).
  assert (U : unambiguous (map Py.strip (columns sample_frame))
                (ring_col sample_scope))
    by (unfold unambiguous; simpl; lia).
  destruct (parse_rings_listed (lit "rings.xlsx") (lit "Swap") sample_scope
              sample_frame 0 ltac:(discriminate) eq_refl eq_refl R eq_refl U)
    as (rings & E & _ & _ & _ & G).
  exists rings. split; [exact E|]. split; [|exact G].
  inversion E. reflexivity.
Defined.

(** With the ring label on two columns the route answers with the text of
    the exception. *)
Example doubled_ring_label_ambiguous :
  ~ unambiguous (map Py.strip (columns doubled_frame))
      (ring_col sample_scope).
Proof. unfold unambiguous. simpl. lia. Qed.

Example doubled_ring_label_answer :
  api_parse_rings (Some (lit "rings.xlsx")) (lit "Swap") (Some sample_scope)
    (inl doubled_frame)
  = RingsFailure
      (lit "Error membaca Excel: 'DataFrame' object has no attribute 'str'").
Proof. reflexivity. Qed.

(** ** The history file *)

Lemma firstn_app_firstn {A : Type} (n : nat) (l1 l2 : list A) :
  firstn n (l1 ++ firstn n l2) = firstn n (l1 ++ l2).
Proof.
  rewrite !firstn_app, firstn_firstn. do 2 f_equal. lia.
Qed.

(** X18.  Whatever the number of runs recorded, the history file holds the
    fifty newest entries, newest first: the entries of the calls made, in
    reverse order, before those it held, cut after fifty. *)
Theorem history_keeps_newest (calls : list Call)
    (stored : list HistoryEntry) :
  List.length stored <= 50 ->
  fold_left recorded calls stored
  = firstn 50 (rev (map entry_of calls) ++ stored)
  /\ List.length (fold_left recorded calls stored) <= 50.
Proof.
  intros Hlen.
  assert (E : fold_left recorded calls stored
              = firstn 50 (rev (map entry_of calls) ++ stored)).
  { revert stored Hlen; induction calls as [|c calls IH]; intros stored Hlen.
    - cbn [fold_left map rev app]. symmetry. now apply firstn_all2.
    - cbn [fold_left map rev]. rewrite IH.
      + unfold recorded, add_to_history, load_history. cbn [snd].
        rewrite firstn_app_firstn, <- app_assoc. reflexivity.
      + unfold recorded, add_to_history. cbn [snd]. apply firstn_le_length. }
  split; [exact E|]. rewrite E. apply firstn_le_length.
Qed.

Lemma history_keeps_newest_witness :
  map h_status (fold_left recorded sample_calls (load_history None))
  = [lit "error"; lit "success"]
  /\ List.length (fold_left recorded sample_calls (load_history None)) <= 50.
Proof.
  assert (L : List.length (load_history None) <= 50) by (simpl; lia).
  destruct (history_keeps_newest sample_calls (load_history None) L)
    as [E B].
  split; [|exact B]. rewrite E. reflexivity.
Defined.

(** ** The scope registry *)

Lemma dict_put_get {V : Type} (d : list (text * V)) (k k' : text) (v : V) :
  dict_get (dict_put d k v) k'
  = if Py.eqb k' k then Some v else dict_get d k'.
Proof.
  induction d as [|[k0 v0] d IH]; simpl.
  - reflexivity.
  - destruct (Py.eqb k k0) eqn:E; simpl.
    + apply py_eqb_eq in E. subst k0.
      now destruct (Py.eqb k' k).
    + destruct (Py.eqb k' k0) eqn:E0.
      * apply py_eqb_eq in E0. subst k0.
        destruct (Py.eqb k' k) eqn:E1; [|reflexivity].
        apply py_eqb_eq in E1. subst k'. now rewrite py_eqb_refl in E.
      * exact IH.
Qed.

Lemma dict_get_none {V : Type} (d : list (text * V)) (k : text) :
  dict_get d k = None <-> ~ In k (map fst d).
Proof.
  induction d as [|[k0 v0] d IH]; simpl; [tauto|].
  destruct (Py.eqb k k0) eqn:E.
  - apply py_eqb_eq in E. subst k0. split; [discriminate | tauto].
  - apply py_eqb_neq in E. rewrite IH. split; [|tauto].
    intros H [H0|H0]; [congruence | tauto].
Qed.

Lemma dict_del_get {V : Type} (d : list (text * V)) (k k' : text) :
  NoDup (map fst d) ->
  dict_get (dict_del d k) k'
  = if Py.eqb k' k then None else dict_get d k'.
Proof.
  induction d as [|[k0 v0] d IH]; simpl; intros Hnd.
  - now destruct (Py.eqb k' k).
  - inversion Hnd as [|? ? Hnot Hnd']; subst.
    destruct (Py.eqb k k0) eqn:E; simpl.
    + apply py_eqb_eq in E. subst k0.
      destruct (Py.eqb k' k) eqn:E1; [|reflexivity].
      apply py_eqb_eq in E1. subst k'. now apply dict_get_none.
    + destruct (Py.eqb k' k0) eqn:E0.
      * apply py_eqb_eq in E0. subst k0.
        destruct (Py.eqb k' k) eqn:E1; [|reflexivity].
        apply py_eqb_eq in E1. subst k'. now rewrite py_eqb_refl in E.
      * now apply IH.
Qed.

Lemma dict_put_keys {V : Type} (d : list (text * V)) (k : text) (v : V) :
  map fst (dict_put d k v)
  = if existsb (Py.eqb k) (map fst d) then map fst d else map fst d ++ [k].
Proof.
  induction d as [|[k0 v0] d IH]; simpl; [reflexivity|].
  destruct (Py.eqb k k0) eqn:E; simpl.
  - apply py_eqb_eq in E. now subst k0.
  - rewrite IH. now destruct (existsb (Py.eqb k) (map fst d)).
Qed.

(** X19.  In a configuration whose scope keys are distinct, a scope that
    is saved is the one found under its key, and saving leaves every other
    scope, the order of the keys and their distinctness as they were; a
    scope that is deleted is no longer found, so a run for it stops with
    the scope message, and the other scopes stay; deleting reports whether
    the key was there, which it is after a save. *)
Theorem scope_registry_round_trip (config : Config) (scope_key : text)
    (data : Scope) :
  NoDup (map fst config) ->
  let saved := api_save_scope config scope_key data in
  let deleted := api_delete_scope config scope_key in
  dict_get saved scope_key = Some data
  /\ (forall k, k <> scope_key -> dict_get saved k = dict_get config k)
  /\ NoDup (map fst saved)
  /\ snd (api_delete_scope saved scope_key) = true
  /\ dict_get (fst deleted) scope_key = None
  /\ (forall k, k <> scope_key ->
        dict_get (fst deleted) k = dict_get config k)
  /\ (snd deleted = true <-> In scope_key (map fst config))
  /\ forall env excel_path topology_images,
       message (fst (generate_documents env
                       (dict_get (fst deleted) scope_key) excel_path
                       scope_key topology_images))
       = MsgScopeNotFound scope_key.
Proof.
  intros Hnd saved deleted.
  assert (Hdel : forall k,
            dict_get (fst deleted) k
            = if Py.eqb k scope_key then None else dict_get config k).
  { intros k. unfold deleted, api_delete_scope.
    destruct (dict_get config scope_key) eqn:E; cbn [fst].
    - now apply dict_del_get.
    - destruct (Py.eqb k scope_key) eqn:Ek; [|reflexivity].
      apply py_eqb_eq in Ek. now subst k. }
  split; [|split; [|split; [|split; [|split; [|split; [|split]]]]]].
  - unfold saved, api_save_scope. now rewrite dict_put_get, py_eqb_refl.
  - intros k Hk. unfold saved, api_save_scope. rewrite dict_put_get.
    apply py_eqb_neq in Hk. now rewrite Hk.
  - unfold saved, api_save_scope. rewrite dict_put_keys.
    destruct (existsb (Py.eqb scope_key) (map fst config)) eqn:E;
      [exact Hnd|].
    apply NoDup_app; [exact Hnd | repeat constructor; intros [] |].
    intros k Hk [Ek|[]]. subst k.
    assert (existsb (Py.eqb scope_key) (map fst config) = true);
      [|congruence].
    apply existsb_exists. exists scope_key.
    split; [exact Hk | apply py_eqb_refl].
  - unfold api_delete_scope, saved, api_save_scope.
    now rewrite dict_put_get, py_eqb_refl.
  - now rewrite Hdel, py_eqb_refl.
  - intros k Hk. rewrite Hdel. apply py_eqb_neq in Hk. now rewrite Hk.
  - unfold deleted, api_delete_scope.
    destruct (dict_get config scope_key) eqn:E; cbn [snd].
    + split; [intros _ | reflexivity].
      destruct (in_dec (list_eq_dec Ascii.ascii_dec) scope_key
                  (map fst config)) as [Hin|Hout]; [exact Hin|].
      apply dict_get_none in Hout. congruence.
    + split; [discriminate|]. intros Hin.
      apply dict_get_none in E. contradiction.
  - intros env excel_path topology_images.
    now rewrite Hdel, py_eqb_refl.
Qed.

Lemma scope_registry_round_trip_witness :
  let config := [(lit "Swap", sample_scope)] in
  dict_get (api_save_scope config (lit "Cisco") strict_scope) (lit "Cisco")
  = Some strict_scope
  /\ dict_get (fst (api_delete_scope config (lit "Swap"))) (lit "Swap")
     = None.
Proof.
  assert (N : NoDup (map fst [(lit "Swap", sample_scope)])).
  { constructor; [intros [] | constructor]. }
  split.
  - exact (proj1 (scope_registry_round_trip [(lit "Swap", sample_scope)]
                    (lit "Cisco") strict_scope N)).
  - exact (proj1 (proj2 (proj2 (proj2 (proj2
             (scope_registry_round_trip [(lit "Swap", sample_scope)]
                (lit "Swap") strict_scope N)))))).
Defined.

(** ** Grouping in the stand-alone script *)

Lemma labelled_nth_from (l : list (list cell)) (s i : nat)
    (row : list cell) :
  In (i, row) (combine (seq s (List.length l)) l) ->
  s <= i /\ nth_error l (i - s) = Some row.
Proof.
  revert s; induction l as [|x l IH]; intros s; simpl; [intros []|].
  intros [H|H].
  - inversion H; subst. split; [lia|]. now rewrite Nat.sub_diag.
  - destruct (IH _ H) as [Hle Hn]. split; [lia|].
    replace (i - s) with (S (i - S s)) by lia. exact Hn.
Qed.

Lemma labelled_nth (l : list (list cell)) (i : nat) (row : list cell) :
  In (i, row) (labelled l) -> nth_error l i = Some row.
Proof.
  intros H. apply labelled_nth_from in H. destruct H as [_ H].
  now rewrite Nat.sub_0_r in H.
Qed.

(** X20.  For a sheet with one column under the grouping label, the
    stand-alone script strips the grouping column without filling its
    gaps, so a record is in a group exactly when its grouping cell is not
    missing, and then it is in the group of its stripped cell; a record
    with a missing grouping cell gets no document. *)
Theorem universal_v1_drops_missing_rings (cfg : Scope) (df : DataFrame)
    (pos i : nat) (row : list cell) :
  column_pos (map Py.strip (columns df)) (ring_col cfg) = Some pos ->
  unambiguous (map Py.strip (columns df)) (ring_col cfg) ->
  nth_error (rows df) i = Some row ->
  exists groups,
    UniversalV1.group_records cfg (map Py.strip (columns df)) (rows df)
    = Ok groups
    /\ ((exists k g row', In (k, g) groups /\ In (i, row') g)
        <-> nth pos row None <> None)
    /\ forall s, nth pos row None = Some s ->
         exists g row',
           In (Py.strip s, g) groups /\ In (i, row') g
           /\ forall j, j <> pos -> nth j row' None = nth j row None.
Proof.
  intros Hpos Hone Hi. apply unambiguous_spec in Hone.
  unfold UniversalV1.group_records. rewrite Hpos, Hone.
  eexists. split; [reflexivity|]. unfold groupby.
  set (f := fun row : list cell =>
              update_at pos (option_map Py.strip (nth pos row None)) row).
  assert (Hkey : forall r, key_at pos (i, f r)
                           = option_map Py.strip (nth pos r None)).
  { intros r. unfold key_at, f, cell. cbn [snd].
    apply (nth_update_at_cell pos r (option_map Py.strip) eq_refl). }
  assert (Hin : In (i, f row) (labelled (strip_column pos (rows df)))).
  { apply labelled_in. unfold strip_column. now apply (map_nth_error f). }
  assert (Hfound : forall s, nth pos row None = Some s ->
            exists g row',
              In (Py.strip s, g)
                 (map (fun k => (k, filter (has_key pos k)
                                      (labelled
                                         (strip_column pos (rows df)))))
                    (sort_keys
                       (unique
                          (present_keys pos
                             (labelled (strip_column pos (rows df)))))))
              /\ In (i, row') g
              /\ forall j, j <> pos -> nth j row' None = nth j row None).
  { intros s Hs. eexists. exists (f row). split; [|split].
    - apply in_map_iff. exists (Py.strip s). split; [reflexivity|].
      apply group_keys_in, present_keys_in.
      exists (i, f row). split; [exact Hin|].
      now rewrite Hkey, Hs.
    - apply filter_In. split; [exact Hin|].
      unfold has_key. rewrite Hkey, Hs. simpl. apply py_eqb_refl.
    - intros j Hj. unfold f. now apply update_at_other. }
  split; [split|exact Hfound].
  - intros (k & g & row' & Hg & Hr).
    apply in_map_iff in Hg. destruct Hg as (k' & Hk & _).
    inversion Hk; subst k' g. clear Hk.
    apply filter_In in Hr. destruct Hr as [Hr Hk].
    apply labelled_nth in Hr.
    assert (Hf : nth_error (strip_column pos (rows df)) i = Some (f row))
      by (apply (map_nth_error f); exact Hi).
    rewrite Hf in Hr. inversion Hr; subst row'.
    unfold has_key in Hk. rewrite Hkey in Hk.
    intros E. rewrite E in Hk. discriminate.
  - intros Hne. destruct (nth pos row None) as [s|] eqn:Hs; [|congruence].
    destruct (Hfound s eq_refl) as (g & row' & Hg & Hr & _).
    now exists (Py.strip s), g, row'.
Qed.

Lemma universal_v1_drops_missing_rings_witness :
  exists groups,
    UniversalV1.group_records sample_scope
      (map Py.strip (columns sample_frame)) (rows sample_frame)
    = Ok groups
    /\ map fst groups = [lit "Ring  A"; lit "Ring A"; lit "Ring B"]
    /\ ~ (exists k g row', In (k, g) groups /\ In (3, row') g).
Proof.
  assert (U : unambiguous (map Py.strip (columns sample_frame))
                (ring_col sample_scope))
    by (unfold unambiguous; simpl; lia).
  destruct (universal_v1_drops_missing_rings sample_scope sample_frame
              0 3 [None; None; Some (lit "T-004")] eq_refl U eq_refl)
    as (groups & E & H & _).
  exists groups. split; [exact E|]. split.
  - inversion E. reflexivity.
  - intros D. apply H in D. now apply D.
Defined.

Example universal_v1_doubled_ring_label :
  UniversalV1.group_records sample_scope
    (map Py.strip (columns doubled_frame)) (rows doubled_frame)
  = Raised_error no_str_accessor.
Proof. reflexivity. Qed.

(** ** Recompression *)

(** X21.  Recompression never reports a larger file: the size afterwards
    is at most the size before; it is the size before when the flag is
    false; and the flag is true only for a file above the limit. *)
Theorem compress_docx_never_grows (original_size max_size_mb : N)
    (recompressed : option N) :
  let '(compressed, old_size, new_size) :=
    compress_docx original_size max_size_mb recompressed in
  old_size = original_size
  /\ (new_size <= original_size)%N
  /\ (compressed = false -> new_size = original_size)
  /\ (compressed = true ->
      (max_size_mb * 1024 * 1024 < original_size)%N
      /\ exists size, recompressed = Some size
                      /\ new_size = N.min size original_size).
Proof.
  unfold compress_docx.
  destruct (N.leb_spec original_size (max_size_mb * 1024 * 1024)).
  - repeat split; try lia; discriminate.
  - destruct recompressed as [size|].
    + destruct (N.ltb_spec size original_size); repeat split; try lia;
        try discriminate; exists size; split; try reflexivity; lia.
    + repeat split; try lia; discriminate.
Qed.

(** ** The rows written into the table *)

Lemma set_cell_at_length (i : nat) (s : text) (cells : list Cell) :
  List.length (set_cell_at i s cells) = List.length cells.
Proof.
  unfold set_cell_at. destruct (nth_error cells i); [|reflexivity].
  apply update_at_length.
Qed.

Lemma set_cell_at_nth (i j : nat) (s : text) (cells : list Cell) :
  nth_error (set_cell_at i s cells) j
  = match nth_error cells j with
    | Some c => Some (if Nat.eqb j i then set_cell_text c s else c)
    | None => None
    end.
Proof.
  unfold set_cell_at. destruct (nth_error cells i) as [c|] eqn:E.
  - rewrite nth_error_update_at.
    destruct (Nat.eqb_spec j i) as [->|Hne].
    + rewrite E.
      assert (i < List.length cells) by (apply nth_error_Some; congruence).
      now destruct (Nat.ltb_spec i (List.length cells)); [|lia].
    + now destruct (nth_error cells j).
  - destruct (nth_error cells j) as [c|] eqn:Ej; [|reflexivity].
    destruct (Nat.eqb_spec j i) as [->|Hne]; [congruence | reflexivity].
Qed.

Lemma fill_columns_length (cols : list text) (row : list cell)
    (start_data_idx : nat) (cols_to_fill : list text) :
  forall i row_cells,
  List.length (fill_columns cols row start_data_idx i cols_to_fill row_cells)
  = List.length row_cells.
Proof.
  induction cols_to_fill as [|col_name rest IH]; intros i row_cells;
    [reflexivity|].
  cbn [fill_columns]. rewrite IH.
  destruct (start_data_idx + i <? List.length row_cells); [|reflexivity].
  apply set_cell_at_length.
Qed.

Lemma fill_columns_nth (cols : list text) (row : list cell)
    (start_data_idx : nat) (cols_to_fill : list text) :
  forall i row_cells j,
  nth_error (fill_columns cols row start_data_idx i cols_to_fill row_cells) j
  = match nth_error row_cells j with
    | Some c =>
        Some (if (start_data_idx + i <=? j)
                 && (j <? start_data_idx + i + List.length cols_to_fill)
              then set_cell_text c
                     (record_value cols row
                        (nth (j - (start_data_idx + i)) cols_to_fill []))
              else c)
    | None => None
    end.
Proof.
  induction cols_to_fill as [|col_name rest IH]; intros i row_cells j.
  - cbn [fill_columns List.length]. destruct (nth_error row_cells j);
      [|reflexivity].
    destruct (Nat.leb_spec (start_data_idx + i) j);
      destruct (Nat.ltb_spec j (start_data_idx + i + 0)); try reflexivity;
      lia.
  - cbn [fill_columns]. rewrite IH. cbn [List.length].
    assert (Hcells :
      nth_error
        (if start_data_idx + i <? List.length row_cells
         then set_cell_at (start_data_idx + i)
                (record_value cols row col_name) row_cells
         else row_cells) j
      = match nth_error row_cells j with
        | Some c =>
            Some (if Nat.eqb j (start_data_idx + i)
                  then set_cell_text c (record_value cols row col_name)
                  else c)
        | None => None
        end).
    { destruct (Nat.ltb_spec (start_data_idx + i) (List.length row_cells))
        as [Hlt|Hge].
      - apply set_cell_at_nth.
      - destruct (nth_error row_cells j) as [c|] eqn:E; [|reflexivity].
        assert (j < List.length row_cells)
          by (apply nth_error_Some; congruence).
        now destruct (Nat.eqb_spec j (start_data_idx + i)); [lia|]. }
    match goal with
    | |- match ?x with _ => _ end = _ =>
        replace x with
          (match nth_error row_cells j with
           | Some c =>
               Some (if Nat.eqb j (start_data_idx + i)
                     then set_cell_text c (record_value cols row col_name)
                     else c)
           | None => None
           end)
    end.
    destruct (nth_error row_cells j) as [c|]; [|reflexivity].
    f_equal.
    destruct (Nat.eqb_spec j (start_data_idx + i)) as [->|Hne].
    + destruct (Nat.leb_spec (start_data_idx + S i) (start_data_idx + i));
        [lia|].
      destruct (Nat.leb_spec (start_data_idx + i) (start_data_idx + i));
        [|lia].
      destruct (Nat.ltb_spec (start_data_idx + i)
                  (start_data_idx + i + S (List.length rest))); [|lia].
      cbn [andb]. now rewrite Nat.sub_diag.
    + destruct (Nat.leb_spec (start_data_idx + S i) j);
        destruct (Nat.leb_spec (start_data_idx + i) j); try lia;
        cbn [andb]; [|reflexivity].
      destruct (Nat.ltb_spec j (start_data_idx + S i + List.length rest));
        destruct (Nat.ltb_spec j
                    (start_data_idx + i + S (List.length rest)));
        try lia; [|reflexivity].
      replace (j - (start_data_idx + i))
        with (S (j - (start_data_idx + S i))) by lia.
      reflexivity.
Qed.

Lemma cell_text_set (c : Cell) (s : text) : cell_text (set_cell_text c s) = s.
Proof. unfold cell_text, set_cell_text, para_text. simpl. apply app_nil_r. Qed.

Lemma cell_text_format (c : Cell) : cell_text (format_cell c) = cell_text c.
Proof.
  unfold cell_text, format_cell. cbn [c_paras]. f_equal.
  rewrite map_map. apply map_ext. intros para.
  unfold para_text. now rewrite map_map.
Qed.

Lemma format_cell_fonts (c : Cell) (para : Paragraph) (run : Run) :
  In para (c_paras (format_cell c)) -> In run para -> r_font run = arial_9.
Proof.
  unfold format_cell. cbn [c_paras]. intros Hp Hr.
  apply in_map_iff in Hp. destruct Hp as (para0 & <- & _).
  apply in_map_iff in Hr. now destruct Hr as (run0 & <- & _).
Qed.

(** The row [append_record] adds for a record, from the grid of the
    table. *)
Lemma append_record_rows (cfg : Scope) (cols : list text)
    (group_data : list (nat * list cell)) (t : Table) (r : nat * list cell) :
  t_grid (append_record cfg cols group_data t r) = t_grid t
  /\ exists cells,
       t_rows (append_record cfg cols group_data t r) = t_rows t ++ [cells]
       /\ cells
          = map format_cell
              (fill_columns cols (snd r)
                 (if List.length (columns_mapping cfg)
                     <? List.length (t_grid t) then 1 else 0)
                 0 (columns_mapping cfg)
                 (if List.length (columns_mapping cfg)
                     <? List.length (t_grid t)
                  then set_cell_at 0
                         (Py.str_of_nat (ordinal group_data (fst r)))
                         (new_row t)
                  else new_row t)).
Proof.
  split; [reflexivity|]. eexists. split; [reflexivity|].
  unfold new_row. now rewrite length_map.
Qed.

Lemma append_records_content (cfg : Scope) (cols : list text)
    (group_data records : list (nat * list cell)) :
  forall t,
  t_rows (fold_left (append_record cfg cols group_data) records t)
  = t_rows t
    ++ map (fun r =>
              last (t_rows (append_record cfg cols group_data
                              (mkTable None false None (t_grid t) []) r))
                   [])
         records.
Proof.
  induction records as [|r records IH]; intros t.
  - simpl. now rewrite app_nil_r.
  - cbn [fold_left map]. rewrite IH.
    destruct (append_record_rows cfg cols group_data t r)
      as (G & cells & R & C).
    rewrite R, G, <- app_assoc. f_equal. cbn [app]. f_equal.
    rewrite C. unfold append_record, new_row.
    cbn [t_rows t_grid app last]. now rewrite !length_map.
Qed.

Lemma ordinal_nth (group_data : list (nat * list cell)) (k : nat)
    (r : nat * list cell) :
  NoDup (map fst group_data) ->
  nth_error group_data k = Some r ->
  ordinal group_data (fst r) = S k.
Proof.
  intros Hnd Hk. unfold ordinal.
  assert (Hk' : nth_error (map fst group_data) k = Some (fst r))
    by now apply map_nth_error.
  destruct (Py.index_of (Nat.eqb (fst r)) (map fst group_data)) as [k'|] eqn:E.
  - destruct (index_of_first _ _ _ E) as [(x & Hx & Ex) _].
    apply Nat.eqb_eq in Ex. subst x.
    assert (k' = k); [|lia].
    apply (proj1 (NoDup_nth_error (map fst group_data)) Hnd).
    + apply nth_error_Some. congruence.
    + congruence.
  - exfalso. revert E. clear Hnd Hk.
    revert k Hk'. induction (map fst group_data) as [|x l IH]; intros k Hk'.
    + destruct k; discriminate.
    + simpl. destruct (Nat.eqb_spec (fst r) x); [discriminate|].
      destruct k as [|k]; simpl in Hk'; [congruence|].
      destruct (Py.index_of (Nat.eqb (fst r)) l) eqn:E'; [discriminate|].
      intros _. now apply (IH k).
Qed.

(** X22.  For a sheet in which no mapped label names two columns, the
    row the fill writes for the record at position [k] of a group stands
    at row [k+1] and has one cell per grid column.  When the
    grid has more columns than the mapping, the first cell holds [k+1] and
    the mapped columns follow from the second cell; otherwise they start
    at the first cell and the columns the grid has no cell for are left
    out.  A mapped cell holds the text of the record's value, the empty
    text for [nan]; the cells after the mapping are empty; every run is
    Arial 9 and every cell has automatic width. *)
Theorem fill_table_cells (cfg : Scope) (cols : list text)
    (group_data : list (nat * list cell)) (t : Table) (k : nat)
    (r : nat * list cell) :
  t_rows t <> [] ->
  Forall (unambiguous cols) (columns_mapping cfg) ->
  NoDup (map fst group_data) ->
  nth_error group_data k = Some r ->
  let cols_to_fill := columns_mapping cfg in
  let width := List.length (t_grid t) in
  let numbered := List.length cols_to_fill <? width in
  let start_data_idx := if numbered then 1 else 0 in
  exists cells,
    nth_error (t_rows (fill_table cfg cols group_data t)) (S k) = Some cells
    /\ List.length cells = width
    /\ forall j, j < width ->
       exists c,
         nth_error cells j = Some c
         /\ c_width c = Some W_auto
         /\ (forall para run, In para (c_paras c) -> In run para ->
               r_font run = arial_9)
         /\ cell_text c
            = if numbered && Nat.eqb j 0 then Py.str_of_nat (S k)
              else if j <? start_data_idx + List.length cols_to_fill
                   then record_value cols (snd r)
                          (nth (j - start_data_idx) cols_to_fill [])
                   else [].
Proof.
  intros Hrows _ Hnd Hk cols_to_fill width numbered start_data_idx.
  unfold fill_table, reset_table_width. cbn [t_rows].
  rewrite append_records_content. cbn [t_rows t_grid].
  rewrite clear_body_rows_header.
  destruct (t_rows t) as [|header body]; [contradiction|].
  change (firstn 1 (header :: body)) with [header].
  cbn [app map nth_error].
  rewrite !nth_error_map, Hk. cbn [option_map].
  eexists. split; [reflexivity|].
  unfold append_record. cbn [t_rows t_grid app last new_row].
  unfold new_row. cbn [t_grid].
  rewrite (length_map _ (t_grid t)).
  fold width. fold cols_to_fill. fold numbered. fold start_data_idx.
  rewrite (ordinal_nth group_data k r Hnd Hk).
  set (blank := map (fun w => mkCell (option_map W_fixed w) [[]] [])
                  (t_grid t)).
  assert (Hblank : List.length blank = width) by apply length_map.
  set (row_cells := if numbered
                    then set_cell_at 0 (Py.str_of_nat (S k)) blank
                    else blank).
  assert (Hlen : List.length row_cells = width).
  { unfold row_cells. destruct numbered; [|exact Hblank].
    now rewrite set_cell_at_length. }
  split.
  - now rewrite !length_map, fill_columns_length.
  - intros j Hj.
    rewrite !nth_error_map, fill_columns_nth.
    assert (Hcell : exists c0,
              nth_error row_cells j = Some c0
              /\ cell_text c0
                 = if numbered && Nat.eqb j 0 then Py.str_of_nat (S k)
                   else []).
    { destruct (nth_error blank j) as [b|] eqn:Eb.
      - assert (Hb : cell_text b = []).
        { unfold blank in Eb. rewrite nth_error_map in Eb.
          destruct (nth_error (t_grid t) j); [|discriminate].
          inversion Eb. reflexivity. }
        unfold row_cells. destruct numbered; cbn [andb].
        + rewrite set_cell_at_nth, Eb. eexists. split; [reflexivity|].
          destruct (Nat.eqb j 0); [apply cell_text_set | exact Hb].
        + exists b. now split.
      - apply nth_error_None in Eb. lia. }
    destruct Hcell as (c0 & Hc0 & Htext).
    rewrite Hc0. cbn [option_map]. eexists. split; [reflexivity|].
    split; [reflexivity|]. split.
    + cbn [c_paras]. apply format_cell_fonts.
    + match goal with
      | |- cell_text (mkCell _ (c_paras ?c) (c_nested ?c)) = _ =>
          change (cell_text (mkCell (Some W_auto) (c_paras c) (c_nested c)))
            with (cell_text c)
      end.
      rewrite cell_text_format, Nat.add_0_r.
      destruct (Nat.leb_spec start_data_idx j) as [Hle|Hgt].
      * assert (Hfirst : numbered && Nat.eqb j 0 = false).
        { unfold start_data_idx in Hle. destruct numbered; [|reflexivity].
          destruct j; [lia | reflexivity]. }
        rewrite Hfirst in *. cbn [andb].
        destruct (j <? start_data_idx + List.length cols_to_fill);
          [apply cell_text_set | exact Htext].
      * assert (Hfirst : numbered && Nat.eqb j 0 = true).
        { unfold start_data_idx in Hgt. destruct numbered; [|lia].
          destruct j; [reflexivity | lia]. }
        rewrite Hfirst in *. exact Htext.
Qed.

Lemma fill_table_cells_witness :
  exists cells,
    nth_error
      (t_rows (fill_table sample_scope (columns sample_frame)
                 [(0, [Some (lit "Ring A"); None; Some (lit "T-001")]);
                  (2, [Some (lit "Ring A"); None; Some (lit "nan")])]
                 wide_table)) 2
    = Some cells
    /\ map cell_text cells = [lit "2"; []; lit "Ring A"; []].
Proof.
  assert (N : NoDup (map fst
                [(0, [Some (lit "Ring A"); None; Some (lit "T-001")]);
                 (2, [Some (lit "Ring A"); None; Some (lit "nan")])])).
  { simpl. repeat constructor; simpl; intuition discriminate. }
  assert (U : Forall (unambiguous (columns sample_frame))
                (columns_mapping sample_scope)).
  { repeat constructor; unfold unambiguous; simpl; lia. }
  destruct (fill_table_cells sample_scope (columns sample_frame)
              [(0, [Some (lit "Ring A"); None; Some (lit "T-001")]);
               (2, [Some (lit "Ring A"); None; Some (lit "nan")])]
              wide_table 1
              (2, [Some (lit "Ring A"); None; Some (lit "nan")])
              ltac:(discriminate) U N eq_refl) as (cells & E & _ & _).
  exists cells. split; [exact E|].
  inversion E. reflexivity.
Defined.

(** ** The table that is filled *)

Lemma index_of_none_inv {A : Type} (f : A -> bool) (l : list A) :
  Py.index_of f l = None -> forall x, In x l -> f x = false.
Proof.
  induction l as [|y l IH]; simpl; [intros _ x []|].
  destruct (f y) eqn:E; [discriminate|].
  destruct (Py.index_of f l); [discriminate|].
  intros _ x [<-|H]; [exact E | now apply IH].
Qed.

(** X23.  The table step rewrites one table at most: the first table
    whose first row shows the keyword.  Every other table, also one whose
    first row shows the keyword too, and everything outside the tables
    stay as they are; when no table shows the keyword the document is
    unchanged. *)
Theorem table_step_first_match (cfg : Scope) (cols : list text)
    (group_data : list (nat * list cell)) (doc : Document) :
  let doc' := table_step cfg cols group_data doc in
  d_paras doc' = d_paras doc /\ d_deep doc' = d_deep doc
  /\ d_parts doc' = d_parts doc /\ d_sections doc' = d_sections doc
  /\ ((doc' = doc
       /\ forall t, In t (d_tables doc) ->
            is_target (table_keyword cfg) t = false)
      \/ exists i t,
           nth_error (d_tables doc) i = Some t
           /\ is_target (table_keyword cfg) t = true
           /\ (forall j t', j < i -> nth_error (d_tables doc) j = Some t' ->
                 is_target (table_keyword cfg) t' = false)
           /\ nth_error (d_tables doc') i
              = Some (fill_table cfg cols group_data t)
           /\ (forall j, j <> i ->
                 nth_error (d_tables doc') j = nth_error (d_tables doc) j)
           /\ List.length (d_tables doc') = List.length (d_tables doc)).
Proof.
  unfold table_step, find_target.
  destruct (Py.index_of (is_target (table_keyword cfg)) (d_tables doc))
    as [i|] eqn:E.
  - destruct (index_of_first _ _ _ E) as [(t & Ht & Hkw) Hfirst].
    rewrite Ht. cbn [d_paras d_deep d_parts d_sections d_tables].
    repeat split. right. exists i, t.
    split; [exact Ht|]. split; [exact Hkw|]. split; [exact Hfirst|].
    split; [|split].
    + rewrite nth_error_update_at, Nat.eqb_refl.
      assert (i < List.length (d_tables doc))
        by (apply nth_error_Some; congruence).
      now destruct (Nat.ltb_spec i (List.length (d_tables doc))); [|lia].
    + intros j Hj. rewrite nth_error_update_at.
      now destruct (Nat.eqb_spec j i).
    + apply update_at_length.
  - repeat split. left. split; [reflexivity|].
    now apply index_of_none_inv.
Qed.

(** ** The topology picture *)

Lemma image_in_paras_none (ok : bool) (path : text) (width : Z)
    (ps : list Paragraph) :
  (forall para, In para ps ->
     Py.contains TOPOLOGY_IMAGE (para_text para) = false) ->
  image_in_paras ok path width ps = (ps, Searching).
Proof.
  induction ps as [|para ps IH]; intros H; [reflexivity|].
  cbn [image_in_paras]. rewrite (H para) by now left.
  rewrite IH; [reflexivity|]. intros p Hp. apply H. now right.
Qed.

Lemma image_in_paras_first (ok : bool) (path : text) (width : Z)
    (ps : list Paragraph) :
  forall i para,
  nth_error ps i = Some para ->
  Py.contains TOPOLOGY_IMAGE (para_text para) = true ->
  (forall j p, j < i -> nth_error ps j = Some p ->
     Py.contains TOPOLOGY_IMAGE (para_text p) = false) ->
  image_in_paras ok path width ps
  = (update_at i (if ok then picture_paragraph path width
                  else cleared_paragraph) ps,
     if ok then Inserted else Raised).
Proof.
  induction ps as [|p0 ps IH]; intros [|i] para Hi Hc Hfirst;
    try discriminate.
  - inversion Hi; subst p0. cbn [image_in_paras update_at]. rewrite Hc.
    now destruct ok.
  - cbn [image_in_paras update_at].
    rewrite (Hfirst 0 p0) by (try lia; reflexivity).
    rewrite (IH i para Hi Hc); [reflexivity|].
    intros j p Hj Hp. apply (Hfirst (S j) p); [lia | exact Hp].
Qed.

Lemma image_in_cells_none (ok : bool) (path : text) (cells : list Cell) :
  (forall c para, In c cells -> In para (c_paras c) ->
     Py.contains TOPOLOGY_IMAGE (para_text para) = false) ->
  forall st, image_in_cells ok path st cells = (cells, st, 0).
Proof.
  induction cells as [|c cells IH]; intros H st; [reflexivity|].
  cbn [image_in_cells]. rewrite image_in_paras_none.
  - rewrite IH; [now destruct c|]. intros c' p Hc. apply H. now right.
  - intros p Hp. apply (H c p); [now left | exact Hp].
Qed.

Lemma image_in_rows_none (ok : bool) (path : text) (rs : list Row) :
  (forall row c para, In row rs -> In c row -> In para (c_paras c) ->
     Py.contains TOPOLOGY_IMAGE (para_text para) = false) ->
  image_in_rows ok path rs = (rs, Searching, 0).
Proof.
  induction rs as [|row rs IH]; intros H; [reflexivity|].
  cbn [image_in_rows]. rewrite image_in_cells_none.
  - rewrite IH; [reflexivity|]. intros r c p Hr. apply H. now right.
  - intros c p. apply H. now left.
Qed.

Lemma image_in_tables_none (ok : bool) (path : text) (ts : list Table) :
  (forall t row c para, In t ts -> In row (t_rows t) -> In c row ->
     In para (c_paras c) ->
     Py.contains TOPOLOGY_IMAGE (para_text para) = false) ->
  image_in_tables ok path ts = (ts, Searching, 0).
Proof.
  induction ts as [|t ts IH]; intros H; [reflexivity|].
  cbn [image_in_tables]. rewrite image_in_rows_none.
  - rewrite IH; [now destruct t|]. intros t' r c p Ht. apply H. now right.
  - intros r c p. apply H. now left.
Qed.

(** X24.  With an image for the ring, the first body paragraph whose text
    shows the image placeholder is emptied and receives the picture, six
    inches wide; the text it had around the placeholder is gone, and the
    other paragraphs and all tables are left alone.  When embedding the
    picture fails the paragraph is emptied all the same, and the failure
    is logged. *)
Theorem topology_picture_in_body (env : Env) (cfg : Scope)
    (topology_images : list (text * text)) (group_name path : text)
    (doc : Document) (i : nat) (para : Paragraph) :
  dict_get topology_images group_name = Some path ->
  path <> [] ->
  has_topology_image cfg = true ->
  path_exists env path = true ->
  nth_error (d_paras doc) i = Some para ->
  Py.contains TOPOLOGY_IMAGE (para_text para) = true ->
  (forall j p, j < i -> nth_error (d_paras doc) j = Some p ->
     Py.contains TOPOLOGY_IMAGE (para_text p) = false) ->
  topology_step env cfg topology_images group_name doc
  = (mkDocument
       (update_at i
          (if picture_ok env path then picture_paragraph path inches_6
           else cleared_paragraph) (d_paras doc))
       (d_tables doc) (d_deep doc) (d_parts doc) (d_sections doc),
     [if picture_ok env path then LogImageInserted group_name
      else LogImageFailed group_name]).
Proof.
  intros Hget Hpath Himage Hexists Hi Hc Hfirst.
  unfold topology_step. rewrite Hget, Himage, Hexists.
  destruct path as [|a path]; [contradiction|]. cbn [Py.truthy andb].
  unfold insert_image.
  rewrite (image_in_paras_first _ _ _ _ i para Hi Hc Hfirst).
  now destruct (picture_ok env (a :: path)).
Qed.

Lemma topology_picture_in_body_witness :
  map para_text
    (d_paras (fst (topology_step image_env sample_scope
                     [(lit "Ring A", lit "ring-a.png")] (lit "Ring A")
                     image_body_doc)))
  = [lit "Topology"; []]
  /\ snd (topology_step broken_image_env sample_scope
            [(lit "Ring A", lit "ring-a.png")] (lit "Ring A")
            image_body_doc)
     = [LogImageFailed (lit "Ring A")].
Proof.
  assert (F : forall j p, j < 1 ->
            nth_error (d_paras image_body_doc) j = Some p ->
            Py.contains TOPOLOGY_IMAGE (para_text p) = false).
  { intros [|j] p Hj; [|lia]. intros H. inversion H. reflexivity. }
  split.
  - rewrite (topology_picture_in_body image_env sample_scope
               [(lit "Ring A", lit "ring-a.png")] (lit "Ring A")
               (lit "ring-a.png") image_body_doc 1
               [plain "Fig: {{TOPOLOGY_IMAGE}} (ring)"]
               eq_refl ltac:(discriminate) eq_refl eq_refl eq_refl eq_refl F).
    reflexivity.
  - rewrite (topology_picture_in_body broken_image_env sample_scope
               [(lit "Ring A", lit "ring-a.png")] (lit "Ring A")
               (lit "ring-a.png") image_body_doc 1
               [plain "Fig: {{TOPOLOGY_IMAGE}} (ring)"]
               eq_refl ltac:(discriminate) eq_refl eq_refl eq_refl eq_refl F).
    reflexivity.
Defined.

(** X25.  With an image for the ring and a template in which no body
    paragraph and no paragraph of a table cell shows the image
    placeholder, the document is left as it is and nothing is logged: the
    image is dropped without a message. *)
Theorem topology_picture_dropped (env : Env) (cfg : Scope)
    (topology_images : list (text * text)) (group_name path : text)
    (doc : Document) :
  dict_get topology_images group_name = Some path ->
  path <> [] ->
  has_topology_image cfg = true ->
  path_exists env path = true ->
  (forall para, In para (d_paras doc) ->
     Py.contains TOPOLOGY_IMAGE (para_text para) = false) ->
  (forall t row c para, In t (d_tables doc) -> In row (t_rows t) ->
     In c row -> In para (c_paras c) ->
     Py.contains TOPOLOGY_IMAGE (para_text para) = false) ->
  topology_step env cfg topology_images group_name doc = (doc, []).
Proof.
  intros Hget Hpath Himage Hexists Hbody Htables.
  unfold topology_step. rewrite Hget, Himage, Hexists.
  destruct path as [|a path]; [contradiction|]. cbn [Py.truthy andb].
  unfold insert_image.
  rewrite (image_in_paras_none _ _ _ _ Hbody).
  rewrite (image_in_tables_none _ _ _ Htables).
  now destruct doc.
Qed.

Lemma topology_picture_dropped_witness :
  topology_step image_env sample_scope [(lit "Ring A", lit "ring-a.png")]
    (lit "Ring A") plain_doc
  = (plain_doc, []).
Proof.
  apply (topology_picture_dropped image_env sample_scope
           [(lit "Ring A", lit "ring-a.png")] (lit "Ring A")
           (lit "ring-a.png") plain_doc eq_refl ltac:(discriminate)
           eq_refl eq_refl).
  - intros para [<-|[]]. reflexivity.
  - intros t row c para [].
Defined.

(** ** The report routes *)

Lemma find_columns_last (p q : text -> bool) (cols : list text) :
  forall first second,
  find_columns p q cols first second
  = (match find p (rev cols) with Some c => Some c | None => first end,
     match find q (rev cols) with Some c => Some c | None => second end).
Proof.
  induction cols as [|col cols IH]; intros first second; [reflexivity|].
  cbn [find_columns rev]. rewrite IH, !find_last.
  destruct (find p (rev cols)), (find q (rev cols)), (p col), (q col);
    reflexivity.
Qed.

Lemma count_label_nodup (cols : list text) (col : text) :
  NoDup cols -> List.length (filter (Py.eqb col) cols) <= 1.
Proof.
  induction 1 as [|c cols Hnot Hnd IH]; simpl; [lia|].
  destruct (Py.eqb col c) eqn:E; [|exact IH].
  apply py_eqb_eq in E. subst c. simpl.
  assert (Hnone : filter (Py.eqb col) cols = []).
  { clear IH Hnd. induction cols as [|c cols IH]; [reflexivity|]. simpl.
    destruct (Py.eqb col c) eqn:E.
    - apply py_eqb_eq in E. subst c. exfalso. apply Hnot. now left.
    - apply IH. intros H. apply Hnot. now right. }
  rewrite Hnone. simpl. lia.
Qed.

Lemma stripped_field_unique (cols : list text) (row : list cell)
    (col : text) (pos : nat) :
  NoDup cols -> column_pos cols col = Some pos ->
  stripped_field cols row col = Ok (stripped_cell (nth pos row None)).
Proof.
  intros Hnd Hpos. unfold stripped_field, row_get. rewrite Hpos.
  pose proof (count_label_nodup cols col Hnd) as Hc.
  destruct (Nat.ltb_spec 1 (List.length (filter (Py.eqb col) cols)));
    [lia|].
  now destruct (nth pos row None).
Qed.

Lemma report_records_unique (keep : text -> text -> bool) (cols : list text)
    (first_col second_col : text) (first_pos second_pos : nat)
    (rs : list (list cell)) :
  NoDup cols ->
  column_pos cols first_col = Some first_pos ->
  column_pos cols second_col = Some second_pos ->
  forall report,
  report_records keep cols first_col second_col rs report
  = Ok (report
        ++ filter (fun r => keep (fst r) (snd r))
             (map (fun row : list cell =>
                (stripped_cell (nth first_pos row None),
                               stripped_cell (nth second_pos row None)))
                rs)).
Proof.
  intros Hnd H1 H2. induction rs as [|row rs IH]; intros report.
  - simpl. now rewrite app_nil_r.
  - cbn [report_records map filter fst snd].
    rewrite (stripped_field_unique _ _ _ _ Hnd H1).
    rewrite (stripped_field_unique _ _ _ _ Hnd H2).
    rewrite IH.
    destruct (keep (stripped_cell (nth first_pos row None))
                (stripped_cell (nth second_pos row None)));
      [|reflexivity].
    cbn [fst snd]. now rewrite <- app_assoc.
Qed.

(** X26.  For an Excel upload with the sheet asked for, read into a frame
    whose stripped column names are distinct: each of the two columns used
    is the last column whose name passes its test, not the first; a
    missing name column is reported before a missing subnet column; and
    the report is the rows whose stripped name is neither empty nor
    [nan], in sheet order, each with its two fields stripped. *)
Theorem parse_ne_report_found (filename sheet_name : text)
    (sheet_names : list text) (read : text -> DataFrame + text)
    (df : DataFrame) :
  filename <> [] ->
  is_excel_name filename = true ->
  existsb (Py.eqb sheet_name) sheet_names = true ->
  read sheet_name = inl df ->
  NoDup (map Py.strip (columns df)) ->
  let cols := map Py.strip (columns df) in
  let response :=
    api_excel_parse_ne_report (Some filename) sheet_name
      (Sheets sheet_names read) in
  match find names_ne_name (rev cols), find names_subnet (rev cols) with
  | Some ne_name_col, Some subnet_col =>
      exists ne_pos subnet_pos,
        column_pos cols ne_name_col = Some ne_pos
        /\ column_pos cols subnet_col = Some subnet_pos
        /\ let report :=
             filter (fun r => filled (fst r))
               (map (fun row : list cell =>
                        (stripped_cell (nth ne_pos row None),
                                 stripped_cell (nth subnet_pos row None)))
                  (rows df)) in
           response
           = ReportFound report (List.length report) ne_name_col subnet_col
  | None, _ =>
      response
      = ReportFailure
          (lit "Kolom 'NE Name' tidak ditemukan. Kolom tersedia: "
           ++ Py.join (lit ", ") cols)
  | Some _, None =>
      response
      = ReportFailure
          (lit "Kolom 'Subnet' tidak ditemukan. Kolom tersedia: "
           ++ Py.join (lit ", ") cols)
  end.
Proof.
  intros Hname Hexcel Hsheet Hread Hnd cols response.
  unfold response, api_excel_parse_ne_report, parse_report.
  destruct filename as [|ch filename]; [contradiction|].
  rewrite Hexcel, Hsheet, Hread. cbn [negb]. cbv zeta. fold cols.
  rewrite find_columns_last.
  assert (Hne : forall col, names_ne_name col = true -> Py.truthy col = true).
  { intros [|c col]; [discriminate | reflexivity]. }
  assert (Hsub : forall col, names_subnet col = true -> Py.truthy col = true).
  { intros [|c col]; [discriminate | reflexivity]. }
  destruct (find names_ne_name (rev cols)) as [ne_name_col|] eqn:E1.
  - apply find_some in E1. destruct E1 as [Hin1 Hp1]. apply in_rev in Hin1.
    rewrite (Hne _ Hp1). cbn [negb].
    destruct (find names_subnet (rev cols)) as [subnet_col|] eqn:E2;
      [|reflexivity].
    apply find_some in E2. destruct E2 as [Hin2 Hp2]. apply in_rev in Hin2.
    rewrite (Hsub _ Hp2). cbn [negb].
    destruct (column_pos_some _ _ Hin1) as (ne_pos & Hpos1 & _).
    destruct (column_pos_some _ _ Hin2) as (subnet_pos & Hpos2 & _).
    exists ne_pos, subnet_pos. split; [exact Hpos1|]. split; [exact Hpos2|].
    cbv zeta.
    now rewrite (report_records_unique _ _ _ _ _ _ _ Hnd Hpos1 Hpos2).
  - now destruct (find names_subnet (rev cols)).
Qed.

Lemma parse_ne_report_found_witness :
  api_excel_parse_ne_report (Some (lit "rings.xlsx")) (lit "Sheet2")
    report_workbook
  = ReportFound [(lit "PAG-7", lit "Ring 1"); (lit "pag-7", lit "Ring 3")]
      2 (lit "Old NE Name") (lit "Subnet").
Proof.
  assert (N : NoDup (map Py.strip (columns report_frame))).
  { simpl. repeat constructor; simpl; intuition discriminate. }
  pose proof (parse_ne_report_found (lit "rings.xlsx") (lit "Sheet2")
                [lit "Sheet1"; lit "Sheet2"] (fun _ => inl report_frame)
                report_frame ltac:(discriminate) eq_refl eq_refl eq_refl N)
    as H.
  cbv zeta in H.
  change (find names_ne_name (rev (map Py.strip (columns report_frame))))
    with (Some (lit "Old NE Name")) in H.
  change (find names_subnet (rev (map Py.strip (columns report_frame))))
    with (Some (lit "Subnet")) in H.
  destruct H as (ne_pos & subnet_pos & P1 & P2 & E).
  inversion P1; subst ne_pos. inversion P2; subst subnet_pos.
  exact E.
Defined.

Lemma strip_idempotent (s : text) : Py.strip (Py.strip s) = Py.strip s.
Proof.
  unfold Py.strip at 1.
  rewrite (lstrip_fixed (Py.strip s)).
  - apply rstrip_fixed. apply rstrip_last.
  - apply rstrip_head, lstrip_head.
Qed.

Lemma stripped_field_fixed (cols : list text) (row : list cell)
    (col value : text) :
  stripped_field cols row col = Ok value -> Py.strip value = value.
Proof.
  unfold stripped_field.
  destruct (1 <? List.length (filter (Py.eqb col) cols)); [discriminate|].
  destruct (row_get cols row col) as [[s|]|]; intros H; inversion H;
    try reflexivity.
  apply strip_idempotent.
Qed.

Lemma report_records_kept (keep : text -> text -> bool) (cols : list text)
    (first_col second_col : text) (rs : list (list cell)) :
  forall report out,
  report_records keep cols first_col second_col rs report = Ok out ->
  Forall (fun r => keep (fst r) (snd r) = true
                   /\ Py.strip (fst r) = fst r
                   /\ Py.strip (snd r) = snd r) report ->
  Forall (fun r => keep (fst r) (snd r) = true
                   /\ Py.strip (fst r) = fst r
                   /\ Py.strip (snd r) = snd r) out.
Proof.
  induction rs as [|row rs IH]; intros report out.
  - simpl. intros H. now inversion H.
  - cbn [report_records].
    destruct (stripped_field cols row first_col) as [first|] eqn:E1;
      [|discriminate].
    destruct (stripped_field cols row second_col) as [second|] eqn:E2;
      [|discriminate].
    intros H Hrep. apply (IH _ _ H).
    destruct (keep first second) eqn:K; [|exact Hrep].
    apply Forall_app. split; [exact Hrep|].
    constructor; [|constructor]. cbn [fst snd].
    split; [exact K|].
    split; [apply (stripped_field_fixed _ _ _ _ E1)
           | apply (stripped_field_fixed _ _ _ _ E2)].
Qed.

Lemma find_map {A B : Type} (f : A -> B) (p : B -> bool) (l : list A) :
  find p (map f l) = option_map f (find (fun x => p (f x)) l).
Proof.
  induction l as [|x l IH]; [reflexivity|]. simpl.
  destruct (p (f x)); [reflexivity | exact IH].
Qed.

Lemma find_ext_in {A : Type} (p q : A -> bool) (l : list A) :
  (forall x, In x l -> p x = q x) -> find p l = find q l.
Proof.
  induction l as [|x l IH]; intros H; [reflexivity|]. simpl.
  rewrite (H x) by now left.
  destruct (q x); [reflexivity|]. apply IH. intros y Hy. apply H. now right.
Qed.

Lemma parse_report_kept (first_test second_test : text -> bool)
    (first_label second_label report_label : text)
    (keep : text -> text -> bool) (file : option text) (sheet_name : text)
    (workbook : Workbook DataFrame) (report : list (text * text))
    (record_count : nat)
    (first_col second_col : text) :
  parse_report first_test second_test first_label second_label report_label
    keep file sheet_name workbook
  = ReportFound report record_count first_col second_col ->
  record_count = List.length report
  /\ Forall (fun r => keep (fst r) (snd r) = true
                      /\ Py.strip (fst r) = fst r
                      /\ Py.strip (snd r) = snd r) report.
Proof.
  unfold parse_report.
  destruct file as [[|ch filename]|]; try discriminate.
  destruct (is_excel_name (ch :: filename)); [|discriminate]. cbn [negb].
  destruct workbook as [e|sheet_names read]; [discriminate|].
  destruct (existsb (Py.eqb sheet_name) sheet_names); [|discriminate].
  cbn [negb]. destruct (read sheet_name) as [df|e]; [|discriminate].
  cbv zeta.
  destruct (find_columns first_test second_test
              (map Py.strip (columns df)) None None) as [[first|] second];
    [|discriminate].
  destruct (Py.truthy first); [|discriminate]. cbn [negb].
  destruct second as [second|]; [|discriminate].
  destruct (Py.truthy second); [|discriminate]. cbn [negb].
  destruct (report_records keep (map Py.strip (columns df)) first second
              (rows df) []) as [out|e] eqn:E; [|discriminate].
  intros H. inversion H; subst. clear H.
  split; [reflexivity|].
  exact (report_records_kept _ _ _ _ _ _ _ E (Forall_nil _)).
Qed.

Lemma report_lookup (report : list (text * text)) (k : text) :
  Forall (fun r => filled (fst r) = true
                   /\ Py.strip (fst r) = fst r
                   /\ Py.strip (snd r) = snd r) report ->
  dict_get (build_lookup (report_json report) []) k
  = option_map snd
      (find (fun r => Py.eqb k (Py.lower (fst r))) (rev report)).
Proof.
  intros Hkept. rewrite build_lookup_get. cbn [dict_get].
  unfold report_json. rewrite <- map_rev, find_map.
  rewrite Forall_forall in Hkept.
  rewrite (find_ext_in _ (fun r => Py.eqb k (Py.lower (fst r)))).
  - destruct (find _ (rev report)) as [r|] eqn:F; [|reflexivity].
    cbn [option_map snd field_str json_str].
    apply find_some in F. destruct F as [Hin _]. apply in_rev in Hin.
    destruct (Hkept r Hin) as (_ & _ & S). now rewrite S.
  - intros r Hin. apply in_rev in Hin.
    destruct (Hkept r Hin) as (K & S & _).
    unfold binds. cbn [fst field_str json_str]. now rewrite S, K.
Qed.

(** X27.  A report that the NE report route returns can be given to the
    ring auto-fill as it is: every record has a name that counts as
    filled, so none is skipped when the lookup is built, and the lookup
    holds for a lower-cased name the subnet of the last record of the
    report with that name in any letter case. *)
Theorem parsed_report_lookup (file : option text) (sheet_name : text)
    (workbook : Workbook DataFrame) (report : list (text * text))
    (record_count : nat)
    (ne_name_col subnet_col : text) :
  api_excel_parse_ne_report file sheet_name workbook
  = ReportFound report record_count ne_name_col subnet_col ->
  record_count = List.length report
  /\ Forall (fun r => filled (fst r) = true) report
  /\ forall k,
       dict_get (build_lookup (report_json report) []) k
       = option_map snd
           (find (fun r => Py.eqb k (Py.lower (fst r))) (rev report)).
Proof.
  intros H. apply parse_report_kept in H. destruct H as [Hcount Hkept].
  split; [exact Hcount|]. split.
  - eapply Forall_impl; [|exact Hkept]. now intros r [K _].
  - intros k. now apply report_lookup.
Qed.

Lemma parsed_report_lookup_witness :
  dict_get
    (build_lookup
       (report_json [(lit "PAG-7", lit "Ring 1"); (lit "pag-7", lit "Ring 3")])
       []) (lit "pag-7")
  = Some (lit "Ring 3").
Proof.
  assert (E : api_excel_parse_ne_report (Some (lit "rings.xlsx"))
                (lit "Sheet2") report_workbook
              = ReportFound
                  [(lit "PAG-7", lit "Ring 1"); (lit "pag-7", lit "Ring 3")]
                  2 (lit "Old NE Name") (lit "Subnet")) by reflexivity.
  destruct (parsed_report_lookup _ _ _ _ _ _ _ E) as (_ & _ & L).
  rewrite L. reflexivity.
Defined.

(** X28.  A report that the hostname report route returns has a filled
    site id and a filled hostname in every record, so the lookup the
    hostname auto-fill builds from it never holds an empty hostname: a
    key is reported as not found only when no record has it. *)
Theorem parsed_hostname_report_filled (file : option text)
    (sheet_name : text) (workbook : Workbook DataFrame)
    (report : list (text * text)) (record_count : nat) (site_id_col ne_name_col : text) :
  api_excel_parse_hostname_report file sheet_name workbook
  = ReportFound report record_count site_id_col ne_name_col ->
  record_count = List.length report
  /\ Forall (fun r => filled (fst r) = true /\ filled (snd r) = true) report
  /\ forall k value,
       dict_get (build_lookup (report_json report) []) k = Some value ->
       filled value = true
       /\ exists r, In r report /\ Py.lower (fst r) = k /\ snd r = value.
Proof.
  intros H. apply parse_report_kept in H. destruct H as [Hcount Hkept].
  cbv beta in Hkept.
  assert (Hboth : Forall (fun r => filled (fst r) = true
                                   /\ filled (snd r) = true) report).
  { eapply Forall_impl; [|exact Hkept]. intros r [K _].
    now apply andb_true_iff in K. }
  split; [exact Hcount|]. split; [exact Hboth|].
  intros k value. rewrite report_lookup.
  - destruct (find (fun r => Py.eqb k (Py.lower (fst r))) (rev report))
      as [r|] eqn:F; [|discriminate].
    intros E. inversion E; subst value.
    apply find_some in F. destruct F as [Hin Hk]. apply in_rev in Hin.
    apply py_eqb_eq in Hk.
    rewrite Forall_forall in Hboth. split; [apply (Hboth r Hin)|].
    exists r. repeat split; auto.
  - eapply Forall_impl; [|exact Hkept]. intros r (K & S1 & S2).
    apply andb_true_iff in K. tauto.
Qed.

Lemma parsed_hostname_report_filled_witness :
  let workbook :=
    Sheets [lit "Sheet2"]
      (fun _ => inl (mkFrame [lit "Site ID"; lit "Hostname"]
                       [[Some (lit "JKT001"); Some (lit " PAG-7 ")];
                        [Some (lit "JKT002"); None]])) in
  api_excel_parse_hostname_report (Some (lit "sites.xls")) (lit "Sheet2")
    workbook
  = ReportFound [(lit "JKT001", lit "PAG-7")] 1 (lit "Site ID")
      (lit "Hostname")
  /\ Forall (fun r => filled (fst r) = true /\ filled (snd r) = true)
       [(lit "JKT001", lit "PAG-7")].
Proof.
  intros workbook.
  assert (E : api_excel_parse_hostname_report (Some (lit "sites.xls"))
                (lit "Sheet2") workbook
              = ReportFound [(lit "JKT001", lit "PAG-7")] 1 (lit "Site ID")
                  (lit "Hostname")) by reflexivity.
  split; [exact E|].
  exact (proj1 (proj2 (parsed_hostname_report_filled _ _ _ _ _ _ _ E))).
Defined.

(** ** The topology sheet *)

Lemma contains_char (c : ascii) (s : text) :
  Py.contains [c] s = existsb (Ascii.eqb c) s.
Proof.
  induction s as [|x s IH]; [reflexivity|].
  cbn [Py.contains Py.startswith existsb]. rewrite IH.
  now rewrite andb_true_r.
Qed.

Lemma lstrip_keeps_char (c : ascii) (s : text) :
  Py.isspace c = false ->
  existsb (Ascii.eqb c) (Py.lstrip s) = existsb (Ascii.eqb c) s.
Proof.
  intros Hc. induction s as [|x s IH]; [reflexivity|]. simpl.
  destruct (Py.isspace x) eqn:Ex; [|reflexivity].
  rewrite IH. destruct (Ascii.eqb_spec c x) as [->|]; [congruence|].
  reflexivity.
Qed.

Lemma existsb_rev {A : Type} (f : A -> bool) (l : list A) :
  existsb f (rev l) = existsb f l.
Proof.
  induction l as [|x l IH]; [reflexivity|]. simpl.
  rewrite existsb_app, IH. simpl. rewrite orb_false_r. apply orb_comm.
Qed.

Lemma strip_keeps_char (c : ascii) (s : text) :
  Py.isspace c = false ->
  existsb (Ascii.eqb c) (Py.strip s) = existsb (Ascii.eqb c) s.
Proof.
  intros Hc. unfold Py.strip, Py.rstrip.
  now rewrite existsb_rev, lstrip_keeps_char, existsb_rev, lstrip_keeps_char.
Qed.

Lemma find_nearest_cag_chains (pag_hostname : text) (chains : list text) :
  Forall (fun chain => chain <> []) chains ->
  find_nearest_cag pag_hostname (map JStr chains)
  = hd_error (chain_answers pag_hostname chains).
Proof.
  induction 1 as [|chain chains Hne _ IH]; [reflexivity|].
  destruct chain as [|c chain]; [contradiction|].
  cbn [map find_nearest_cag chain_answers flat_map].
  destruct (nearest_in_chain pag_hostname (c :: chain)); [reflexivity|].
  exact IH.
Qed.

(** X29.  For an Excel upload with the sheet asked for, the chains
    returned are the cells, taken column by column, that show a comma and
    are not [nan], each stripped; every chain still shows a comma and is
    not empty, so the C/AG lookup over the chains returned skips none: its
    answer is the answer of the first chain that has one. *)
Theorem parse_topo_chains (filename sheet_name : text)
    (sheet_names : list text) (read : text -> TopoSheet + text)
    (sheet : TopoSheet) :
  filename <> [] ->
  is_excel_name filename = true ->
  existsb (Py.eqb sheet_name) sheet_names = true ->
  read sheet_name = inl sheet ->
  exists chains,
    api_excel_parse_topo (Some filename) sheet_name (Sheets sheet_names read)
    = TopoFound chains (List.length chains)
    /\ (forall chain, In chain chains
          <-> exists column val,
                In column sheet /\ In (Some val) column
                /\ Py.contains (lit ",") val = true
                /\ is_nan_text val = false
                /\ Py.strip val = chain)
    /\ Forall (fun chain => Py.contains (lit ",") chain = true
                            /\ Py.strip chain = chain /\ chain <> [])
         chains
    /\ forall pag_hostname,
         find_nearest_cag pag_hostname (map JStr chains)
         = hd_error (chain_answers pag_hostname chains).
Proof.
  intros Hname Hexcel Hsheet Hread.
  exists (topo_chains sheet).
  assert (Hin : forall chain, In chain (topo_chains sheet)
            <-> exists column val,
                  In column sheet /\ In (Some val) column
                  /\ Py.contains (lit ",") val = true
                  /\ is_nan_text val = false
                  /\ Py.strip val = chain).
  { intros chain. unfold topo_chains. rewrite in_flat_map. split.
    - intros (column & Hcol & Hc). apply in_map_iff in Hc.
      destruct Hc as (val & Hs & Hv). apply filter_In in Hv.
      destruct Hv as [Hv Hk]. unfold is_chain in Hk.
      apply andb_true_iff in Hk. destruct Hk as [Hk Hcomma].
      apply andb_true_iff in Hk. destruct Hk as [_ Hnan].
      apply negb_true_iff in Hnan.
      exists column, val. repeat split; auto.
      unfold dropna in Hv. apply in_flat_map in Hv.
      destruct Hv as ([s|] & Hs' & Hv); [|destruct Hv].
      destruct Hv as [->|[]]. exact Hs'.
    - intros (column & val & Hcol & Hv & Hcomma & Hnan & Hs).
      exists column. split; [exact Hcol|]. apply in_map_iff.
      exists val. split; [exact Hs|]. apply filter_In. split.
      + unfold dropna. apply in_flat_map. exists (Some val).
        split; [exact Hv | now left].
      + unfold is_chain. rewrite Hnan, Hcomma.
        destruct val; [discriminate Hcomma | reflexivity]. }
  assert (Hall : Forall (fun chain => Py.contains (lit ",") chain = true
                                      /\ Py.strip chain = chain
                                      /\ chain <> []) (topo_chains sheet)).
  { apply Forall_forall. intros chain Hc. apply Hin in Hc.
    destruct Hc as (column & val & _ & _ & Hcomma & _ & <-).
    assert (Hk : Py.contains (lit ",") (Py.strip val) = true).
    { change (lit ",") with [","%char] in *.
      rewrite contains_char in *.
      now rewrite strip_keeps_char. }
    split; [exact Hk|]. split; [apply strip_idempotent|].
    intros E. rewrite E in Hk. discriminate. }
  split; [|split; [exact Hin|split; [exact Hall|]]].
  - unfold api_excel_parse_topo.
    destruct filename as [|c filename]; [contradiction|].
    now rewrite Hexcel, Hsheet, Hread.
  - intros pag_hostname. apply find_nearest_cag_chains.
    eapply Forall_impl; [|exact Hall]. now intros chain (_ & _ & H).
Qed.

Lemma parse_topo_chains_witness :
  exists chains,
    api_excel_parse_topo (Some (lit "rings.xlsx")) (lit "topo")
      (Sheets [lit "Sheet1"; lit "topo"] (fun _ => inl topo_sheet))
    = TopoFound chains (List.length chains)
    /\ chains = [lit "AG-1, PAG-7 ,C-2, PAG-9"]
    /\ find_nearest_cag (lit "PAG-9") (map JStr chains) = Some (lit "C-2").
Proof.
  destruct (parse_topo_chains (lit "rings.xlsx") (lit "topo")
              [lit "Sheet1"; lit "topo"] (fun _ => inl topo_sheet)
              topo_sheet ltac:(discriminate) eq_refl eq_refl eq_refl)
    as (chains & E & _ & _ & L).
  exists chains. split; [exact E|].
  assert (C : chains = [lit "AG-1, PAG-7 ,C-2, PAG-9"])
    by (inversion E; reflexivity).
  split; [exact C|]. rewrite L, C. reflexivity.
Defined.
